(** * kaldi-python-io: the stream-and-index layer of [data_handler.py]

    A shallow embedding of [data_handler.py] (stream sources, the script
    parser, the random-access readers and the archive writer) together
    with the properties its specification states about them.

    Conventions of the embedding.
    - A Python [str] is a [string]; its characters are the code points
      below 256.  [bytes] are [list byte].  Text streams use a one byte per
      character encoding, so that a text file is the byte image of its
      characters.
    - A Python [int] is a [Z].
    - An exception is a value of [exn]; a call that may raise returns a
      [result].  Code that touches files, standard streams or processes is
      written in the monad [IO] over the state of the outside [World].
    - The payload codec ([iobase]) is outside this file: it is the class
      [Codec]. *)

From Stdlib Require Import ZArith NArith Ascii String List Lia Bool.
From Stdlib.Strings Require Import Byte.
From Stdlib Require Import Decimal DecimalString DecimalN DecimalPos.
From stdpp Require Import base option list strings gmap.

Local Open Scope Z_scope.

(** ** Strings *)

Module PyStr.

(** [str.isspace] on one character (code points below 256). *)
Definition isspace (c : ascii) : bool :=
  let n := N_of_ascii c in
  ((9 <=? n) && (n <=? 13) || (28 <=? n) && (n <=? 32)
   || (n =? 133) || (n =? 160))%N.

Definition nonempty (s : string) : bool :=
  match s with "" => false | String _ _ => true end.

(** [s.lstrip()], [s.rstrip()], [s.strip()]. *)
Fixpoint lstrip (s : string) : string :=
  match s with
  | "" => ""
  | String c r => if isspace c then lstrip r else s
  end.

Fixpoint rstrip (s : string) : string :=
  match s with
  | "" => ""
  | String c r =>
      let r' := rstrip r in
      if negb (nonempty r') && isspace c then "" else String c r'
  end.

Definition strip (s : string) : string := rstrip (lstrip s).

(** [s.split()]: the maximal runs of non-space characters, in order.
    [cur] is the run being read ([""] when none is open). *)
Fixpoint split_go (cur : string) (s : string) : list string :=
  match s with
  | "" => if nonempty cur then [cur] else []
  | String c r =>
      if isspace c
      then (if nonempty cur then [cur] else []) ++ split_go "" r
      else split_go (cur +:+ String c "") r
  end.

Definition split (s : string) : list string := split_go "" s.

(** [s.split(sep)] for a one-character separator: every occurrence
    cuts, empty pieces are kept, the result is never empty. *)
Fixpoint split_on_go (sep : ascii) (cur : string) (s : string) : list string :=
  match s with
  | "" => [cur]
  | String c r =>
      if decide (c = sep) then cur :: split_on_go sep "" r
      else split_on_go sep (cur +:+ String c "") r
  end.

Definition split_on (sep : ascii) (s : string) : list string :=
  split_on_go sep "" s.

(** [sep.join(l)]. *)
Definition join (sep : string) (l : list string) : string :=
  String.concat sep l.

(** ["{:d}".format(z)]. *)
Definition format_d (z : Z) : string :=
  match z with
  | Zneg p => String "-" (NilEmpty.string_of_uint (Pos.to_uint p))
  | _ => NilEmpty.string_of_uint (N.to_uint (Z.to_N z))
  end.

Definition digit (c : ascii) : option N :=
  let n := N_of_ascii c in
  if ((48 <=? n) && (n <=? 57))%N then Some (n - 48)%N else None.

(** The digits of an [int] literal after its first digit: digits, each
    optionally preceded by one underscore. *)
Fixpoint int_digits (acc : N) (s : string) : option N :=
  match s with
  | "" => Some acc
  | String "_" (String c r) =>
      match digit c with
      | Some d => int_digits (10 * acc + d)%N r
      | None => None
      end
  | String c r =>
      match digit c with
      | Some d => int_digits (10 * acc + d)%N r
      | None => None
      end
  end.

Definition int_unsigned (s : string) : option N :=
  match s with
  | "" => None
  | String c r =>
      match digit c with
      | Some d => int_digits d r
      | None => None
      end
  end.

(** The white space [int] skips around a literal: that of [str.isspace]
    without the four separators [0x1C]-[0x1F]. *)
Definition int_space (c : ascii) : bool :=
  let n := N_of_ascii c in
  isspace c && negb ((28 <=? n) && (n <=? 31))%N.

Fixpoint int_lstrip (s : string) : string :=
  match s with
  | "" => ""
  | String c r => if int_space c then int_lstrip r else s
  end.

Fixpoint int_rstrip (s : string) : string :=
  match s with
  | "" => ""
  | String c r =>
      let r' := int_rstrip r in
      if negb (nonempty r') && int_space c then "" else String c r'
  end.

(** [int(s)] in base ten; [None] where Python raises [ValueError] (the
    limit an interpreter may set on the number of digits is left out). *)
Definition int (s : string) : option Z :=
  match int_rstrip (int_lstrip s) with
  | String "-" r => (fun n => - Z.of_N n) <$> int_unsigned r
  | String "+" r => Z.of_N <$> int_unsigned r
  | t => Z.of_N <$> int_unsigned t
  end.

(** A string without white space. *)
Fixpoint no_space (s : string) : bool :=
  match s with
  | "" => true
  | String c r => negb (isspace c) && no_space r
  end.

(** A string of white space only. *)
Fixpoint all_space (s : string) : bool :=
  match s with
  | "" => true
  | String c r => isspace c && all_space r
  end.

Fixpoint no_char (x : ascii) (s : string) : bool :=
  match s with
  | "" => true
  | String c r => negb (bool_decide (c = x)) && no_char x r
  end.

(** A string without line break. *)
Definition no_newline (s : string) : bool :=
  no_char "010" s && no_char "013" s.

End PyStr.

(** ** Exceptions, results and the outside world *)

(** The first group is raised by [data_handler.py] itself and carries the
    formatted message; the second group is raised by the interpreter and
    its built-in functions at the places the code relies on them; the last
    one by the codec. *)
Inductive exn : Type :=
| RuntimeError (msg : string)
| ValueError (msg : string)
| KeyError (msg : string)
| IndexError (msg : string)
| FileNotFoundError (msg : string)
| NotImplementedError
| IntLiteralError (literal : string)    (* ValueError of [int(literal)] *)
| DictKeyError (key : string)           (* KeyError of [d[key]] *)
| ListIndexError                        (* IndexError of [l[i]] *)
| StringIndexError                      (* IndexError of [s[-1]] on [""] *)
| NoneTypeError (what : string)         (* TypeError / AttributeError on [None] *)
| UnboundLocalError (name : string)
| KeyboardInterrupt                     (* the interrupt of the main thread *)
| OpenError (path : string)             (* OSError of [open(path)] *)
| SeekError (offset : Z)                (* [f.seek] to a negative offset *)
| StreamError (what : string)           (* I/O on a closed or unsuitable stream *)
| CodecError (msg : string)
| UnicodeDecodeError                    (* [bytes.decode] on other than UTF-8 *)
| BeyondModel (what : string).          (* no exception: see [bytes_decode] *)

Inductive result (A : Type) : Type :=
| Ok (a : A)
| Raise (e : exn).
Arguments Ok {A} a.
Arguments Raise {A} e.

(** Kinds of byte channel behind a stream (section 3 of the
    specification): a standard stream, the output of a subprocess, a
    regular file. *)
Inductive stream_kind : Type :=
| StdIn
| StdOut
| PipeStdout (command : string)
| RegularFile (path : string).

(** A file object: [binary] tells [sys.stdin.buffer] from [sys.stdin] and
    mode ["rb"] from ["r"]; [closed] is set by [close()]. *)
Record stream : Type := Stream {
  kind : stream_kind;
  binary : bool;
  writable : bool;
  closed : bool
}.

(** The state outside the program.  [fs] maps the absolute path of each
    regular file to its content; [spawned] lists the commands started with
    [subprocess.Popen], [monitors] the commands a waiter thread was started
    for, [warnings] the texts given to [warnings.warn], [interrupts] counts
    the calls of [_thread.interrupt_main]. *)
Record World : Type := mkWorld {
  fs : gmap string (list byte);
  stdin : list byte;
  stdout : list byte;
  spawned : list string;
  monitors : list string;
  warnings : list string;
  interrupts : nat
}.

Definition set_fs (f : gmap string (list byte) -> gmap string (list byte))
    (w : World) : World :=
  mkWorld (f (fs w)) (stdin w) (stdout w) (spawned w) (monitors w)
          (warnings w) (interrupts w).

Definition set_stdin (b : list byte) (w : World) : World :=
  mkWorld (fs w) b (stdout w) (spawned w) (monitors w) (warnings w)
          (interrupts w).

Definition set_stdout (b : list byte) (w : World) : World :=
  mkWorld (fs w) (stdin w) b (spawned w) (monitors w) (warnings w)
          (interrupts w).

Definition add_spawned (c : string) (w : World) : World :=
  mkWorld (fs w) (stdin w) (stdout w) (spawned w ++ [c]) (monitors w)
          (warnings w) (interrupts w).

Definition add_monitor (c : string) (w : World) : World :=
  mkWorld (fs w) (stdin w) (stdout w) (spawned w) (monitors w ++ [c])
          (warnings w) (interrupts w).

Definition add_warning (m : string) (w : World) : World :=
  mkWorld (fs w) (stdin w) (stdout w) (spawned w) (monitors w)
          (warnings w ++ [m]) (interrupts w).

Definition add_interrupt (w : World) : World :=
  mkWorld (fs w) (stdin w) (stdout w) (spawned w) (monitors w)
          (warnings w) (S (interrupts w)).

(** The monad of the code that performs I/O: state passing over [World],
    with exceptions. *)
Definition IO (A : Type) : Type := World -> World * result A.

Definition ret {A} (a : A) : IO A := fun w => (w, Ok a).

Definition raise {A} (e : exn) : IO A := fun w => (w, Raise e).

Definition bind {A B} (m : IO A) (k : A -> IO B) : IO B :=
  fun w => match m w with
           | (w', Ok a) => k a w'
           | (w', Raise e) => (w', Raise e)
           end.

Definition lift {A} (r : result A) : IO A := fun w => (w, r).

Definition modify (f : World -> World) : IO unit := fun w => (f w, Ok tt).

Definition gets {A} (f : World -> A) : IO A := fun w => (w, Ok (f w)).

(** [try: m] with the outcome kept as a value. *)
Definition attempt {A} (m : IO A) : IO (result A) :=
  fun w => match m w with (w', r) => (w', Ok r) end.

Declare Scope io_scope.
Delimit Scope io_scope with io.
Notation "x <- m ;; k" := (bind m (fun x => k))
  (at level 20, m at level 99, k at level 200) : io_scope.
Notation "m ;; k" := (bind m (fun _ => k))
  (at level 100, k at level 200, right associativity) : io_scope.
Notation "' pat <- m ;; k" := (bind m (fun x => match x with pat => k end))
  (at level 20, pat pattern, m at level 99, k at level 200) : io_scope.

(** [for x in l: body(x)], leaving the loop at the first exception. *)
Fixpoint for_each {A} (l : list A) (body : A -> IO unit) : IO unit :=
  match l with
  | [] => ret tt
  | x :: l' => (body x ;; for_each l' body)%io
  end.

(** The platform: [os.path.abspath] in the current directory, and what a
    shell command writes to its standard output and exits with. *)
Class Platform : Type := {
  abspath : string -> string;
  shell : string -> list byte * Z
}.

(** The payload codec [iobase], by the bytes its writers append and by
    what its readers decode from the bytes at the current position
    (returning the bytes that follow). *)
Class Codec (Mat Vec : Type) : Type := {
  write_token : string -> list byte;
  write_binary_symbol : list byte;
  write_common_mat : Mat -> list byte;
  expect_binary : list byte -> result (list byte);
  read_general_mat : list byte -> result (Mat * list byte);
  read_common_int_vec : list byte -> result (Vec * list byte)
}.

(** ** Stream sources: [pipe_fopen], [_fopen], [_fclose], [ext_open] *)

(** [s[-1]] and [s[:-1]]. *)
Fixpoint last_char (s : string) : option ascii :=
  match s with
  | "" => None
  | String c "" => Some c
  | String _ r => last_char r
  end.

Fixpoint but_last (s : string) : string :=
  match s with
  | "" => ""
  | String _ "" => ""
  | String c r => String c (but_last r)
  end.

Definition dquote : string := String (ascii_of_nat 34) "".

(** The text of a file opened in text mode.  The encoding is the one of
    the locale, taken here to write and to read one byte for a character;
    the encodings of the locales agree with it on ASCII text, for which
    the statements about the bytes of a text file are made. *)
Definition text_decode (b : list byte) : string := string_of_list_byte b.

Definition str_encode (s : string) : list byte := list_byte_of_string s.

(** [bytes.decode()]: strict UTF-8, whatever the locale.  A sequence is one
    byte below [0x80], or a lead byte and its continuation bytes, without
    overlong forms, surrogates or code points above [U+10FFFF]; any other
    byte raises [UnicodeDecodeError]. *)
Definition byte_in (lo hi : N) (x : byte) : bool :=
  ((lo <=? Byte.to_N x) && (Byte.to_N x <=? hi))%N.

Definition continuation (x : byte) : bool := byte_in 128 191 x.

(** The six bits a continuation byte carries. *)
Definition low_bits (x : byte) : N := (Byte.to_N x - 128)%N.

Definition push (n : N) (r : result (list N)) : result (list N) :=
  match r with
  | Ok l => Ok (n :: l)
  | Raise e => Raise e
  end.

Fixpoint utf8_code_points (b : list byte) : result (list N) :=
  match b with
  | [] => Ok []
  | x :: r =>
      let n := Byte.to_N x in
      if (n <? 128)%N then push n (utf8_code_points r)
      else if byte_in 194 223 x then
        match r with
        | c1 :: r1 =>
            if continuation c1
            then push ((n - 192) * 64 + low_bits c1)%N (utf8_code_points r1)
            else Raise UnicodeDecodeError
        | _ => Raise UnicodeDecodeError
        end
      else if byte_in 224 239 x then
        match r with
        | c1 :: c2 :: r2 =>
            if byte_in (if (n =? 224)%N then 160 else 128)
                       (if (n =? 237)%N then 159 else 191) c1
               && continuation c2
            then push (((n - 224) * 64 + low_bits c1) * 64 + low_bits c2)%N
                      (utf8_code_points r2)
            else Raise UnicodeDecodeError
        | _ => Raise UnicodeDecodeError
        end
      else if byte_in 240 244 x then
        match r with
        | c1 :: c2 :: c3 :: r3 =>
            if byte_in (if (n =? 240)%N then 144 else 128)
                       (if (n =? 244)%N then 143 else 191) c1
               && continuation c2 && continuation c3
            then push ((((n - 240) * 64 + low_bits c1) * 64 + low_bits c2) * 64
                       + low_bits c3)%N
                      (utf8_code_points r3)
            else Raise UnicodeDecodeError
        | _ => Raise UnicodeDecodeError
        end
      else Raise UnicodeDecodeError
  end.

(** The strings of the model hold the characters up to [U+00FF]. *)
Fixpoint str_of_code_points (l : list N) : option string :=
  match l with
  | [] => Some ""
  | n :: r =>
      if (n <? 256)%N
      then String (ascii_of_N n) <$> str_of_code_points r
      else None
  end.

(** A text with a character above [U+00FF] is no string of the model: it
    is marked [BeyondModel], and the statements exclude it. *)
Definition bytes_decode (b : list byte) : result string :=
  match utf8_code_points b with
  | Raise e => Raise e
  | Ok l =>
      match str_of_code_points l with
      | Some s => Ok s
      | None => Raise (BeyondModel "character above U+00FF")
      end
  end.

Definition newline_byte : byte := byte_of_ascii "010"%char.

#[global] Instance byte_eq_decision : EqDecision byte := byte_eq_dec.

(** The lines a binary stream yields: cut after every line feed. *)
Fixpoint byte_lines_go (cur : list byte) (b : list byte) : list (list byte) :=
  match b with
  | [] => match cur with [] => [] | _ => [cur] end
  | x :: r =>
      if decide (x = newline_byte) then (cur ++ [x]) :: byte_lines_go [] r
      else byte_lines_go (cur ++ [x]) r
  end.

Definition line_feed : string := String "010"%char "".

(** The lines a text stream yields, with universal newlines: a carriage
    return, alone or before a line feed, reads as a line feed. *)
Fixpoint text_lines_go (cur : string) (s : string) : list string :=
  match s with
  | "" => if PyStr.nonempty cur then [cur] else []
  | String "010"%char r => (cur +:+ line_feed) :: text_lines_go "" r
  | String "013"%char (String "010"%char r) =>
      (cur +:+ line_feed) :: text_lines_go "" r
  | String "013"%char r => (cur +:+ line_feed) :: text_lines_go "" r
  | String c r => text_lines_go (cur +:+ String c "") r
  end.

(** What [for raw_line in f] binds [raw_line] to. *)
Inductive raw_line : Type :=
| StrLine (s : string)
| BytesLine (b : list byte).

(** [if type(raw_line) is bytes: raw_line = bytes.decode(raw_line)]. *)
Definition decode_line (raw : raw_line) : result string :=
  match raw with
  | BytesLine b => bytes_decode b
  | StrLine s => Ok s
  end.

Section StreamSource.
Context `{Platform}.

Definition warn (msg : string) : IO unit := modify (add_warning msg).

(** [os.path.exists] on a regular file. *)
Definition path_exists (fname : string) : IO bool :=
  gets (fun w => bool_decide (is_Some (fs w !! abspath fname))).

(** The built-in [open(fname, mode)] for the modes [_fopen] lets through:
    a write mode creates or truncates the file (the directory is taken to
    exist and to be writable), a read mode needs the file. *)
Definition open (fname mode : string) : IO stream :=
  (if bool_decide (mode ∈ ["w"; "wb"]) then
     modify (set_fs (insert (abspath fname) [])) ;;
     ret (Stream (RegularFile (abspath fname))
                 (bool_decide (mode = "wb")) true false)
   else
     e <- path_exists fname ;;
     if e
     then ret (Stream (RegularFile (abspath fname))
                      (bool_decide (mode = "rb")) false false)
     else raise (OpenError fname))%io.

(** [_thread.interrupt_main()] called by the main thread itself: the
    interrupt is delivered to the caller, which raises [KeyboardInterrupt]
    when the call returns. *)
Definition interrupt_main : IO unit :=
  (modify add_interrupt ;; raise KeyboardInterrupt)%io.

(** The waiter of [pipe_fopen], run by the calling thread: [p.wait()],
    then a warning and [_thread.interrupt_main()] when the command
    failed. *)
Definition background_command_waiter (command : string) : IO unit :=
  (let returncode := (shell command).2 in
   if bool_decide (returncode ≠ 0) then
     warn ("Command " +:+ dquote +:+ command +:+ dquote
           +:+ " exited with status " +:+ PyStr.format_d returncode) ;;
     interrupt_main
   else ret tt)%io.

(** With [background] the waiter is handed to a daemon thread: the model
    records that the thread was started, and what the thread then does,
    beside the main thread, is not part of this sequential semantics (it
    does nothing when the command exits with status zero).  Without it the
    caller runs the waiter before it returns the stream; the wait returns
    when the command has exited, which a command that prints more than the
    pipe holds never does (see [fits_pipe]). *)
Definition pipe_fopen (command mode : string) (background : bool) : IO stream :=
  (if negb (bool_decide (mode ∈ ["rb"; "r"])) then
     raise (RuntimeError "Now only support input from pipe")
   else
     modify (add_spawned command) ;;
     (if background then modify (add_monitor command)
      else background_command_waiter command) ;;
     ret (Stream (PipeStdout command) true false false))%io.

(** [fname] is [None] or a [str]. *)
Definition _fopen (fname : option string) (mode : string) : IO (option stream) :=
  (if negb (bool_decide (mode ∈ ["w"; "r"; "wb"; "rb"])) then
     raise (ValueError ("Unknown open mode: " +:+ mode))
   else
     match fname with
     | None => ret None
     | Some fname =>
         if negb (PyStr.nonempty fname) then ret None
         else if bool_decide (fname = "-") then
           if bool_decide (mode ∈ ["w"; "wb"])
           then ret (Some (Stream StdOut (bool_decide (mode = "wb")) true false))
           else ret (Some (Stream StdIn (bool_decide (mode = "rb")) false false))
         else if bool_decide (last_char fname = Some "|"%char) then
           f <- pipe_fopen (but_last fname) mode (bool_decide (mode = "rb")) ;;
           ret (Some f)
         else
           e <- path_exists fname ;;
           if bool_decide (mode ∈ ["r"; "rb"]) && negb e then
             raise (FileNotFoundError ("Could not find common file: " +:+ fname))
           else
             f <- open fname mode ;;
             ret (Some f)
     end)%io.

Definition close (f : stream) : stream :=
  Stream (kind f) (binary f) (writable f) true.

(** [_fclose] returns the file object as the call leaves it. *)
Definition _fclose (fname : option string) (fd : option stream)
    : result (option stream) :=
  if bool_decide (fname ≠ Some "-") then
    match fd with
    | None => Ok None
    | Some f =>
        match fname with
        | None => Raise (NoneTypeError "'NoneType' object is not subscriptable")
        | Some s =>
            match last_char s with
            | None => Raise StringIndexError
            | Some c =>
                if bool_decide (c ≠ "|"%char) then Ok (Some (close f))
                else Ok fd
            end
        end
    end
  else Ok fd.

(** [with ext_open(fname, mode) as f: body(f)]. *)
Definition with_ext_open {A} (fname : option string) (mode : string)
    (body : option stream -> IO A) : IO A :=
  (fd <- _fopen fname mode ;;
   r <- attempt (body fd) ;;
   _ <- lift (_fclose fname fd) ;;
   lift r)%io.

(** The bytes a readable stream delivers.  Reading standard input uses it
    up; a pipe delivers what its command prints. *)
Definition stream_bytes (f : stream) : IO (list byte) :=
  (if closed f then raise (StreamError "I/O operation on closed file")
   else if writable f then raise (StreamError "not readable")
   else
     match kind f with
     | StdIn => b <- gets stdin ;; modify (set_stdin []) ;; ret b
     | StdOut => raise (StreamError "not readable")
     | PipeStdout c => ret (shell c).1
     | RegularFile p => gets (fun w => default [] (fs w !! p))
     end)%io.

(** The sequence [for raw_line in f] runs over. *)
Definition iter_lines (f : option stream) : IO (list raw_line) :=
  match f with
  | None => raise (NoneTypeError "'NoneType' object is not iterable")
  | Some f =>
      (b <- stream_bytes f ;;
       if binary f then ret (BytesLine <$> byte_lines_go [] b)
       else ret (StrLine <$> text_lines_go "" (text_decode b)))%io
  end.

(** [fd.write(data)] on a stream opened for writing, and [fd.tell()].  A
    file opened for writing was created empty and is written through this
    one stream, at its end: its position is its length. *)
Definition stream_write (fd : option stream) (data : list byte) : IO unit :=
  match fd with
  | None => raise (NoneTypeError "'NoneType' object has no attribute 'write'")
  | Some f =>
      if closed f then raise (StreamError "I/O operation on closed file")
      else if negb (writable f) then raise (StreamError "not writable")
      else
        match kind f with
        | StdOut => modify (fun w => set_stdout (stdout w ++ data) w)
        | RegularFile p =>
            modify (set_fs (fun m => <[p := default [] (m !! p) ++ data]> m))
        | _ => raise (StreamError "not writable")
        end
  end.

Definition stream_tell (fd : option stream) : IO Z :=
  match fd with
  | None => raise (NoneTypeError "'NoneType' object has no attribute 'tell'")
  | Some f =>
      if closed f then raise (StreamError "I/O operation on closed file")
      else
        match kind f with
        | RegularFile p =>
            gets (fun w => Z.of_nat (length (default [] (fs w !! p))))
        | _ => raise (StreamError "underlying stream is not seekable")
        end
  end.

End StreamSource.

(** ** Dictionaries

    A Python [dict] keeps its keys in insertion order, and the readers
    rely on it ([index_keys]): a dictionary is the list of its items in
    that order, without repeated keys. *)

Definition dict (A : Type) : Type := list (string * A).

Section Dict.
Context {A : Type}.

(** [key in d]. *)
Definition dict_mem (key : string) (d : dict A) : bool :=
  bool_decide (key ∈ d.*1).

(** [d.get(key)]. *)
Fixpoint dict_get (key : string) (d : dict A) : option A :=
  match d with
  | [] => None
  | (k, v) :: r => if decide (k = key) then Some v else dict_get key r
  end.

(** [d[key] = v]: a present key keeps its place, a new key goes last. *)
Fixpoint dict_set (key : string) (v : A) (d : dict A) : dict A :=
  match d with
  | [] => [(key, v)]
  | (k, v') :: r =>
      if decide (k = key) then (k, v) :: r else (k, v') :: dict_set key v r
  end.

(** [list(d.keys())]. *)
Definition dict_keys (d : dict A) : list string := d.*1.

End Dict.

(** ** The script parser: [parse_scps] *)

Section ParseScps.
Context `{Platform} {A : Type}.

(** The local variables of [parse_scps] that the loop updates. *)
Record parse_state : Type := ParseState {
  scp_dict : dict A;
  line : Z
}.

(** One turn of the loop over the lines of the script: the state the turn
    leaves, and the exception when it raises. *)
Definition parse_line (scp_path : string) (addr_processor : string -> result A)
    (st : parse_state) (raw : raw_line) : parse_state * result unit :=
  match decode_line raw with
  | Raise e => (st, Raise e)
  | Ok raw_line =>
      let scp_tokens := PyStr.split (PyStr.strip raw_line) in
      let line := line st + 1 in
      if negb (bool_decide (length scp_tokens = 2%nat)) then
        (ParseState (scp_dict st) line,
         Raise (RuntimeError ("Error format in line[" +:+ PyStr.format_d line
                              +:+ "]: " +:+ raw_line)))
      else
        match scp_tokens with
        | [key; addr] =>
            if dict_mem key (scp_dict st) then
              (ParseState (scp_dict st) line,
               Raise (ValueError ("Duplicate key '" +:+ key +:+ "' exists in "
                                  +:+ scp_path)))
            else
              match addr_processor addr with
              | Ok a => (ParseState (dict_set key a (scp_dict st)) line, Ok tt)
              | Raise e => (ParseState (scp_dict st) line, Raise e)
              end
        | _ => (ParseState (scp_dict st) line,
                Raise (ValueError "not enough values to unpack"))
        end
  end.

Fixpoint parse_loop (scp_path : string) (addr_processor : string -> result A)
    (st : parse_state) (lines : list raw_line) : parse_state * result unit :=
  match lines with
  | [] => (st, Ok tt)
  | raw :: rest =>
      match parse_line scp_path addr_processor st raw with
      | (st', Ok _) => parse_loop scp_path addr_processor st' rest
      | (st', Raise e) => (st', Raise e)
      end
  end.

(** The body of [parse_scps] under its [with]: the dictionary when the
    loop ends, the exception otherwise (the local dictionary is lost). *)
Definition parse_lines (scp_path : string) (addr_processor : string -> result A)
    (lines : list raw_line) : result (dict A) :=
  match parse_loop scp_path addr_processor (ParseState [] 0) lines with
  | (st, Ok _) => Ok (scp_dict st)
  | (_, Raise e) => Raise e
  end.

(** [str(scp_path)] in the message of the duplicate key error. *)
Definition path_text (scp_path : option string) : string :=
  default "None" scp_path.

Definition parse_scps (scp_path : option string)
    (addr_processor : string -> result A) : IO (dict A) :=
  with_ext_open scp_path "r" (fun f =>
    (lines <- iter_lines f ;;
     lift (parse_lines (path_text scp_path) addr_processor lines))%io).

End ParseScps.

(** The default [addr_processor], [lambda x: x]. *)
Definition addr_identity (addr : string) : result string := Ok addr.

(** ** Random-access readers: [Reader], [ScriptReader], [AlignScriptReader] *)

(** The attributes a [Reader] gets in [__init__].  No method assigns to
    them afterwards: a method receives the reader and returns no new one. *)
Record Reader (A : Type) : Type := MkReader {
  index_dict : dict A;
  index_keys : list string
}.
Arguments MkReader {A} _ _.
Arguments index_dict {A} _.
Arguments index_keys {A} _.

(** What may be given to [reader[...]]: an [int], a [str], or a value of
    another type, of which only the text of [type(index)] matters. *)
Inductive selector : Type :=
| IntIndex (i : Z)
| StrIndex (key : string)
| OtherIndex (type_text : string).

(** A generator made by [Reader.__iter__]: the keys not visited yet. *)
Record generator : Type := Generator { pending : list string }.

Section Reader.
Context `{Platform} {A P : Type}.

Definition Reader_init (scp_path : option string)
    (addr_processor : string -> result A) : IO (Reader A) :=
  (d <- parse_scps scp_path addr_processor ;;
   ret (MkReader d (dict_keys d)))%io.

(** The method the subclasses override. *)
Definition Reader_load (self : Reader A) (key : string) : IO P :=
  raise NotImplementedError.

Variable _load : Reader A -> string -> IO P.

Definition __len__ (self : Reader A) : Z :=
  Z.of_nat (length (index_dict self)).

Definition __contains__ (self : Reader A) (key : string) : bool :=
  dict_mem key (index_dict self).

(** [__iter__] returns a new generator; [next] runs it to its next
    [yield], to its end ([None]) or to an exception of [_load]. *)
Definition __iter__ (self : Reader A) : generator :=
  Generator (index_keys self).

Definition next (self : Reader A) (g : generator)
    : IO (option (string * P) * generator) :=
  match pending g with
  | [] => ret (None, g)
  | key :: rest =>
      (p <- _load self key ;;
       ret (Some (key, p), Generator rest))%io
  end.

(** [for key, payload in g: ...]: the pairs the generator yields, in
    order, and the exception that ends the loop when [_load] raises.
    [fuel] bounds the number of calls of [next]. *)
Fixpoint consume (self : Reader A) (fuel : nat) (g : generator)
    : IO (list (string * P) * option exn) :=
  match fuel with
  | O => ret ([], None)
  | S fuel' =>
      (r <- attempt (next self g) ;;
       match r with
       | Raise e => ret ([], Some e)
       | Ok (None, _) => ret ([], None)
       | Ok (Some item, g') =>
           '(items, e) <- consume self fuel' g' ;;
           ret (item :: items, e)
       end)%io
  end.

(** [for key, payload in self: ...]. *)
Definition iterate (self : Reader A) : IO (list (string * P) * option exn) :=
  consume self (S (length (index_keys self))) (__iter__ self).

Definition __getitem__ (self : Reader A) (index : selector) : IO P :=
  let load_key (index : string) : IO P :=
    if negb (dict_mem index (index_dict self)) then
      raise (KeyError ("Missing utterance " +:+ index +:+ "!"))
    else _load self index in
  match index with
  | OtherIndex type_text =>
      raise (IndexError ("Unsupported index type: " +:+ type_text))
  | IntIndex i =>
      let num_utts := Z.of_nat (length (index_keys self)) in
      if (i >=? num_utts) || (i <? 0) then
        raise (KeyError ("Interger index out of range, " +:+ PyStr.format_d i
                         +:+ " vs " +:+ PyStr.format_d num_utts))
      else
        match index_keys self !! Z.to_nat i with
        | None => raise ListIndexError
        | Some index => load_key index
        end
  | StrIndex index => load_key index
  end.

End Reader.

Section ScriptReader.
Context `{Platform} {Mat Vec : Type} `{Codec Mat Vec}.

(** The [addr_processor] of [ScriptReader.__init__]: [path:offset], cut
    at the last colon. *)
Definition addr_processor (addr : string) : result (string * Z) :=
  let addr_token := PyStr.split_on ":" addr in
  if bool_decide (length addr_token = 1%nat) then
    Raise (ValueError "Unsupported scripts address format")
  else
    let path := PyStr.join ":" (removelast addr_token) in
    match PyStr.int (List.last addr_token "") with
    | Some offset => Ok (path, offset)
    | None => Raise (IntLiteralError (List.last addr_token ""))
    end.

Definition ScriptReader_init (ark_scp : option string)
    : IO (Reader (string * Z)) :=
  Reader_init ark_scp addr_processor.

(** [with open(path, 'rb') as f: f.seek(offset); ...]: the bytes of the
    file from [offset] on.  [seek] is refused for a negative offset; the
    upper limit the platform puts on an offset lies beyond every file, and
    the statements about what is read keep the offset inside the file. *)
Definition open_at (path : string) (offset : Z) : IO (list byte) :=
  (f <- open path "rb" ;;
   content <- stream_bytes f ;;
   if offset <? 0 then raise (SeekError offset)
   else ret (drop (Z.to_nat offset) content))%io.

Definition ScriptReader_load (self : Reader (string * Z)) (key : string)
    : IO Mat :=
  match dict_get key (index_dict self) with
  | None => raise (DictKeyError key)
  | Some (path, offset) =>
      (bytes <- open_at path offset ;;
       rest <- lift (expect_binary bytes) ;;
       '(ark, _) <- lift (read_general_mat rest) ;;
       ret ark)%io
  end.

Definition AlignScriptReader_init (ark_scp : option string)
    : IO (Reader (string * Z)) :=
  ScriptReader_init ark_scp.

Definition AlignScriptReader_load (self : Reader (string * Z)) (key : string)
    : IO Vec :=
  match dict_get key (index_dict self) with
  | None => raise (DictKeyError key)
  | Some (path, offset) =>
      (bytes <- open_at path offset ;;
       rest <- lift (expect_binary bytes) ;;
       '(ark, _) <- lift (read_common_int_vec rest) ;;
       ret ark)%io
  end.

End ScriptReader.

(** ** Writers: [Writer], [ArchiveWriter] *)

(** The attributes of a [Writer]; [ark_file] and [scp_file] are [None]
    until [__enter__] sets them. *)
Record Writer : Type := MkWriter {
  scp_path : option string;
  ark_path : string;
  ark_file : option stream;
  scp_file : option stream
}.

(** Truth value of an optional [str]. *)
Definition truthy (s : option string) : bool :=
  match s with
  | Some s => PyStr.nonempty s
  | None => false
  end.

Section Writer.
Context `{Platform} {Mat Vec : Type} `{Codec Mat Vec}.

Definition Writer_init (ark_path : string) (scp_path : option string)
    : IO Writer :=
  (if bool_decide (ark_path = "-") && truthy scp_path then
     warn "Ignore .scp output discriptor cause dump archives to stdout" ;;
     ret (MkWriter None ark_path None None)
   else ret (MkWriter scp_path ark_path None None))%io.

Definition Writer_enter (self : Writer) : IO Writer :=
  (a <- _fopen (Some (ark_path self)) "wb" ;;
   s <- _fopen (scp_path self) "w" ;;
   ret (MkWriter (scp_path self) (ark_path self) a s))%io.

Definition Writer_exit (self : Writer) : IO Writer :=
  (a <- lift (_fclose (Some (ark_path self)) (ark_file self)) ;;
   s <- lift (_fclose (scp_path self) (scp_file self)) ;;
   ret (MkWriter (scp_path self) (ark_path self) a s))%io.

(** The line of the script for one record. *)
Definition scp_line (key path : string) (offset : Z) : string :=
  key +:+ String "009"%char "" +:+ path +:+ ":" +:+ PyStr.format_d offset
      +:+ line_feed.

(** [ArchiveWriter.write].  [offset] is a local variable that is bound
    only when the archive is not standard output. *)
Definition ArchiveWriter_write (self : Writer) (key : string) (matrix : Mat)
    : IO unit :=
  (stream_write (ark_file self) (write_token key) ;;
   offset <- (if negb (bool_decide (ark_path self = "-"))
              then o <- stream_tell (ark_file self) ;; ret (Some o)
              else ret None) ;;
   stream_write (ark_file self) write_binary_symbol ;;
   stream_write (ark_file self) (write_common_mat matrix) ;;
   match scp_file self with
   | None => ret tt
   | Some _ =>
       match offset with
       | None => raise (UnboundLocalError "offset")
       | Some o =>
           stream_write (scp_file self)
             (str_encode (scp_line key (abspath (ark_path self)) o))
       end
   end)%io.

(** [with ArchiveWriter(ark, scp) as writer: for key, mat in records:
    writer.write(key, mat)], as [test_archive_writer] does. *)
Definition write_archive (ark : string) (scp : option string)
    (records : list (string * Mat)) : IO unit :=
  (self <- Writer_init ark scp ;;
   writer <- Writer_enter self ;;
   r <- attempt (for_each records
                   (fun '(key, mat) => ArchiveWriter_write writer key mat)) ;;
   _ <- Writer_exit writer ;;
   lift r)%io.

End Writer.

(** ** Vocabulary of the statements *)

(** The text of a line as the parser sees it, once decoded (empty for a
    line of bytes that does not decode), and its tokens. *)
Definition line_text (raw : raw_line) : string :=
  match decode_line raw with
  | Ok s => s
  | Raise _ => ""
  end.

(** Text and bytes below [0x80], where the encodings agree. *)
Definition ascii_byte (x : byte) : bool := (Byte.to_N x <? 128)%N.

Definition ascii_bytes (b : list byte) : bool := forallb ascii_byte b.

Fixpoint ascii_text (s : string) : bool :=
  match s with
  | "" => true
  | String c r => (N_of_ascii c <? 128)%N && ascii_text r
  end.

Definition ascii_line (raw : raw_line) : bool :=
  match raw with
  | StrLine s => ascii_text s
  | BytesLine b => ascii_bytes b
  end.

(** A script made of ASCII lines. *)
Definition ascii_lines (lines : list raw_line) : Prop :=
  Forall (fun raw => ascii_line raw = true) lines.

(** A stream whose source was waited for before it is read (a pipe
    opened in mode ["r"]) holds at most what the pipe of the platform
    buffers, [capacity] bytes: a command that prints more never exits. *)
Definition fits_pipe `{Platform} (capacity : nat) (f : option stream) : Prop :=
  match f with
  | Some f =>
      match kind f with
      | PipeStdout c => (length (shell c).1 <= capacity)%nat
      | _ => True
      end
  | None => True
  end.

Definition line_tokens (raw : raw_line) : list string :=
  PyStr.split (PyStr.strip (line_text raw)).

(** The entry a well-formed line stands for: its key and its processed
    address; [None] for a line that has not two tokens or whose address the
    processor rejects. *)
Definition line_entry {A} (addr_processor : string -> result A)
    (raw : raw_line) : option (string * A) :=
  match line_tokens raw with
  | [key; addr] =>
      match addr_processor addr with
      | Ok a => Some (key, a)
      | Raise _ => None
      end
  | _ => None
  end.

(** Lines that all parse, with keys that do not repeat: the entries they
    stand for, in order. *)
Definition clean_lines {A} (addr_processor : string -> result A)
    (lines : list raw_line) (entries : list (string * A)) : Prop :=
  Forall2 (fun raw e => line_entry addr_processor raw = Some e) lines entries
  /\ NoDup entries.*1.

(** The message of the format error of [parse_scps]. *)
Definition format_error (line : Z) (raw : raw_line) : exn :=
  RuntimeError ("Error format in line[" +:+ PyStr.format_d line +:+ "]: "
                +:+ line_text raw).

(** The message of its duplicate key error. *)
Definition duplicate_error (key scp_path : string) : exn :=
  ValueError ("Duplicate key '" +:+ key +:+ "' exists in " +:+ scp_path).

(** A reader as [__init__] leaves it: its keys are the keys of its
    dictionary in insertion order, without repetition. *)
Definition built {A} (self : Reader A) : Prop :=
  index_keys self = dict_keys (index_dict self)
  /\ NoDup (index_keys self).

(** A selector [Reader.__getitem__] cannot resolve: an integer out of
    [0 <= i < len(self)], or a string that is no key of the index. *)
Definition unresolved {A} (self : Reader A) (index : selector) : Prop :=
  match index with
  | IntIndex i => i < 0 \/ i >= __len__ self
  | StrIndex key => __contains__ self key = false
  | OtherIndex _ => False
  end.

(** The message of the out of range error of [Reader.__getitem__], and of
    its missing key error. *)
Definition out_of_range_error (index bound : Z) : exn :=
  KeyError ("Interger index out of range, " +:+ PyStr.format_d index
            +:+ " vs " +:+ PyStr.format_d bound).

Definition missing_key_error (key : string) : exn :=
  KeyError ("Missing utterance " +:+ key +:+ "!").

(** An address that [_fopen] opens as a regular file. *)
Definition plain_path (fname : string) : Prop :=
  PyStr.nonempty fname = true /\ fname <> "-"
  /\ last_char fname <> Some "|"%char.

(** A key that survives the script format: not empty, no white space. *)
Definition plain_token (s : string) : Prop :=
  PyStr.nonempty s = true /\ PyStr.no_space s = true.

(** The content of the regular file at an absolute path ([[]] when there
    is none). *)
Definition file_at (w : World) (path : string) : list byte :=
  default [] (fs w !! path).

Section Produced.
Context `{Platform} {Mat Vec : Type} `{Codec Mat Vec}.

(** The bytes [ArchiveWriter.write] appends to the archive for a record. *)
Definition record_bytes (r : string * Mat) : list byte :=
  write_token r.1 ++ write_binary_symbol ++ write_common_mat r.2.

Definition archive_bytes (records : list (string * Mat)) : list byte :=
  concat (record_bytes <$> records).

(** The offset of each record, for an archive whose first record starts
    at position [pos]: the position after the key token. *)
Fixpoint record_offsets (pos : nat) (records : list (string * Mat))
    : list Z :=
  match records with
  | [] => []
  | r :: rest =>
      Z.of_nat (pos + length (write_token r.1))
      :: record_offsets (pos + length (record_bytes r)) rest
  end.

(** The lines of the script for these records. *)
Definition script_lines (ark : string) (pos : nat)
    (records : list (string * Mat)) : list string :=
  zip_with (fun r o => scp_line r.1 (abspath ark) o) records
           (record_offsets pos records).

(** The entries of the index these lines stand for. *)
Definition script_entries (ark : string) (pos : nat)
    (records : list (string * Mat)) : list (string * (string * Z)) :=
  zip_with (fun r o => (r.1, (abspath ark, o))) records
           (record_offsets pos records).

(** The bytes of a text file with these lines. *)
Definition script_bytes (lines : list string) : list byte :=
  concat (str_encode <$> lines).

(** The streams [__enter__] opens for a writer on two regular files. *)
Definition ark_stream (ark : string) : stream :=
  Stream (RegularFile (abspath ark)) true true false.

Definition scp_stream (scp : string) : stream :=
  Stream (RegularFile (abspath scp)) false true false.

(** The writers the methods of the class make: [__init__], then
    [__enter__] and [__exit__] ([write] assigns no attribute). *)
Inductive writer_state : Writer -> Prop :=
| state_init ark scp w w' self :
    Writer_init ark scp w = (w', Ok self) -> writer_state self
| state_enter self w w' self' :
    writer_state self ->
    Writer_enter self w = (w', Ok self') -> writer_state self'
| state_exit self w w' self' :
    writer_state self ->
    Writer_exit self w = (w', Ok self') -> writer_state self'.

(** [ArchiveWriter.write] as it reads when the archive is not standard
    output and the script is open: the offset is taken after the key token
    and before the binary sentinel, and the script line is written with
    it. *)
Definition write_with_offset (self : Writer) (key : string) (matrix : Mat)
    : IO unit :=
  (stream_write (ark_file self) (write_token key) ;;
   offset <- stream_tell (ark_file self) ;;
   stream_write (ark_file self) write_binary_symbol ;;
   stream_write (ark_file self) (write_common_mat matrix) ;;
   stream_write (scp_file self)
     (str_encode (scp_line key (abspath (ark_path self)) offset)))%io.

(** The loads of a reader, one after the other from world [w], that give
    the pairs [items] and leave world [w']. *)
Inductive loaded {A P} (_load : Reader A -> string -> IO P) (self : Reader A)
    : World -> list (string * P) -> World -> Prop :=
| loaded_nil w : loaded _load self w [] w
| loaded_cons w key p w1 items w' :
    _load self key w = (w1, Ok p) ->
    loaded _load self w1 items w' ->
    loaded _load self w ((key, p) :: items) w'.

(** The platform and the codec keep their contracts. *)
Class PlatformLaws : Prop := {
  abspath_idem : forall p, abspath (abspath p) = abspath p
}.

Class PositionSymmetric : Prop := {
  expect_binary_written :
    forall rest, expect_binary (write_binary_symbol ++ rest) = Ok rest;
  read_general_mat_written :
    forall m rest, read_general_mat (write_common_mat m ++ rest) = Ok (m, rest)
}.

End Produced.

(** ** A platform and a codec to run the model on

    The operating system and the payload codec are parameters of the
    model ([Platform], [Codec]).  [sample_platform] and [sample_codec] are
    one platform and one codec that keep their contracts, used to evaluate
    the model on concrete inputs.  The current directory is [/work]; the
    command [false] fails and any other command prints its own text; a
    payload is a list of bytes, written as [01 b] for each byte [b] and
    closed by [00]; a key token is the key and a space; the binary sentinel
    is [00 'B']. *)

Definition sample_abspath (p : string) : string :=
  match p with
  | String "/"%char _ => p
  | _ => "/work/" +:+ p
  end.

Definition sample_shell (command : string) : list byte * Z :=
  if bool_decide (command = "false ") then ([], 1)
  else (str_encode (command +:+ line_feed), 0).

Definition sample_platform : Platform :=
  {| abspath := sample_abspath; shell := sample_shell |}.

Fixpoint sample_encode (m : list byte) : list byte :=
  match m with
  | [] => [x00]
  | b :: r => x01 :: b :: sample_encode r
  end.

Fixpoint sample_decode (b : list byte) : result (list byte * list byte) :=
  match b with
  | x00 :: rest => Ok ([], rest)
  | x01 :: v :: rest =>
      match sample_decode rest with
      | Ok (m, rest') => Ok (v :: m, rest')
      | Raise e => Raise e
      end
  | _ => Raise (CodecError "bad payload")
  end.

Definition sample_expect_binary (b : list byte) : result (list byte) :=
  match b with
  | x00 :: x42 :: rest => Ok rest
  | _ => Raise (CodecError "only support binary mode")
  end.

Definition sample_codec : Codec (list byte) (list byte) :=
  {| write_token := fun key => str_encode (key +:+ " ");
     write_binary_symbol := [x00; x42];
     write_common_mat := sample_encode;
     expect_binary := sample_expect_binary;
     read_general_mat := sample_decode;
     read_common_int_vec := sample_decode |}.

Definition empty_world : World := mkWorld ∅ [] [] [] [] [] 0.

(** A world with one text file, given by its lines (each gets its line
    feed). *)
Definition text_of_lines (lines : list string) : string :=
  foldr (fun l s => l +:+ line_feed +:+ s) "" lines.

Definition world_with_script (path : string) (lines : list string) : World :=
  set_fs (insert path (str_encode (text_of_lines lines))) empty_world.

(** Two records, the world after writing them to [feats.ark] with the
    script [feats.scp], the reader of that script, and the writer inside its
    [with] block. *)
Definition sample_records : list (string * list byte) :=
  [("utt1", [x01; x02]); ("utt2", [])].

Definition sample_archive_world : World :=
  (write_archive (H:=sample_platform) (H0:=sample_codec)
     "feats.ark" (Some "feats.scp") sample_records empty_world).1.

(** The same world after the archive was cut behind its first record. *)
Definition truncated_archive_world : World :=
  set_fs (fun m => <["/work/feats.ark" :=
                      take 12 (default [] (m !! "/work/feats.ark"))]> m)
         sample_archive_world.

Definition sample_reader : Reader (string * Z) :=
  MkReader [("utt1", ("/work/feats.ark", 5)); ("utt2", ("/work/feats.ark", 17))]
           ["utt1"; "utt2"].

Definition sample_load : Reader (string * Z) -> string -> IO (list byte) :=
  ScriptReader_load (H:=sample_platform) (H0:=sample_codec).

Definition sample_writer : Writer :=
  MkWriter (Some "feats.scp") "feats.ark"
           (Some (ark_stream (H:=sample_platform) "feats.ark"))
           (Some (scp_stream (H:=sample_platform) "feats.scp")).

(** A record whose key has a space in it. *)
Definition spaced_records : list (string * list byte) :=
  [("utt 1", [x01; x02])].

Definition spaced_archive_world : World :=
  (write_archive (H:=sample_platform) (H0:=sample_codec)
     "feats.ark" (Some "feats.scp") spaced_records empty_world).1.

Definition script_world (lines : list string) : World :=
  world_with_script "/work/feats.scp" lines.

(** The stream [_fopen] gives for ["feats.scp"] in read mode, and the line
    it yields for a line of text. *)
Definition script_stream : option stream :=
  Some (Stream (RegularFile "/work/feats.scp") false false false).

Definition text_line (s : string) : raw_line := StrLine (s +:+ line_feed).

(** Scripts for the examples: a sound one, one whose second line lacks its
    address, one that repeats a key before a line without address, one with
    a line without address between two lines of the same key, and one that
    repeats a key before a blank line. *)
Definition sound_script : list string :=
  ["utt1 /data/a.ark:5"; "utt2 /data/a.ark:80"].

Definition short_line_script : list string :=
  ["utt1 /data/a.ark:5"; "utt2"].

Definition duplicate_then_short_script : list string :=
  ["utt1 /data/a.ark:5"; "utt1 /data/a.ark:80"; "utt2"].

Definition short_then_duplicate_script : list string :=
  ["utt1 /data/a.ark:5"; "utt2"; "utt1 /data/a.ark:80"].

Definition duplicate_script : list string :=
  ["utt1 /data/a.ark:5"; "utt1 /data/a.ark:80"].

Definition blank_line_script : list string :=
  ["utt1 /data/a.ark:5"; "  "].

Definition duplicate_then_blank_script : list string :=
  ["utt1 /data/a.ark:5"; "utt1 /data/a.ark:80"; ""].

(** ** Sequential readers: [SequentialReader], [ArchiveReader],
    [Nnet3EgsReader], [AlignArchiveReader] *)

(** The record generators of [iobase] that the sequential readers loop
    over.  A generator is given the file object, which is [None] or a
    stream, here the bytes the stream delivers: the pairs it yields, in
    order, and the exception that ends it when it raises. *)
Class RecordCodec (Mat Ali Egs : Type) : Type := {
  read_ark : option (list byte) -> list (string * Mat) * option exn;
  read_ali : option (list byte) -> list (string * Ali) * option exn;
  read_nnet3_egs_ark : option (list byte) -> list (string * Egs) * option exn
}.

(** The attribute a [SequentialReader] gets in [__init__]. *)
Record SequentialReader : Type := MkSequentialReader {
  ark_or_pipe : option string
}.

Section SequentialReader.
Context `{Platform} {Mat Ali Egs : Type} `{RecordCodec Mat Ali Egs}.

(** The method the subclasses override. *)
Definition SequentialReader_iter {T} (self : SequentialReader)
    : IO (list (string * T) * option exn) :=
  ret ([], Some NotImplementedError).

(** [for key, value in self: ...] for a subclass whose [__iter__] is
    [with ext_open(self.ark_or_pipe, "rb") as fd: for key, value in
    read(fd): yield key, value]: the pairs yielded, in order, and the
    exception that ends the loop, be it raised on opening or by [read]. *)
Definition sequential_iterate {T}
    (read : option (list byte) -> list (string * T) * option exn)
    (self : SequentialReader) : IO (list (string * T) * option exn) :=
  (r <- attempt
          (with_ext_open (ark_or_pipe self) "rb" (fun fd =>
             match fd with
             | None => ret (read None)
             | Some f => b <- stream_bytes f ;; ret (read (Some b))
             end)) ;;
   match r with
   | Ok out => ret out
   | Raise e => ret ([], Some e)
   end)%io.

Definition ArchiveReader_iterate (self : SequentialReader)
    : IO (list (string * Mat) * option exn) :=
  sequential_iterate read_ark self.

Definition Nnet3EgsReader_iterate (self : SequentialReader)
    : IO (list (string * Egs) * option exn) :=
  sequential_iterate read_nnet3_egs_ark self.

Definition AlignArchiveReader_iterate (self : SequentialReader)
    : IO (list (string * Ali) * option exn) :=
  sequential_iterate read_ali self.

End SequentialReader.

(** ** More vocabulary *)

(** Two worlds that differ at most in the regular files at [paths]. *)
Definition same_except (paths : list string) (w w' : World) : Prop :=
  stdin w' = stdin w /\ stdout w' = stdout w /\ spawned w' = spawned w
  /\ monitors w' = monitors w /\ warnings w' = warnings w
  /\ interrupts w' = interrupts w
  /\ forall q, q ∉ paths -> fs w' !! q = fs w !! q.

(** What the [_load] of a script reader decodes from the bytes at the
    offset: the binary sentinel, then the payload that [read] reads. *)
Definition decode_at `{Codec Mat Vec} {T}
    (read : list byte -> result (T * list byte)) (bytes : list byte)
    : result T :=
  match expect_binary bytes with
  | Raise e => Raise e
  | Ok rest =>
      match read rest with
      | Raise e => Raise e
      | Ok (ark, _) => Ok ark
      end
  end.

(** The message of the error [Writer.__init__] warns with. *)
Definition ignore_scp_warning : string :=
  "Ignore .scp output discriptor cause dump archives to stdout".

(** ** A record generator to run the sequential readers on

    [sample_read_ark] reads records of [sample_codec] one after the other:
    the key up to a space, the binary sentinel, the payload. *)

Fixpoint sample_take_token (b : list byte) : option (list byte * list byte) :=
  match b with
  | [] => None
  | x :: r =>
      if decide (x = byte_of_ascii " "%char) then Some ([], r)
      else match sample_take_token r with
           | Some (k, rest) => Some (x :: k, rest)
           | None => None
           end
  end.

Fixpoint sample_read_records (fuel : nat) (b : list byte)
    : list (string * list byte) * option exn :=
  match fuel with
  | O => ([], None)
  | S fuel' =>
      match b with
      | [] => ([], None)
      | _ =>
          match sample_take_token b with
          | None => ([], Some (CodecError "bad key"))
          | Some (k, rest) =>
              match sample_expect_binary rest with
              | Raise e => ([], Some e)
              | Ok rest1 =>
                  match sample_decode rest1 with
                  | Raise e => ([], Some e)
                  | Ok (m, rest2) =>
                      let (items, e) := sample_read_records fuel' rest2 in
                      ((text_decode k, m) :: items, e)
                  end
              end
          end
      end
  end.

Definition sample_read_ark (fd : option (list byte))
    : list (string * list byte) * option exn :=
  match fd with
  | None =>
      ([], Some (NoneTypeError "'NoneType' object has no attribute 'read'"))
  | Some b => sample_read_records (length b) b
  end.

Definition sample_record_codec : RecordCodec (list byte) (list byte) (list byte) :=
  {| read_ark := sample_read_ark;
     read_ali := sample_read_ark;
     read_nnet3_egs_ark := sample_read_ark |}.

(** A script whose address has no offset, and a writer after its [with]
    block. *)
Definition plain_address_script : list string :=
  ["utt1 /data/a.ark:5"; "utt2 /data/b.ark"].

Definition closed_sample_writer : Writer :=
  MkWriter (Some "feats.scp") "feats.ark"
           (Some (close (ark_stream (H:=sample_platform) "feats.ark")))
           (Some (close (scp_stream (H:=sample_platform) "feats.scp"))).

(** * Properties *)

(** Unfold the monad of [IO] computations. *)
Ltac io_unfold :=
  repeat (progress (unfold bind, ret, raise, lift, attempt, modify, gets;
                    cbn [negb andb orb]; cbv beta iota)).

(** Close a goal on concrete data by evaluation. *)
Ltac by_computation :=
  vm_compute; first [reflexivity | exact I | discriminate].

(** Evaluate the tests on a literal open mode. *)
Ltac eval_mode :=
  repeat match goal with
         | |- context [bool_decide (?m ∈ ?l)] =>
             let b := eval vm_compute in (bool_decide (m ∈ l)) in
             change (bool_decide (m ∈ l)) with b
         | |- context [bool_decide (@eq string ?m ?l)] =>
             let b := eval vm_compute in (bool_decide (m = l)) in
             change (bool_decide (m = l)) with b
         end.

(** ** Strings *)

Module PyStrFacts.
Import PyStr.

Lemma sapp_nil_r (s : string) : s +:+ "" = s.
Proof.
  induction s as [|c s IH]; [done|].
  change (String c (s +:+ "") = String c s). by rewrite IH.
Qed.

Lemma sapp_nil_l (s : string) : "" +:+ s = s.
Proof. done. Qed.

Lemma sapp_cons (c : ascii) (s t : string) :
  String c s +:+ t = String c (s +:+ t).
Proof. done. Qed.

Lemma sapp_assoc (s t u : string) : (s +:+ t) +:+ u = s +:+ t +:+ u.
Proof.
  induction s as [|c s IH]; [done|].
  rewrite !sapp_cons. by rewrite IH.
Qed.

Lemma sapp_snoc (s : string) (c : ascii) (t : string) :
  (s +:+ String c "") +:+ t = s +:+ String c t.
Proof. by rewrite sapp_assoc. Qed.

Lemma nonempty_app_r (s t : string) :
  nonempty t = true -> nonempty (s +:+ t) = true.
Proof. destruct s, t; done. Qed.

Lemma no_space_app (s t : string) :
  no_space (s +:+ t) = no_space s && no_space t.
Proof.
  induction s as [|c s IH]; [done|].
  rewrite sapp_cons. simpl. rewrite IH. by destruct (isspace c).
Qed.

(** A run of non-space characters is read into the open token. *)
Lemma split_go_token (t cur r : string) :
  no_space t = true -> split_go cur (t +:+ r) = split_go (cur +:+ t) r.
Proof.
  revert cur. induction t as [|c t IH]; intros cur Ht.
  - by rewrite sapp_nil_r.
  - simpl in Ht. apply andb_true_iff in Ht as [Hc Ht].
    apply negb_true_iff in Hc. rewrite sapp_cons. simpl. rewrite Hc.
    rewrite IH by done. by rewrite sapp_snoc.
Qed.

(** A line [key <tab> addr <newline>] splits into its two fields. *)
Lemma split_fields (key addr : string) (sep last : ascii) :
  nonempty key = true -> no_space key = true ->
  nonempty addr = true -> no_space addr = true ->
  isspace sep = true -> isspace last = true ->
  split (key +:+ String sep (addr +:+ String last "")) = [key; addr].
Proof.
  intros Hk1 Hk2 Ha1 Ha2 Hs Hl. unfold split.
  rewrite split_go_token by done. rewrite sapp_nil_l. simpl.
  rewrite Hs, Hk1. simpl.
  rewrite split_go_token by done. rewrite sapp_nil_l. simpl.
  by rewrite Hl, Ha1.
Qed.

Lemma split_go_rstrip (s cur : string) :
  split_go cur (rstrip s) = split_go cur s.
Proof.
  revert cur. induction s as [|c s IH]; intros cur; [done|].
  simpl. destruct (nonempty (rstrip s)) eqn:Hne; simpl.
  - destruct (isspace c); by rewrite IH.
  - destruct (isspace c) eqn:Hc; simpl.
    + rewrite <- IH. destruct (rstrip s); [|done].
      simpl. by rewrite List.app_nil_r.
    + rewrite Hc. by rewrite IH.
Qed.

Lemma split_lstrip (s : string) : split (lstrip s) = split s.
Proof.
  unfold split. induction s as [|c s IH]; [done|].
  simpl. destruct (isspace c) eqn:Hc; [done|]. simpl. by rewrite Hc.
Qed.

(** [strip] before [split] changes nothing. *)
Lemma split_strip (s : string) : split (strip s) = split s.
Proof. unfold strip, split. rewrite split_go_rstrip. apply split_lstrip. Qed.

(** A token is not empty and holds no white space. *)
Lemma split_go_tokens (s cur : string) :
  no_space cur = true ->
  Forall (fun t => nonempty t = true /\ no_space t = true) (split_go cur s).
Proof.
  revert cur. induction s as [|c s IH]; intros cur Hcur; simpl.
  - destruct (nonempty cur) eqn:Hne; by repeat constructor.
  - destruct (isspace c) eqn:Hc.
    + apply Forall_app. split; [|by apply IH].
      destruct (nonempty cur) eqn:Hne; by repeat constructor.
    + apply IH. rewrite no_space_app, Hcur. simpl. by rewrite Hc.
Qed.

(** A blank line has no token. *)
Lemma split_all_space (s : string) : all_space s = true -> split s = [].
Proof.
  unfold split. induction s as [|c s IH]; [done|].
  simpl. intros [Hc Hs]%andb_true_iff. rewrite Hc. simpl. auto.
Qed.

Lemma no_space_rstrip (s : string) : no_space s = true -> rstrip s = s.
Proof.
  induction s as [|c s IH]; [done|].
  simpl. intros [Hc Hs]%andb_true_iff. apply negb_true_iff in Hc.
  rewrite Hc, andb_false_r. by rewrite IH.
Qed.

Lemma no_space_int_strip (s : string) :
  no_space s = true -> int_rstrip (int_lstrip s) = s.
Proof.
  intros Hs.
  assert (int_lstrip s = s) as ->.
  { destruct s as [|c s]; [done|]. simpl in *.
    apply andb_true_iff in Hs as [Hc _]. apply negb_true_iff in Hc.
    unfold int_space. by rewrite Hc. }
  induction s as [|c s IH]; [done|].
  simpl in *. apply andb_true_iff in Hs as [Hc Hs].
  apply negb_true_iff in Hc. unfold int_space. rewrite Hc.
  rewrite andb_false_l, andb_false_r. by rewrite IH.
Qed.

Lemma no_space_strip (s : string) : no_space s = true -> strip s = s.
Proof.
  intros Hs. unfold strip.
  assert (lstrip s = s) as ->; [|by apply no_space_rstrip].
  destruct s as [|c s]; [done|]. simpl in *.
  apply andb_true_iff in Hs as [Hc _]. apply negb_true_iff in Hc.
  by rewrite Hc.
Qed.

(** *** [split(sep)] and [join] *)

Lemma split_on_go_cons (sep : ascii) (cur s : string) :
  exists y ys, split_on_go sep cur s = y :: ys.
Proof.
  revert cur. induction s as [|c s IH]; intros cur; simpl; [by eauto|].
  destruct (decide (c = sep)); by eauto.
Qed.

Lemma split_on_go_no_sep (sep : ascii) (cur t : string) :
  no_char sep t = true -> split_on_go sep cur t = [cur +:+ t].
Proof.
  revert cur. induction t as [|c t IH]; intros cur Ht; simpl.
  - by rewrite sapp_nil_r.
  - simpl in Ht. apply andb_true_iff in Ht as [Hc Ht].
    apply negb_true_iff, bool_decide_eq_false in Hc.
    destruct (decide (c = sep)); [done|].
    rewrite IH by done. by rewrite sapp_snoc.
Qed.

(** The piece after the last separator comes last. *)
Lemma split_on_go_last (sep : ascii) (cur s t : string) :
  no_char sep t = true ->
  split_on_go sep cur (s +:+ String sep t) = split_on_go sep cur s ++ [t].
Proof.
  intros Ht. revert cur. induction s as [|c s IH]; intros cur.
  - rewrite sapp_nil_l. simpl. destruct (decide (sep = sep)); [|done].
    by rewrite split_on_go_no_sep.
  - rewrite sapp_cons. simpl.
    destruct (decide (c = sep)); by rewrite IH.
Qed.

Lemma join_cons (sep x y : string) (ys : list string) :
  join sep (x :: y :: ys) = x +:+ sep +:+ join sep (y :: ys).
Proof. done. Qed.

Lemma join_split_on_go (sep : ascii) (cur s : string) :
  join (String sep "") (split_on_go sep cur s) = cur +:+ s.
Proof.
  revert cur. induction s as [|c s IH]; intros cur; simpl.
  - by rewrite sapp_nil_r.
  - destruct (decide (c = sep)) as [->|].
    + specialize (IH "").
      destruct (split_on_go_cons sep "" s) as (y & ys & Hy).
      rewrite Hy in *. by rewrite join_cons, IH.
    + rewrite IH. by rewrite sapp_snoc.
Qed.

Lemma join_split_on (sep : ascii) (s : string) :
  join (String sep "") (split_on sep s) = s.
Proof. apply join_split_on_go. Qed.

(** *** [int] and [format] *)

Lemma int_digits_pos (u : uint) (p : positive) :
  int_digits (Npos p) (NilEmpty.string_of_uint u)
  = Some (Npos (Pos.of_uint_acc u p)).
Proof.
  revert p. induction u; intros p; simpl; [done|..].
  all: match goal with
       | |- int_digits ?a _ = Some (N.pos (Pos.of_uint_acc _ ?q)) =>
           replace a with (N.pos q) by lia
       end; apply IHu.
Qed.

Lemma int_digits_zero (u : uint) :
  int_digits 0 (NilEmpty.string_of_uint u) = Some (Pos.of_uint u).
Proof.
  induction u; simpl; [done|done|..]; apply int_digits_pos.
Qed.

Lemma int_unsigned_uint (u : uint) :
  u <> Nil -> int_unsigned (NilEmpty.string_of_uint u) = Some (N.of_uint u).
Proof.
  destruct u; intros Hu; [done|..]; simpl;
    [apply int_digits_zero | apply int_digits_pos ..].
Qed.

Lemma no_space_uint (u : uint) : no_space (NilEmpty.string_of_uint u) = true.
Proof. induction u; simpl; done. Qed.

Lemma no_colon_uint (u : uint) :
  no_char ":" (NilEmpty.string_of_uint u) = true.
Proof. induction u; simpl; done. Qed.

Lemma to_uint_not_nil (n : N) : N.to_uint n <> Nil.
Proof. destruct n; [done|]. apply Unsigned.to_uint_nonnil. Qed.

Lemma format_d_nonneg (z : Z) :
  0 <= z -> format_d z = NilEmpty.string_of_uint (N.to_uint (Z.to_N z)).
Proof. destruct z; [done|done|lia]. Qed.

(** [int] reads back what [format] printed. *)
Lemma int_format_d (z : Z) : 0 <= z -> int (format_d z) = Some z.
Proof.
  intros Hz. rewrite format_d_nonneg by done. unfold int.
  rewrite no_space_int_strip by apply no_space_uint.
  pose proof (int_unsigned_uint _ (to_uint_not_nil (Z.to_N z))) as Hu.
  rewrite DecimalN.Unsigned.of_to in Hu.
  assert (Z.of_N <$> int_unsigned (NilEmpty.string_of_uint (N.to_uint (Z.to_N z)))
          = Some z) as Hr.
  { rewrite Hu. simpl. f_equal. lia. }
  destruct (N.to_uint (Z.to_N z)); done.
Qed.

Lemma format_d_no_space (z : Z) : 0 <= z -> no_space (format_d z) = true.
Proof. intros. rewrite format_d_nonneg by done. apply no_space_uint. Qed.

Lemma format_d_no_colon (z : Z) : 0 <= z -> no_char ":" (format_d z) = true.
Proof. intros. rewrite format_d_nonneg by done. apply no_colon_uint. Qed.

End PyStrFacts.

(** *** The string functions on examples *)

Example split_example :
  PyStr.split (PyStr.strip ("  utt-1" +:+ String "009" "/data/a.ark:17"
                            +:+ line_feed))
  = ["utt-1"; "/data/a.ark:17"].
Proof. reflexivity. Qed.

Example split_on_example :
  PyStr.split_on ":" "C:/a:b:12" = ["C"; "/a"; "b"; "12"]
  /\ PyStr.split_on ":" "" = [""]
  /\ PyStr.split_on ":" "a:" = ["a"; ""].
Proof. repeat split; reflexivity. Qed.

Example int_example :
  PyStr.int "1_000" = Some 1000 /\ PyStr.int " -12 " = Some (-12)
  /\ PyStr.int "+7" = Some 7 /\ PyStr.int "007" = Some 7
  /\ PyStr.int "1__0" = None /\ PyStr.int "" = None
  /\ PyStr.int "12_" = None /\ PyStr.int "_12" = None
  /\ PyStr.int "- 5" = None /\ PyStr.int "0x10" = None.
Proof. repeat split; reflexivity. Qed.

Example int_space_example :
  PyStr.int (String "028" "12") = None
  /\ PyStr.int ("12" +:+ String "160" "") = Some 12
  /\ PyStr.int (String "009" "12" +:+ String "010" "") = Some 12.
Proof. repeat split; reflexivity. Qed.

Example format_d_example :
  PyStr.format_d 1203 = "1203" /\ PyStr.format_d (-7) = "-7"
  /\ PyStr.format_d 0 = "0".
Proof. repeat split; reflexivity. Qed.

(** ** Lines and bytes *)

Section LineFacts.
Import PyStr PyStrFacts.

Lemma last_char_nonempty (s : string) :
  nonempty s = true -> exists c, last_char s = Some c.
Proof.
  induction s as [|c s IH]; [done|]. intros _.
  destruct s as [|c' s]; [by eexists|]. by apply IH.
Qed.

Lemma no_newline_cons (c : ascii) (s : string) :
  no_newline (String c s) = true ->
  c <> "010"%char /\ c <> "013"%char /\ no_newline s = true.
Proof.
  unfold no_newline. simpl.
  intros [[H1 H2]%andb_true_iff [H3 H4]%andb_true_iff]%andb_true_iff.
  apply negb_true_iff, bool_decide_eq_false in H1, H3.
  by rewrite H2, H4.
Qed.

Lemma no_space_no_newline (s : string) :
  no_space s = true -> no_newline s = true.
Proof.
  unfold no_newline. induction s as [|c s IH]; [done|]. simpl.
  intros [Hc Hs]%andb_true_iff. apply IH in Hs as [-> ->]%andb_true_iff.
  rewrite !andb_true_r. apply negb_true_iff in Hc.
  apply andb_true_iff; split; apply negb_true_iff, bool_decide_eq_false;
    intros ->; by vm_compute in Hc.
Qed.

Lemma no_char_app (x : ascii) (s t : string) :
  no_char x (s +:+ t) = no_char x s && no_char x t.
Proof.
  induction s as [|c s IH]; [done|].
  rewrite sapp_cons. simpl. rewrite IH. by rewrite andb_assoc.
Qed.

Lemma no_newline_app (s t : string) :
  no_newline (s +:+ t) = no_newline s && no_newline t.
Proof.
  unfold no_newline. rewrite !no_char_app.
  by destruct (no_char "010" s), (no_char "010" t), (no_char "013" s),
    (no_char "013" t).
Qed.

Lemma text_lines_go_char (c : ascii) (cur r : string) :
  c <> "010"%char -> c <> "013"%char ->
  text_lines_go cur (String c r) = text_lines_go (cur +:+ String c "") r.
Proof.
  intros H1 H2.
  destruct c as [[] [] [] [] [] [] [] []]; try done.
Qed.

(** A line without line break inside, closed by a line feed, is read as
    one line. *)
Lemma text_lines_go_line (body cur rest : string) :
  no_newline body = true ->
  text_lines_go cur (body +:+ line_feed +:+ rest)
  = (cur +:+ body +:+ line_feed) :: text_lines_go "" rest.
Proof.
  revert cur. induction body as [|c body IH]; intros cur Hb.
  - done.
  - apply no_newline_cons in Hb as (H1 & H2 & Hb).
    rewrite sapp_cons, text_lines_go_char by done.
    rewrite IH by done. by rewrite sapp_snoc.
Qed.

Lemma text_decode_app (a b : list byte) :
  text_decode (a ++ b) = text_decode a +:+ text_decode b.
Proof.
  unfold text_decode, string_of_list_byte.
  induction a as [|x a IH]; [done|]. simpl. by rewrite IH.
Qed.

Lemma text_decode_encode (s : string) : text_decode (str_encode s) = s.
Proof. apply string_of_list_byte_of_string. Qed.

End LineFacts.

(** [bytes.decode] on examples: ASCII, a character of two bytes, a byte
    that is not UTF-8, a sequence cut short, an overlong form, and a
    character the strings of the model do not hold. *)
Example bytes_decode_example :
  bytes_decode [x75; x74; x74] = Ok "utt"
  /\ bytes_decode [xc3; xa9] = Ok (String "233" "")
  /\ bytes_decode [xe9; x20; x61] = Raise UnicodeDecodeError
  /\ bytes_decode [x61; xc3] = Raise UnicodeDecodeError
  /\ bytes_decode [xc0; x80] = Raise UnicodeDecodeError
  /\ bytes_decode [xe2; x82; xac]
     = Raise (BeyondModel "character above U+00FF").
Proof. repeat split; reflexivity. Qed.

(** ** Dictionaries *)

Section DictFacts.
Context {A : Type}.
Implicit Types (d : dict A) (key : string) (v : A).

Lemma dict_mem_true key d : dict_mem key d = true <-> key ∈ d.*1.
Proof. unfold dict_mem. apply bool_decide_eq_true. Qed.

Lemma dict_mem_false key d : dict_mem key d = false <-> key ∉ d.*1.
Proof. unfold dict_mem. apply bool_decide_eq_false. Qed.

(** Setting a key that is not there appends the item. *)
Lemma dict_set_fresh key v d :
  dict_mem key d = false -> dict_set key v d = d ++ [(key, v)].
Proof.
  rewrite dict_mem_false. induction d as [|[k v'] d IH]; [done|].
  simpl. intros [Hk Hd]%not_elem_of_cons.
  destruct (decide (k = key)); [done|]. by rewrite IH.
Qed.

Lemma dict_get_elem key v d :
  NoDup d.*1 -> (key, v) ∈ d -> dict_get key d = Some v.
Proof.
  induction d as [|[k v'] d IH]; [by intros _ ?%elem_of_nil|].
  simpl. intros [Hk Hd]%NoDup_cons [Heq|Hin]%elem_of_cons.
  - simplify_eq. by rewrite decide_True.
  - destruct (decide (k = key)) as [->|]; [|by auto].
    destruct Hk. apply list_elem_of_fmap. by exists (key, v).
Qed.

Lemma dict_get_lookup key v d i :
  NoDup d.*1 -> d !! i = Some (key, v) -> dict_get key d = Some v.
Proof.
  intros Hd Hi. apply dict_get_elem; [done|].
  apply list_elem_of_lookup. by exists i.
Qed.

End DictFacts.

(** ** The script parser *)

Section ParseFacts.
Context {A : Type}.
Implicit Types (ap : string -> result A) (st : parse_state (A:=A)).
Implicit Types (raw : raw_line) (lines : list raw_line).
Implicit Types (entries : list (string * A)).

(** A line of text decodes to itself, a line of ASCII bytes to the
    characters of its bytes, and a line with a token has decoded. *)
Lemma line_text_str (s : string) : line_text (StrLine s) = s.
Proof. done. Qed.

Lemma ascii_of_byte_value (x : byte) :
  ascii_of_N (Byte.to_N x) = ascii_of_byte x.
Proof. by destruct x. Qed.

Lemma bytes_decode_ascii (b : list byte) :
  ascii_bytes b = true -> bytes_decode b = Ok (text_decode b).
Proof.
  unfold bytes_decode, text_decode, string_of_list_byte.
  induction b as [|x b IH]; [done|].
  cbn [ascii_bytes forallb]. intros [Hx Hb]%andb_true_iff.
  specialize (IH Hb). unfold ascii_byte in Hx.
  assert ((Byte.to_N x <? 256)%N = true) as Hc.
  { apply N.ltb_lt. apply N.ltb_lt in Hx. lia. }
  cbn [utf8_code_points]. rewrite Hx.
  destruct (utf8_code_points b) as [l|e]; [|done].
  cbn [push str_of_code_points]. rewrite Hc.
  destruct (str_of_code_points l) as [s|]; [|done].
  injection IH as ->. cbn [fmap option_fmap option_map List.map].
  by rewrite ascii_of_byte_value.
Qed.

Lemma decode_line_ascii raw :
  ascii_line raw = true -> decode_line raw = Ok (line_text raw).
Proof.
  destruct raw as [s|b]; [done|]. intros Hb. unfold line_text.
  cbn [decode_line ascii_line] in *. by rewrite (bytes_decode_ascii b Hb).
Qed.

Lemma line_tokens_decoded raw :
  line_tokens raw <> [] -> decode_line raw = Ok (line_text raw).
Proof.
  unfold line_tokens, line_text.
  destruct (decode_line raw) as [s|e]; [done|]. intros Hn. by destruct Hn.
Qed.

(** A line that has decoded and has not two tokens raises the format
    error, numbered from one. *)
Lemma parse_line_format p ap st raw :
  decode_line raw = Ok (line_text raw) ->
  length (line_tokens raw) <> 2%nat ->
  parse_line p ap st raw
  = (ParseState (scp_dict st) (line st + 1),
     Raise (format_error (line st + 1) raw)).
Proof.
  intros Hd Hn. unfold parse_line. rewrite Hd. fold (line_tokens raw).
  by rewrite bool_decide_eq_false_2.
Qed.

Lemma parse_line_duplicate p ap st raw key addr :
  line_tokens raw = [key; addr] ->
  dict_mem key (scp_dict st) = true ->
  parse_line p ap st raw
  = (ParseState (scp_dict st) (line st + 1), Raise (duplicate_error key p)).
Proof.
  intros Ht Hm. unfold parse_line.
  rewrite (line_tokens_decoded raw) by (by rewrite Ht).
  fold (line_tokens raw). rewrite Ht. simpl. by rewrite Hm.
Qed.

Lemma parse_line_entry p ap st raw key a :
  line_entry ap raw = Some (key, a) ->
  dict_mem key (scp_dict st) = false ->
  parse_line p ap st raw
  = (ParseState (scp_dict st ++ [(key, a)]) (line st + 1), Ok tt).
Proof.
  unfold line_entry. intros He Hm.
  destruct (line_tokens raw) as [|k [|addr [|]]] eqn:Ht; try done.
  destruct (ap addr) as [a'|] eqn:Ha; simplify_eq.
  unfold parse_line. rewrite (line_tokens_decoded raw) by (by rewrite Ht).
  fold (line_tokens raw).
  rewrite Ht. simpl. rewrite Hm, Ha. by rewrite dict_set_fresh.
Qed.

(** What a turn that does not raise has done. *)
Lemma parse_line_ok_inv p ap st raw st' :
  parse_line p ap st raw = (st', Ok tt) ->
  exists key a,
    line_entry ap raw = Some (key, a)
    /\ dict_mem key (scp_dict st) = false
    /\ st' = ParseState (scp_dict st ++ [(key, a)]) (line st + 1).
Proof.
  unfold parse_line, line_entry, line_tokens, line_text.
  destruct (decode_line raw) as [text|err]; [|done].
  destruct (PyStr.split (PyStr.strip text)) as [|k [|addr [|]]] eqn:Ht;
    simpl; try done.
  destruct (dict_mem k (scp_dict st)) eqn:Hm; [done|].
  destruct (ap addr) as [a|] eqn:Ha; [|done].
  intros [= <-]. exists k, a. by rewrite dict_set_fresh.
Qed.

Lemma parse_loop_app p ap st pre post :
  parse_loop p ap st (pre ++ post)
  = match parse_loop p ap st pre with
    | (st', Ok _) => parse_loop p ap st' post
    | (st', Raise e) => (st', Raise e)
    end.
Proof.
  revert st. induction pre as [|raw pre IH]; intros st; [done|].
  simpl. destruct (parse_line p ap st raw) as [st' [[]|e]]; [apply IH|done].
Qed.

(** Lines that all parse, with fresh keys, are all entered, in order. *)
Lemma parse_loop_clean p ap lines entries st :
  Forall2 (fun raw e => line_entry ap raw = Some e) lines entries ->
  NoDup ((scp_dict st).*1 ++ entries.*1) ->
  parse_loop p ap st lines
  = (ParseState (scp_dict st ++ entries)
                (line st + Z.of_nat (length lines)), Ok tt).
Proof.
  intros Hall. revert st.
  induction Hall as [|raw [key a] lines entries He Hall IH]; intros st Hnd.
  - simpl. rewrite List.app_nil_r, Z.add_0_r. by destruct st.
  - cbn [parse_loop]. simpl in Hnd.
    rewrite (parse_line_entry _ _ _ _ _ _ He).
    2:{ apply dict_mem_false. apply NoDup_app in Hnd as (_ & Hd & _).
        intros Hin. apply (Hd key Hin). by left. }
    rewrite IH; cbn [scp_dict line length].
    + rewrite Nat2Z.inj_succ, <- List.app_assoc.
      f_equal. f_equal. lia.
    + by rewrite fmap_app, <- List.app_assoc.
Qed.

Lemma parse_loop_ok_inv p ap lines st st' :
  parse_loop p ap st lines = (st', Ok tt) ->
  NoDup (scp_dict st).*1 ->
  exists entries,
    Forall2 (fun raw e => line_entry ap raw = Some e) lines entries
    /\ scp_dict st' = scp_dict st ++ entries
    /\ NoDup (scp_dict st').*1.
Proof.
  revert st. induction lines as [|raw lines IH]; intros st Hrun Hnd.
  - simpl in Hrun. simplify_eq. exists []. by rewrite List.app_nil_r.
  - cbn [parse_loop] in Hrun.
    destruct (parse_line p ap st raw) as [st1 [[]|e]] eqn:Hline; [|done].
    apply parse_line_ok_inv in Hline as (key & a & He & Hm & ->).
    apply IH in Hrun as (entries & Hall & Hd & Hnd').
    + exists ((key, a) :: entries). split; [by constructor|].
      split; [|done]. rewrite Hd. simpl. by rewrite <- List.app_assoc.
    + simpl. rewrite fmap_app. simpl. apply NoDup_app. split; [done|].
      split; [|apply NoDup_singleton].
      intros k Hk ->%list_elem_of_singleton. by apply dict_mem_false in Hm.
Qed.

(** [parse_lines] returns a dictionary exactly for clean lines, and then
    the dictionary lists their entries in line order. *)
Lemma parse_lines_clean p ap lines entries :
  clean_lines ap lines entries -> parse_lines p ap lines = Ok entries.
Proof.
  intros [Hall Hnd]. unfold parse_lines.
  by rewrite (parse_loop_clean _ _ _ entries).
Qed.

Lemma parse_lines_ok_inv p ap lines d :
  parse_lines p ap lines = Ok d -> clean_lines ap lines d.
Proof.
  unfold parse_lines.
  destruct (parse_loop p ap (ParseState [] 0) lines) as [st [[]|e]] eqn:Hrun;
    [|done].
  intros [= <-].
  apply parse_loop_ok_inv in Hrun as (entries & Hall & Hd & Hnd);
    [|apply NoDup_nil_2].
  simpl in Hd. rewrite Hd in *. done.
Qed.

(** The first line that has not two tokens, after clean lines. *)
Lemma parse_loop_format p ap pre raw post entries :
  clean_lines ap pre entries ->
  decode_line raw = Ok (line_text raw) ->
  length (line_tokens raw) <> 2%nat ->
  parse_loop p ap (ParseState [] 0) (pre ++ raw :: post)
  = (ParseState entries (Z.of_nat (length pre) + 1),
     Raise (format_error (Z.of_nat (length pre) + 1) raw)).
Proof.
  intros [Hall Hnd] Hd Hn. rewrite parse_loop_app.
  rewrite (parse_loop_clean _ _ _ entries) by done.
  cbn [parse_loop]. by rewrite parse_line_format.
Qed.

(** The first line that repeats a key, after clean lines. *)
Lemma parse_loop_duplicate p ap pre raw post entries key addr :
  clean_lines ap pre entries ->
  line_tokens raw = [key; addr] ->
  key ∈ entries.*1 ->
  parse_loop p ap (ParseState [] 0) (pre ++ raw :: post)
  = (ParseState entries (Z.of_nat (length pre) + 1),
     Raise (duplicate_error key p)).
Proof.
  intros [Hall Hnd] Ht Hk. rewrite parse_loop_app.
  rewrite (parse_loop_clean _ _ _ entries) by done.
  cbn [parse_loop]. rewrite (parse_line_duplicate _ _ _ _ key addr); [done..|].
  by apply dict_mem_true.
Qed.

End ParseFacts.

(** ** Stream sources *)

Section StreamFacts.
Context `{Platform}.

Lemma last_char_some_nonempty (s : string) (c : ascii) :
  last_char s = Some c -> PyStr.nonempty s = true.
Proof. by destruct s. Qed.

(** [_fopen] returns a stream only for a non-empty address. *)
Lemma _fopen_some fname mode w w' f :
  _fopen fname mode w = (w', Ok (Some f)) ->
  exists s, fname = Some s /\ PyStr.nonempty s = true.
Proof.
  unfold _fopen.
  destruct (bool_decide (mode ∈ ["w"; "r"; "wb"; "rb"])); [|done].
  destruct fname as [s|]; [|done]. simpl.
  destruct (PyStr.nonempty s) eqn:Hs; [by eauto|done].
Qed.

(** Closing what [_fopen] gave for the same address does not raise. *)
Lemma _fopen_fclose fname mode w w' fd :
  _fopen fname mode w = (w', Ok fd) -> exists fd', _fclose fname fd = Ok fd'.
Proof.
  intros Hopen. unfold _fclose.
  destruct (bool_decide (fname ≠ Some "-")); [|by eauto].
  destruct fd as [f|]; [|by eauto].
  apply _fopen_some in Hopen as (s & -> & Hs).
  destruct (last_char_nonempty s Hs) as [c ->].
  destruct (bool_decide (c ≠ "|"%char)); by eauto.
Qed.

(** [parse_scps], once its stream is open: the loop over the lines the
    stream yields. *)
Lemma parse_scps_run {A} scp_path (ap : string -> result A) w w1 w2 f lines :
  _fopen scp_path "r" w = (w1, Ok f) ->
  iter_lines f w1 = (w2, Ok lines) ->
  parse_scps scp_path ap w = (w2, parse_lines (path_text scp_path) ap lines).
Proof.
  intros Hopen Hlines.
  destruct (_fopen_fclose _ _ _ _ _ Hopen) as [fd' Hclose].
  unfold parse_scps, with_ext_open, bind, attempt, lift.
  rewrite Hopen. rewrite Hlines. rewrite Hclose.
  by destruct (parse_lines _ _ _).
Qed.

(** The waiter of a pipe, run by the caller: silent for exit status zero;
    otherwise a warning, one interrupt of the main thread, and the
    [KeyboardInterrupt] it raises there. *)
Lemma waiter_reports_failure (command : string) (w : World) :
  background_command_waiter command w
  = if bool_decide ((shell command).2 = 0) then (w, Ok tt)
    else (add_interrupt
            (add_warning ("Command " +:+ dquote +:+ command +:+ dquote
                          +:+ " exited with status "
                          +:+ PyStr.format_d (shell command).2) w),
          Raise KeyboardInterrupt).
Proof.
  unfold background_command_waiter, warn, interrupt_main. io_unfold.
  destruct (decide ((shell command).2 = 0)) as [Hz|Hz].
  - rewrite bool_decide_eq_false_2 by (by intros ?).
    by rewrite bool_decide_eq_true_2.
  - rewrite bool_decide_eq_true_2 by done.
    by rewrite bool_decide_eq_false_2.
Qed.

(** A failing command, read in text mode: the caller waits for it and is
    interrupted; read in binary mode: the stream is returned and the
    waiter thread is started. *)
Example failing_pipe_text_mode :
  let r := _fopen (H:=sample_platform) (Some "false |") "r" empty_world in
  r.2 = Raise KeyboardInterrupt
  /\ spawned r.1 = ["false "] /\ monitors r.1 = []
  /\ length (warnings r.1) = 1%nat /\ interrupts r.1 = 1%nat.
Proof. repeat split; by_computation. Qed.

Example failing_pipe_binary_mode :
  let r := _fopen (H:=sample_platform) (Some "false |") "rb" empty_world in
  r.2 = Ok (Some (Stream (PipeStdout "false ") true false false))
  /\ spawned r.1 = ["false "] /\ monitors r.1 = ["false "]
  /\ warnings r.1 = [] /\ interrupts r.1 = 0%nat.
Proof. repeat split; by_computation. Qed.

Lemma pipe_address (fname : string) :
  last_char fname = Some "|"%char ->
  PyStr.nonempty fname = true /\ fname <> "-".
Proof.
  intros Hl. split; [by eapply last_char_some_nonempty|].
  by intros ->.
Qed.

Lemma _fopen_pipe fname mode w :
  last_char fname = Some "|"%char ->
  bool_decide (mode ∈ ["w"; "r"; "wb"; "rb"]) = true ->
  _fopen (Some fname) mode w
  = bind (pipe_fopen (but_last fname) mode (bool_decide (mode = "rb")))
         (fun f => ret (Some f)) w.
Proof.
  intros Hl Hm. destruct (pipe_address _ Hl) as [Hne Hdash].
  unfold _fopen. rewrite Hm, Hne. simpl.
  rewrite bool_decide_eq_false_2 by done.
  by rewrite bool_decide_eq_true_2.
Qed.

End StreamFacts.

(** ** Pipe addresses are read-only *)

Section PipeAddress.
Context `{Platform}.

Lemma write_mode_known (mode : string) :
  mode = "w" \/ mode = "wb" ->
  bool_decide (mode ∈ ["w"; "r"; "wb"; "rb"]) = true
  /\ bool_decide (mode ∈ ["rb"; "r"]) = false.
Proof. by intros [-> | ->]. Qed.

Lemma read_mode_known (mode : string) :
  mode = "r" \/ mode = "rb" ->
  bool_decide (mode ∈ ["w"; "r"; "wb"; "rb"]) = true
  /\ bool_decide (mode ∈ ["rb"; "r"]) = true.
Proof. by intros [-> | ->]. Qed.

(** C7.  An address that ends in the pipe marker is refused in every write
    mode: [_fopen] raises the configuration error at once and leaves the
    world as it found it, so no subprocess is started and no stream is
    returned.  Such an address gives a stream in the read modes only; there
    the command is started, and its standard output is the stream returned
    (in mode ["r"], where the caller waits for the command, when it exits
    with status zero). *)
Theorem pipe_address_read_only (fname mode : string) (w : World) :
  last_char fname = Some "|"%char ->
  (mode = "w" \/ mode = "wb" ->
   _fopen (Some fname) mode w
   = (w, Raise (RuntimeError "Now only support input from pipe")))
  /\ (forall w' fd,
        _fopen (Some fname) mode w = (w', Ok fd) -> mode = "r" \/ mode = "rb")
  /\ (mode = "r" \/ mode = "rb" ->
      exists w' r,
        _fopen (Some fname) mode w = (w', r)
        /\ spawned w' = spawned w ++ [but_last fname]
        /\ (mode = "rb" \/ (shell (but_last fname)).2 = 0 ->
            r = Ok (Some (Stream (PipeStdout (but_last fname))
                                 true false false)))).
Proof.
  intros Hl.
  assert (mode = "w" \/ mode = "wb" ->
          _fopen (Some fname) mode w
          = (w, Raise (RuntimeError "Now only support input from pipe")))
    as Hwrite.
  { intros Hm. destruct (write_mode_known _ Hm) as [H4 H2].
    rewrite _fopen_pipe by done. unfold bind, pipe_fopen. by rewrite H2. }
  split; [done|]. split.
  - intros w' fd Hopen.
    destruct (bool_decide (mode ∈ ["w"; "r"; "wb"; "rb"])) eqn:H4.
    + apply bool_decide_eq_true in H4.
      repeat (apply elem_of_cons in H4 as [->|H4]); auto;
        try (rewrite Hwrite in Hopen by auto; done).
      by apply elem_of_nil in H4.
    + unfold _fopen in Hopen. by rewrite H4 in Hopen.
  - intros Hm. destruct (read_mode_known _ Hm) as [H4 H2].
    rewrite _fopen_pipe by done. unfold pipe_fopen. rewrite H2.
    destruct (decide (mode = "rb")) as [->|Hrb].
    + eexists _, _. split; [reflexivity|]. by split.
    + rewrite (bool_decide_eq_false_2 (mode = "rb")) by done.
      io_unfold. rewrite waiter_reports_failure.
      destruct (decide ((shell (but_last fname)).2 = 0)) as [Hz|Hz].
      * rewrite bool_decide_eq_true_2 by done.
        eexists _, _. split; [reflexivity|]. by split.
      * rewrite bool_decide_eq_false_2 by done.
        eexists _, _. split; [reflexivity|]. split; [done|].
        by intros [?|?].
Qed.

End PipeAddress.

Lemma pipe_address_read_only_witness :
  _fopen (H:=sample_platform) (Some "sort feats.scp |") "wb" empty_world
  = (empty_world, Raise (RuntimeError "Now only support input from pipe")).
Proof.
  exact (proj1 (pipe_address_read_only (H:=sample_platform)
                  "sort feats.scp |" "wb" empty_world eq_refl)
               (or_intror eq_refl)).
Defined.

(** ** Errors of the script parser *)

Section ParseErrors.
Context `{Platform} {A : Type}.
Implicit Types (ap : string -> result A) (raw : raw_line).

Lemma line_entry_tokens ap raw e :
  line_entry ap raw = Some e -> exists addr, line_tokens raw = [e.1; addr].
Proof.
  unfold line_entry.
  destruct (line_tokens raw) as [|k [|addr [|]]]; try done.
  destruct (ap addr); [|done]. intros [= <-]. by eexists.
Qed.

(** Clean lines have two tokens each and keys that differ from line to
    line. *)
Lemma clean_lines_tokens ap lines entries raw :
  clean_lines ap lines entries -> raw ∈ lines ->
  length (line_tokens raw) = 2%nat.
Proof.
  intros [Hall _] Hin.
  apply list_elem_of_lookup in Hin as [i Hi].
  destruct (Forall2_lookup_l _ _ _ _ _ Hall Hi) as (e & _ & He).
  apply line_entry_tokens in He as [addr ->]. done.
Qed.

Lemma clean_lines_key ap lines entries i j raw1 raw2 key addr1 addr2 :
  clean_lines ap lines entries ->
  lines !! i = Some raw1 -> lines !! j = Some raw2 ->
  line_tokens raw1 = [key; addr1] -> line_tokens raw2 = [key; addr2] ->
  i = j.
Proof.
  intros [Hall Hnd] Hi Hj H1 H2.
  destruct (Forall2_lookup_l _ _ _ _ _ Hall Hi) as (e1 & He1 & Hl1).
  destruct (Forall2_lookup_l _ _ _ _ _ Hall Hj) as (e2 & He2 & Hl2).
  apply line_entry_tokens in Hl1 as [a1 Hl1].
  apply line_entry_tokens in Hl2 as [a2 Hl2].
  rewrite H1 in Hl1. rewrite H2 in Hl2. simplify_eq.
  eapply NoDup_lookup; [done| |].
  - rewrite list_lookup_fmap, He1. simpl. done.
  - rewrite list_lookup_fmap, He2. simpl. by f_equal.
Qed.

(** The entry of a clean line. *)
Lemma clean_lines_entry ap lines entries raw key addr :
  clean_lines ap lines entries -> raw ∈ lines ->
  line_tokens raw = [key; addr] ->
  exists a, ap addr = Ok a /\ (key, a) ∈ entries.
Proof.
  intros [Hall _] Hin Ht.
  apply list_elem_of_lookup in Hin as [i Hi].
  destruct (Forall2_lookup_l _ _ _ _ _ Hall Hi) as (e & He & Hl).
  unfold line_entry in Hl. rewrite Ht in Hl.
  destruct (ap addr) as [a|]; [|done]. simplify_eq.
  exists a. split; [done|]. apply list_elem_of_lookup. by exists i.
Qed.

(** A line that has not two tokens makes the loop fail, with the format
    error for that line when the lines before it are clean. *)
Lemma parse_lines_token_count p ap pre raw post :
  ascii_lines (pre ++ raw :: post) ->
  length (line_tokens raw) <> 2%nat ->
  (exists e, parse_lines p ap (pre ++ raw :: post) = Raise e)
  /\ (forall entries,
        clean_lines ap pre entries ->
        parse_lines p ap (pre ++ raw :: post)
        = Raise (format_error (Z.of_nat (length pre) + 1) raw)).
Proof.
  intros Hascii Hn. split.
  - destruct (parse_lines p ap _) as [d|e] eqn:Hp; [|by eauto].
    apply parse_lines_ok_inv in Hp. destruct Hn.
    eapply clean_lines_tokens; [done|].
    apply elem_of_app. right. apply elem_of_cons. by left.
  - intros entries Hclean. unfold parse_lines.
    apply Forall_app in Hascii as [_ Hraw].
    apply Forall_cons in Hraw as [Hraw _].
    by rewrite (parse_loop_format _ _ _ _ _ entries)
      by (done || by apply decode_line_ascii).
Qed.

(** C5, amended.  For an index input of ASCII lines (from a pipe: one
    that the pipe can hold while the command is waited for): when a line
    strips and splits into a number of tokens other than two, the input is
    never parsed into an index, and [parse_scps] raises.  The loop stops at
    the first line it cannot take, so the error is the format error with
    the 1-based number and the raw content of that line when every line
    before it is clean (two tokens, an address the processor takes, a key
    not seen before). *)
Theorem parse_scps_format_error scp_path ap (capacity : nat) w w1 w2 f
    pre raw post :
  _fopen scp_path "r" w = (w1, Ok f) ->
  fits_pipe capacity f ->
  iter_lines f w1 = (w2, Ok (pre ++ raw :: post)) ->
  ascii_lines (pre ++ raw :: post) ->
  length (line_tokens raw) <> 2%nat ->
  (exists e, parse_scps scp_path ap w = (w2, Raise e))
  /\ (forall entries,
        clean_lines ap pre entries ->
        parse_scps scp_path ap w
        = (w2, Raise (format_error (Z.of_nat (length pre) + 1) raw))).
Proof.
  intros Hopen _ Hlines Hascii Hn.
  rewrite (parse_scps_run _ _ _ _ _ _ _ Hopen Hlines).
  destruct (parse_lines_token_count (path_text scp_path) ap pre raw post
              Hascii Hn) as [[e He] Hfirst].
  split.
  - exists e. by rewrite He.
  - intros entries Hclean. by rewrite (Hfirst entries Hclean).
Qed.

(** C6, amended.  For an index input of ASCII lines (from a pipe: one
    that the pipe can hold while the command is waited for): when a line
    repeats the key of an earlier line, the input is never parsed into an
    index: [parse_scps] raises, and a dictionary is returned only when no
    key repeats.  When the lines before the repeating one are clean the
    error is the duplicate key error, which names the key and the script
    path, and the dictionary at that point still holds the address of the
    first occurrence. *)
Theorem parse_scps_duplicate_key scp_path ap (capacity : nat) w w1 w2 f
    pre raw post raw0 key addr0 addr :
  _fopen scp_path "r" w = (w1, Ok f) ->
  fits_pipe capacity f ->
  iter_lines f w1 = (w2, Ok (pre ++ raw :: post)) ->
  ascii_lines (pre ++ raw :: post) ->
  raw0 ∈ pre ->
  line_tokens raw0 = [key; addr0] ->
  line_tokens raw = [key; addr] ->
  (exists e, parse_scps scp_path ap w = (w2, Raise e))
  /\ (forall entries,
        clean_lines ap pre entries ->
        parse_scps scp_path ap w
        = (w2, Raise (duplicate_error key (path_text scp_path)))
        /\ exists a0,
             ap addr0 = Ok a0
             /\ (parse_loop (path_text scp_path) ap (ParseState [] 0)
                            (pre ++ raw :: post)).1
                = ParseState entries (Z.of_nat (length pre) + 1)
             /\ dict_get key entries = Some a0).
Proof.
  intros Hopen _ Hlines _ Hin0 Ht0 Ht.
  rewrite (parse_scps_run _ _ _ _ _ _ _ Hopen Hlines). split.
  - destruct (parse_lines _ ap _) as [d|e] eqn:Hp; [|by eauto].
    apply parse_lines_ok_inv in Hp.
    apply list_elem_of_lookup in Hin0 as [i Hi].
    pose proof (lookup_lt_Some _ _ _ Hi) as Hlt.
    assert (i = length pre) as ->; [|lia].
    apply (clean_lines_key ap _ _ i (length pre) raw0 raw key addr0 addr Hp);
      [by apply lookup_app_l_Some | by rewrite list_lookup_middle | done..].
  - intros entries Hclean.
    destruct (clean_lines_entry _ _ _ _ _ _ Hclean Hin0 Ht0) as (a0 & Ha0 & Hk).
    assert (key ∈ entries.*1) as Hkey.
    { apply list_elem_of_fmap. by exists (key, a0). }
    pose proof (parse_loop_duplicate (path_text scp_path) ap pre raw post
                  entries key addr Hclean Ht Hkey) as Hloop.
    split.
    + unfold parse_lines. by rewrite Hloop.
    + exists a0. split; [done|]. split; [by rewrite Hloop|].
      destruct Hclean as [_ Hnd]. by apply dict_get_elem.
Qed.

(** C10, amended.  In an index input of ASCII lines (from a pipe: one
    that the pipe can hold while the command is waited for) a blank or
    white-space-only line has no token.  It is not skipped: an input that
    contains one is never parsed into an index.  The error is the token
    count format error for that line when every line before it is clean;
    otherwise the first line that cannot be taken raises its own error. *)
Theorem parse_scps_blank_line scp_path ap (capacity : nat) w w1 w2 f
    pre raw post :
  _fopen scp_path "r" w = (w1, Ok f) ->
  fits_pipe capacity f ->
  iter_lines f w1 = (w2, Ok (pre ++ raw :: post)) ->
  ascii_lines (pre ++ raw :: post) ->
  PyStr.all_space (line_text raw) = true ->
  line_tokens raw = []
  /\ (exists e, parse_scps scp_path ap w = (w2, Raise e))
  /\ (forall entries,
        clean_lines ap pre entries ->
        parse_scps scp_path ap w
        = (w2, Raise (format_error (Z.of_nat (length pre) + 1) raw))).
Proof.
  intros Hopen _ Hlines Hascii Hblank.
  assert (line_tokens raw = []) as Ht.
  { unfold line_tokens. rewrite PyStrFacts.split_strip.
    by apply PyStrFacts.split_all_space. }
  split; [done|].
  rewrite (parse_scps_run _ _ _ _ _ _ _ Hopen Hlines).
  destruct (parse_lines_token_count (path_text scp_path) ap pre raw post)
    as [[e He] Hfirst]; [done|by rewrite Ht|].
  split.
  - exists e. by rewrite He.
  - intros entries Hclean. by rewrite (Hfirst entries Hclean).
Qed.

End ParseErrors.

(** *** The parser on the example scripts *)

Example parse_sound_script :
  parse_scps (H:=sample_platform) (Some "feats.scp") addr_identity
             (script_world sound_script)
  = (script_world sound_script,
     Ok [("utt1", "/data/a.ark:5"); ("utt2", "/data/a.ark:80")]).
Proof. by_computation. Qed.

(** A line of bytes that is not UTF-8 raises the error of the decoding,
    before it is split and counted. *)
Example parse_undecodable_line :
  parse_loop "feats.scp" addr_identity (ParseState [] 0)
    [BytesLine (str_encode "utt1 a"); BytesLine [xe9; x20; x61; x0a]]
  = (ParseState [("utt1", "a")] 1, Raise UnicodeDecodeError).
Proof. by_computation. Qed.

Example parse_from_pipe :
  (parse_scps (H:=sample_platform) (Some "utt7 /data/b.ark:3 |") addr_identity
              empty_world).2
  = Ok [("utt7", "/data/b.ark:3")].
Proof. by_computation. Qed.


Lemma parse_scps_format_error_witness :
  parse_scps (H:=sample_platform) (Some "feats.scp") addr_identity
             (script_world short_line_script)
  = (script_world short_line_script,
     Raise (format_error 2 (text_line "utt2"))).
Proof.
  refine (proj2 (parse_scps_format_error (H:=sample_platform)
                   (Some "feats.scp") addr_identity 4096%nat
                   (script_world short_line_script)
                   (script_world short_line_script)
                   (script_world short_line_script)
                   script_stream
                   [text_line "utt1 /data/a.ark:5"] (text_line "utt2") []
                   _ _ _ _ _)
                [("utt1", "/data/a.ark:5")] _).
  - by_computation.
  - exact I.
  - by_computation.
  - repeat constructor.
  - by_computation.
  - split; [repeat constructor|apply NoDup_singleton].
Defined.

(** The third line has one token, and the parser stops at the second
    line, on its repeated key. *)
Lemma format_error_behind_duplicate :
  iter_lines (H:=sample_platform) script_stream
             (script_world duplicate_then_short_script)
  = (script_world duplicate_then_short_script,
     Ok [text_line "utt1 /data/a.ark:5"; text_line "utt1 /data/a.ark:80";
         text_line "utt2"])
  /\ length (line_tokens (text_line "utt2")) = 1%nat
  /\ parse_scps (H:=sample_platform) (Some "feats.scp") addr_identity
                (script_world duplicate_then_short_script)
     = (script_world duplicate_then_short_script,
        Raise (duplicate_error "utt1" "feats.scp"))
  /\ parse_scps (H:=sample_platform) (Some "feats.scp") addr_identity
                (script_world duplicate_then_short_script)
     <> (script_world duplicate_then_short_script,
         Raise (format_error 3 (text_line "utt2"))).
Proof.
  assert (parse_scps (H:=sample_platform) (Some "feats.scp") addr_identity
                     (script_world duplicate_then_short_script)
          = (script_world duplicate_then_short_script,
             Raise (duplicate_error "utt1" "feats.scp"))) as Hrun
    by by_computation.
  split; [by_computation|]. split; [by_computation|]. split; [done|].
  rewrite Hrun. by_computation.
Qed.

Lemma parse_scps_duplicate_key_witness :
  parse_scps (H:=sample_platform) (Some "feats.scp") addr_identity
             (script_world duplicate_script)
  = (script_world duplicate_script,
     Raise (duplicate_error "utt1" "feats.scp")).
Proof.
  refine (proj1 (proj2 (parse_scps_duplicate_key (H:=sample_platform)
                   (Some "feats.scp") addr_identity 4096%nat
                   (script_world duplicate_script)
                   (script_world duplicate_script)
                   (script_world duplicate_script)
                   script_stream
                   [text_line "utt1 /data/a.ark:5"]
                   (text_line "utt1 /data/a.ark:80") []
                   (text_line "utt1 /data/a.ark:5")
                   "utt1" "/data/a.ark:5" "/data/a.ark:80"
                   _ _ _ _ _ _ _)
                [("utt1", "/data/a.ark:5")] _)).
  - by_computation.
  - exact I.
  - by_computation.
  - repeat constructor.
  - apply list_elem_of_singleton. reflexivity.
  - by_computation.
  - by_computation.
  - split; [repeat constructor|apply NoDup_singleton].
Defined.

(** The first and the third line share a key, and the parser stops at the
    second line, which has one token. *)
Lemma duplicate_behind_format_error :
  iter_lines (H:=sample_platform) script_stream
             (script_world short_then_duplicate_script)
  = (script_world short_then_duplicate_script,
     Ok [text_line "utt1 /data/a.ark:5"; text_line "utt2";
         text_line "utt1 /data/a.ark:80"])
  /\ line_tokens (text_line "utt1 /data/a.ark:5") = ["utt1"; "/data/a.ark:5"]
  /\ line_tokens (text_line "utt1 /data/a.ark:80") = ["utt1"; "/data/a.ark:80"]
  /\ parse_scps (H:=sample_platform) (Some "feats.scp") addr_identity
                (script_world short_then_duplicate_script)
     = (script_world short_then_duplicate_script,
        Raise (format_error 2 (text_line "utt2")))
  /\ parse_scps (H:=sample_platform) (Some "feats.scp") addr_identity
                (script_world short_then_duplicate_script)
     <> (script_world short_then_duplicate_script,
         Raise (duplicate_error "utt1" "feats.scp")).
Proof.
  assert (parse_scps (H:=sample_platform) (Some "feats.scp") addr_identity
                     (script_world short_then_duplicate_script)
          = (script_world short_then_duplicate_script,
             Raise (format_error 2 (text_line "utt2")))) as Hrun
    by by_computation.
  split; [by_computation|]. split; [by_computation|].
  split; [by_computation|]. split; [done|].
  rewrite Hrun. by_computation.
Qed.

Lemma parse_scps_blank_line_witness :
  parse_scps (H:=sample_platform) (Some "feats.scp") addr_identity
             (script_world blank_line_script)
  = (script_world blank_line_script,
     Raise (format_error 2 (text_line "  "))).
Proof.
  refine (proj2 (proj2 (parse_scps_blank_line (H:=sample_platform)
                   (Some "feats.scp") addr_identity 4096%nat
                   (script_world blank_line_script)
                   (script_world blank_line_script)
                   (script_world blank_line_script)
                   script_stream
                   [text_line "utt1 /data/a.ark:5"] (text_line "  ") []
                   _ _ _ _ _))
                [("utt1", "/data/a.ark:5")] _).
  - by_computation.
  - exact I.
  - by_computation.
  - repeat constructor.
  - by_computation.
  - split; [repeat constructor|apply NoDup_singleton].
Defined.

(** The third line is empty, and the parser stops at the second line, on
    its repeated key: the error is not a format error. *)
Lemma blank_line_behind_duplicate :
  iter_lines (H:=sample_platform) script_stream
             (script_world duplicate_then_blank_script)
  = (script_world duplicate_then_blank_script,
     Ok [text_line "utt1 /data/a.ark:5"; text_line "utt1 /data/a.ark:80";
         text_line ""])
  /\ PyStr.all_space (line_text (text_line "")) = true
  /\ parse_scps (H:=sample_platform) (Some "feats.scp") addr_identity
                (script_world duplicate_then_blank_script)
     = (script_world duplicate_then_blank_script,
        Raise (duplicate_error "utt1" "feats.scp"))
  /\ parse_scps (H:=sample_platform) (Some "feats.scp") addr_identity
                (script_world duplicate_then_blank_script)
     <> (script_world duplicate_then_blank_script,
         Raise (format_error 3 (text_line ""))).
Proof.
  assert (parse_scps (H:=sample_platform) (Some "feats.scp") addr_identity
                     (script_world duplicate_then_blank_script)
          = (script_world duplicate_then_blank_script,
             Raise (duplicate_error "utt1" "feats.scp"))) as Hrun
    by by_computation.
  split; [by_computation|]. split; [by_computation|]. split; [done|].
  rewrite Hrun. by_computation.
Qed.

(** ** Random-access readers *)

Section ReaderFacts.
Context `{Platform} {A P : Type}.
Variable _load : Reader A -> string -> IO P.
Implicit Types (self : Reader A) (ap : string -> result A).

(** What [parse_scps] has done when it returns a dictionary. *)
Lemma parse_scps_ok_inv scp_path ap w w' d :
  parse_scps scp_path ap w = (w', Ok d) ->
  exists w1 f lines,
    _fopen scp_path "r" w = (w1, Ok f)
    /\ iter_lines f w1 = (w', Ok lines)
    /\ parse_lines (path_text scp_path) ap lines = Ok d.
Proof.
  unfold parse_scps, with_ext_open, bind, attempt, lift.
  destruct (_fopen scp_path "r" w) as [w1 [f|e]] eqn:Hopen; [|done].
  destruct (iter_lines f w1) as [w2 [lines|e]] eqn:Hlines.
  - destruct (_fclose scp_path f); [|done].
    intros [= <- Hp]. by exists w1, f, lines.
  - by destruct (_fclose scp_path f).
Qed.

Lemma Reader_init_inv scp_path ap w w' self :
  Reader_init scp_path ap w = (w', Ok self) ->
  exists d,
    parse_scps scp_path ap w = (w', Ok d) /\ self = MkReader d (dict_keys d).
Proof.
  unfold Reader_init, bind, ret.
  destruct (parse_scps scp_path ap w) as [w1 [d|e]]; [|done].
  intros [= <- <-]. by exists d.
Qed.

Lemma Reader_init_built scp_path ap w w' self :
  Reader_init scp_path ap w = (w', Ok self) -> built self.
Proof.
  intros (d & Hp & ->)%Reader_init_inv.
  apply parse_scps_ok_inv in Hp as (w1 & f & lines & _ & _ & Hp).
  apply parse_lines_ok_inv in Hp as [_ Hnd]. by split.
Qed.

Lemma built_len self :
  built self -> __len__ self = Z.of_nat (length (index_keys self)).
Proof.
  intros [Hk _]. unfold __len__. rewrite Hk. unfold dict_keys.
  by rewrite length_fmap.
Qed.

Lemma built_contains self key :
  built self -> key ∈ index_keys self -> __contains__ self key = true.
Proof.
  intros [Hk _] Hin. unfold __contains__. apply dict_mem_true.
  by rewrite Hk in Hin.
Qed.

(** C2.  For a reader built from a valid index and an integer [i] with
    [0 <= i < len(self)], [self[i]] is [self[key]] for the key at position
    [i] of the insertion-ordered key list: in every world both calls do the
    same and return the same. *)
Theorem getitem_int_by_position scp_path ap w0 w1 self (i : Z) :
  Reader_init scp_path ap w0 = (w1, Ok self) ->
  0 <= i < __len__ self ->
  exists key,
    index_keys self !! Z.to_nat i = Some key
    /\ forall w,
         __getitem__ _load self (IntIndex i) w
         = __getitem__ _load self (StrIndex key) w.
Proof.
  intros Hinit Hi. apply Reader_init_built in Hinit as Hb.
  rewrite (built_len _ Hb) in Hi.
  destruct (lookup_lt_is_Some_2 (index_keys self) (Z.to_nat i)) as [key Hkey];
    [lia|].
  exists key. split; [done|]. intros w. unfold __getitem__.
  replace (i >=? Z.of_nat (length (index_keys self))) with false by lia.
  replace (i <? 0) with false by lia.
  simpl. by rewrite Hkey.
Qed.

(** C3.  For a reader built from a valid index: an integer selector out
    of [0 <= i < len(self)] raises the out of range error, whose message
    gives the index and the bound; a string selector that is no key raises
    the missing key error, whose message gives the key.  Either call
    leaves the world as it found it, and, as no method assigns to the
    reader, a lookup made after the failed one does what it would have
    done without it. *)
Theorem getitem_lookup_errors scp_path ap w0 w1 self :
  Reader_init scp_path ap w0 = (w1, Ok self) ->
  (forall i w,
     i < 0 \/ i >= __len__ self ->
     __getitem__ _load self (IntIndex i) w
     = (w, Raise (out_of_range_error i (__len__ self))))
  /\ (forall key w,
        __contains__ self key = false ->
        __getitem__ _load self (StrIndex key) w
        = (w, Raise (missing_key_error key)))
  /\ (forall index index' w,
        unresolved self index ->
        bind (attempt (__getitem__ _load self index))
             (fun _ => __getitem__ _load self index') w
        = __getitem__ _load self index' w).
Proof.
  intros Hinit. apply Reader_init_built in Hinit as Hb.
  assert (forall i w,
            i < 0 \/ i >= __len__ self ->
            __getitem__ _load self (IntIndex i) w
            = (w, Raise (out_of_range_error i (__len__ self)))) as Hint.
  { intros i w Hi. rewrite (built_len _ Hb) in *. unfold __getitem__.
    destruct Hi as [Hi|Hi].
    - replace (i <? 0) with true by lia. by rewrite orb_true_r.
    - by replace (i >=? Z.of_nat (length (index_keys self))) with true by lia. }
  assert (forall key w,
            __contains__ self key = false ->
            __getitem__ _load self (StrIndex key) w
            = (w, Raise (missing_key_error key))) as Hstr.
  { intros key w Hk. unfold __getitem__, __contains__ in *. by rewrite Hk. }
  split; [done|]. split; [done|].
  intros index index' w Hbad. unfold bind, attempt.
  destruct index as [i|key|t]; simpl in Hbad; [| |done].
  - by rewrite Hint.
  - by rewrite Hstr.
Qed.

(** *** Iteration *)

(** A generator with enough fuel: the pairs it yields come from loads made
    one after the other, in the order of the pending keys; the loop ends
    after the last key, or at the first load that raises. *)
Lemma consume_spec self keys fuel w w' r :
  (length keys < fuel)%nat ->
  consume _load self fuel (Generator keys) w = (w', r) ->
  exists items e wm,
    r = Ok (items, e)
    /\ loaded _load self w items wm
    /\ items.*1 `prefix_of` keys
    /\ match e with
       | None => w' = wm /\ items.*1 = keys
       | Some err =>
           exists key,
             keys !! length items = Some key
             /\ _load self key wm = (w', Raise err)
       end.
Proof.
  revert fuel w w' r.
  induction keys as [|key keys IH]; intros fuel w w' r Hf.
  - destruct fuel as [|fuel]; [simpl in Hf; lia|].
    simpl. unfold bind, attempt, ret. simpl.
    intros [= <- <-]. exists [], None, w.
    split; [done|]. split; [constructor|]. by split.
  - destruct fuel as [|fuel]; [simpl in Hf; lia|].
    cbn [consume]. unfold next. cbn [pending]. io_unfold.
    destruct (_load self key w) as [w1 [p|err]] eqn:Hload; cbv beta iota.
    + destruct (consume _load self fuel (Generator keys) w1)
        as [w2 r'] eqn:Hrest.
      apply IH in Hrest as (items & e & wm & -> & Hl & Hpre & He);
        [|simpl in Hf; lia].
      cbv beta iota. intros [= <- <-].
      exists ((key, p) :: items), e, wm.
      split; [done|]. split; [by econstructor|].
      split; [by apply prefix_cons|].
      destruct e as [err|].
      * destruct He as (k & Hk & Hr). by exists k.
      * destruct He as [-> <-]. done.
    + intros [= <- <-].
      exists [], (Some err), w.
      split; [done|]. split; [constructor|].
      split; [apply prefix_nil|]. by exists key.
Qed.

(** When the loads succeed, in every world that satisfies an invariant
    they keep, the generator runs to its end. *)
Lemma consume_total self keys fuel (I : World -> Prop) w :
  (length keys < fuel)%nat ->
  I w ->
  (forall key w, key ∈ keys -> I w ->
                 exists w' p, _load self key w = (w', Ok p) /\ I w') ->
  exists w' items,
    consume _load self fuel (Generator keys) w = (w', Ok (items, None))
    /\ I w'.
Proof.
  revert fuel w. induction keys as [|key keys IH]; intros fuel w Hf Hw Hloads.
  - destruct fuel as [|fuel]; [simpl in Hf; lia|]. by exists w, [].
  - destruct fuel as [|fuel]; [simpl in Hf; lia|].
    destruct (Hloads key w) as (w1 & p & Hload & Hw1); [by left|done|].
    destruct (IH fuel w1) as (w' & items & Hrest & Hw').
    { simpl in Hf. lia. }
    { done. }
    { intros k v Hk Hv. apply Hloads; [by right|done]. }
    exists w', ((key, p) :: items). split; [|done].
    cbn [consume]. unfold next. cbn [pending]. io_unfold.
    rewrite Hload. cbv beta iota. by rewrite Hrest.
Qed.

(** C4, amended.  For a reader built from a valid index of [N] ASCII
    lines (from a pipe: one that the pipe can hold while the command is
    waited for): its keys are the keys of the lines, in line order.
    Iterating visits the keys in that order and performs one load per key;
    each pair it yields holds the key and the result of the load for that
    key; it ends after the last key, or at the first load that raises,
    with the exception of that load and after the pairs of the keys before
    it.  It yields exactly [N] pairs when the loads succeed (in every
    world that satisfies an invariant [I] they keep), and iterating again
    then yields the same key sequence. *)
Theorem iterate_in_index_order scp_path ap (capacity : nat) w0 wa w1 f lines
    self :
  _fopen scp_path "r" w0 = (wa, Ok f) ->
  fits_pipe capacity f ->
  iter_lines f wa = (w1, Ok lines) ->
  ascii_lines lines ->
  Reader_init scp_path ap w0 = (w1, Ok self) ->
  Forall2 (fun raw key => exists addr, line_tokens raw = [key; addr])
          lines (index_keys self)
  /\ __len__ self = Z.of_nat (length lines)
  /\ (forall w w' r,
        iterate _load self w = (w', r) ->
        exists items e wm,
          r = Ok (items, e)
          /\ loaded _load self w items wm
          /\ items.*1 `prefix_of` index_keys self
          /\ match e with
             | None => w' = wm /\ items.*1 = index_keys self
             | Some err =>
                 exists key,
                   index_keys self !! length items = Some key
                   /\ _load self key wm = (w', Raise err)
             end)
  /\ (forall (I : World -> Prop) w,
        I w ->
        (forall key w, key ∈ index_keys self -> I w ->
                       exists w' p, _load self key w = (w', Ok p) /\ I w') ->
        exists w' items,
          iterate _load self w = (w', Ok (items, None))
          /\ items.*1 = index_keys self
          /\ length items = length lines
          /\ loaded _load self w items w'
          /\ exists w'' items',
               iterate _load self w' = (w'', Ok (items', None))
               /\ items'.*1 = items.*1).
Proof.
  intros Hopen _ Hlines _ Hinit.
  pose proof (parse_scps_run scp_path ap _ _ _ _ _ Hopen Hlines) as Hp.
  apply Reader_init_inv in Hinit as Hd. destruct Hd as (d & Hp' & ->).
  rewrite Hp in Hp'. injection Hp' as Hp'.
  apply parse_lines_ok_inv in Hp' as [Hall Hnd].
  set (self := MkReader d (dict_keys d)).
  assert (Forall2 (fun raw key => exists addr, line_tokens raw = [key; addr])
                  lines (dict_keys d)) as Hkeys.
  { unfold dict_keys. apply Forall2_fmap_r.
    eapply Forall2_impl; [exact Hall|].
    intros raw e He. by apply line_entry_tokens in He. }
  assert (length (dict_keys d) = length lines) as Hlen.
  { symmetry. by eapply Forall2_length. }
  split; [done|]. split.
  { unfold __len__. cbn [index_dict self]. rewrite <- Hlen. unfold dict_keys.
    by rewrite length_fmap. }
  assert (forall w w' r,
            iterate _load self w = (w', r) ->
            exists items e wm,
              r = Ok (items, e)
              /\ loaded _load self w items wm
              /\ items.*1 `prefix_of` index_keys self
              /\ match e with
                 | None => w' = wm /\ items.*1 = index_keys self
                 | Some err =>
                     exists key,
                       index_keys self !! length items = Some key
                       /\ _load self key wm = (w', Raise err)
                 end) as Hspec.
  { intros w w' r Hrun. unfold iterate, __iter__ in Hrun.
    apply consume_spec in Hrun; [done|lia]. }
  split; [done|].
  intros I w Hw Hloads.
  assert (forall w, I w ->
            exists w' items,
              iterate _load self w = (w', Ok (items, None))
              /\ items.*1 = index_keys self
              /\ loaded _load self w items w' /\ I w') as Hrun.
  { clear w Hw. intros w Hw.
    destruct (consume_total self (index_keys self)
                (S (length (index_keys self))) I w) as (w' & items & Hit & Hw');
      [lia|done|done|].
    destruct (Hspec _ _ _ Hit) as (items' & e & wm & [= <- <-] & Hl & _ & He).
    destruct He as [<- Hk]. by exists w', items. }
  destruct (Hrun w Hw) as (w' & items & Hit & Hk & Hl & Hw').
  destruct (Hrun w' Hw') as (w'' & items' & Hit' & Hk' & _ & _).
  exists w', items. split; [done|]. split; [done|]. split.
  { rewrite <- Hlen. change (dict_keys d) with (index_keys self).
    rewrite <- Hk. by rewrite length_fmap. }
  split; [done|]. exists w'', items'. split; [done|]. by rewrite Hk.
Qed.

End ReaderFacts.

(** ** Writers *)

Section WriterFacts.
Context `{Platform} {Mat Vec : Type} `{Codec Mat Vec}.
Implicit Types (self : Writer).

Lemma truthy_fopen scp mode w w' f :
  _fopen scp mode w = (w', Ok (Some f)) -> truthy scp = true.
Proof. intros Hopen. by apply _fopen_some in Hopen as (s & -> & Hs). Qed.

Lemma _fclose_some fname fd fd' :
  _fclose fname fd = Ok fd' -> is_Some fd' -> is_Some fd.
Proof.
  unfold _fclose. destruct fd as [f|]; [by eauto|].
  destruct (bool_decide (fname ≠ Some "-")); intros [= <-]; by intros [? ?].
Qed.

(** The invariant of a writer: standard output as archive leaves no script
    path, and a script stream is only open for a script path. *)
Lemma writer_state_inv self :
  writer_state self ->
  (ark_path self = "-" -> truthy (scp_path self) = false)
  /\ (is_Some (scp_file self) -> truthy (scp_path self) = true).
Proof.
  induction 1 as [ark scp w w' self Hinit
                 |self w w' self' _ [IH1 IH2] Henter
                 |self w w' self' _ [IH1 IH2] Hexit].
  - unfold Writer_init in Hinit. revert Hinit. io_unfold.
    destruct (bool_decide (ark = "-")) eqn:Hark; simpl.
    + destruct (truthy scp) eqn:Hscp; intros [= <- <-]; simpl;
        (split; [done|by intros [? ?]]).
    + apply bool_decide_eq_false in Hark.
      intros [= <- <-]; simpl. split; [done|by intros [? ?]].
  - unfold Writer_enter in Henter. revert Henter. io_unfold.
    destruct (_fopen (Some (ark_path self)) "wb" w) as [w1 [a|e]]; [|done].
    destruct (_fopen (scp_path self) "w" w1) as [w2 [s|e]] eqn:Hs; [|done].
    intros [= <- <-]; simpl. split; [done|].
    intros [f ->]. by eapply truthy_fopen.
  - unfold Writer_exit in Hexit. revert Hexit. io_unfold.
    destruct (_fclose (Some (ark_path self)) (ark_file self)) as [a|e]; [|done].
    destruct (_fclose (scp_path self) (scp_file self)) as [s|e] eqn:Hs; [|done].
    intros [= <- <-]; simpl. split; [done|].
    intros Hsome. apply IH2. by eapply _fclose_some.
Qed.

(** The streams never raise the error of an unbound local variable. *)
Lemma stream_write_not_unbound fd data w w' name :
  stream_write fd data w <> (w', Raise (UnboundLocalError name)).
Proof.
  unfold stream_write. io_unfold.
  destruct fd as [[[] ? [] []]|]; simpl; done.
Qed.

Lemma stream_tell_not_unbound fd w w' name :
  stream_tell fd w <> (w', Raise (UnboundLocalError name)).
Proof.
  unfold stream_tell. io_unfold.
  destruct fd as [[[] ? ? []]|]; simpl; done.
Qed.

(** C9.  Every writer the class makes keeps the invariant that an open
    script stream implies an archive that is not standard output:
    construction leaves no script path when the archive address is ["-"]
    (dropping a given one with a warning), and [__enter__] opens a script
    stream only for a script path.  Hence, whenever [write] reaches the
    script line, the offset was recorded in that call, after the key token
    and before the binary sentinel: [write] is [write_with_offset], and it
    never raises the error of an unbound [offset]. *)
Theorem offset_bound_when_script_open self :
  writer_state self ->
  (forall scp w,
     truthy scp = true ->
     Writer_init "-" scp w
     = (add_warning
          "Ignore .scp output discriptor cause dump archives to stdout" w,
        Ok (MkWriter None "-" None None)))
  /\ (ark_path self = "-" -> truthy (scp_path self) = false)
  /\ (is_Some (scp_file self) -> ark_path self <> "-")
  /\ (forall key matrix w,
        is_Some (scp_file self) ->
        ArchiveWriter_write self key matrix w
        = write_with_offset self key matrix w)
  /\ (forall key matrix w w',
        ArchiveWriter_write self key matrix w
        <> (w', Raise (UnboundLocalError "offset"))).
Proof.
  intros [Hinv1 Hinv2]%writer_state_inv.
  assert (is_Some (scp_file self) -> ark_path self <> "-") as Hopen.
  { intros Hs Hark. specialize (Hinv1 Hark). specialize (Hinv2 Hs). congruence. }
  split.
  { intros scp w Hscp. unfold Writer_init. io_unfold. by rewrite Hscp. }
  split; [done|]. split; [done|]. split.
  - intros key matrix w [f Hf]. specialize (Hopen (ex_intro _ f Hf)).
    unfold ArchiveWriter_write, write_with_offset.
    rewrite bool_decide_eq_false_2 by done. rewrite Hf. cbn [negb]. io_unfold.
    destruct (stream_write (ark_file self) (write_token key) w)
      as [w1 [[]|e]]; [|done].
    destruct (stream_tell (ark_file self) w1) as [w2 [o|e]]; [|done].
    done.
  - intros key matrix w w'. unfold ArchiveWriter_write. io_unfold.
    destruct (stream_write (ark_file self) (write_token key) w)
      as [w1 [[]|e]] eqn:H1; [|by intros [= <- ->]; eapply stream_write_not_unbound].
    destruct (scp_file self) as [f|] eqn:Hf.
    + rewrite bool_decide_eq_false_2 by eauto. cbn [negb]. io_unfold.
      destruct (stream_tell (ark_file self) w1) as [w2 [o|e]] eqn:H2;
        [|by intros [= <- ->]; eapply stream_tell_not_unbound].
      destruct (stream_write (ark_file self) write_binary_symbol w2)
        as [w3 [[]|e]] eqn:H3;
        [|by intros [= <- ->]; eapply stream_write_not_unbound].
      destruct (stream_write (ark_file self) (write_common_mat matrix) w3)
        as [w4 [[]|e]] eqn:H4;
        [|by intros [= <- ->]; eapply stream_write_not_unbound].
      apply stream_write_not_unbound.
    + destruct (negb (bool_decide (ark_path self = "-"))); io_unfold.
      * destruct (stream_tell (ark_file self) w1) as [w2 [o|e]] eqn:H2;
          [|by intros [= <- ->]; eapply stream_tell_not_unbound].
        destruct (stream_write (ark_file self) write_binary_symbol w2)
          as [w3 [[]|e]] eqn:H3;
          [|by intros [= <- ->]; eapply stream_write_not_unbound].
        destruct (stream_write (ark_file self) (write_common_mat matrix) w3)
          as [w4 [[]|e]] eqn:H4;
          [done|by intros [= <- ->]; eapply stream_write_not_unbound].
      * destruct (stream_write (ark_file self) write_binary_symbol w1)
          as [w3 [[]|e]] eqn:H3;
          [|by intros [= <- ->]; eapply stream_write_not_unbound].
        destruct (stream_write (ark_file self) (write_common_mat matrix) w3)
          as [w4 [[]|e]] eqn:H4;
          [done|by intros [= <- ->]; eapply stream_write_not_unbound].
Qed.

End WriterFacts.

(** ** Writing an archive and reading it back *)

Section ScriptFormat.
Import PyStr PyStrFacts.

(** Appends of strings, to the right and without empty pieces. *)
Ltac sapp_norm :=
  repeat first [rewrite sapp_assoc | rewrite sapp_cons | rewrite sapp_nil_l].

(** The address [path:offset] is cut at its last colon. *)
Lemma addr_processor_written (path : string) (offset : Z) :
  0 <= offset ->
  addr_processor (path +:+ ":" +:+ format_d offset) = Ok (path, offset).
Proof.
  intros Hoff. unfold addr_processor, split_on.
  change (path +:+ ":" +:+ format_d offset)
    with (path +:+ String ":" (format_d offset)).
  rewrite split_on_go_last by by apply format_d_no_colon.
  pose proof (join_split_on_go ":" "" path) as Hjoin.
  destruct (split_on_go_cons ":" "" path) as (y & ys & Hy).
  rewrite Hy in *. rewrite sapp_nil_l in Hjoin.
  rewrite bool_decide_eq_false_2.
  2:{ rewrite length_app. simpl. lia. }
  rewrite removelast_last, last_last, Hjoin.
  by rewrite int_format_d.
Qed.

Lemma scp_line_fields (key path : string) (offset : Z) :
  scp_line key path offset
  = key +:+ String "009" ((path +:+ ":" +:+ format_d offset)
                          +:+ String "010" "").
Proof. unfold scp_line, line_feed. by sapp_norm. Qed.

Lemma scp_line_body (key path : string) (offset : Z) :
  scp_line key path offset
  = (key +:+ String "009" (path +:+ ":" +:+ format_d offset)) +:+ line_feed.
Proof. unfold scp_line, line_feed. by sapp_norm. Qed.

(** A script line is read back as the entry it was written for. *)
Lemma line_entry_written (key path : string) (offset : Z) :
  plain_token key -> no_space path = true -> 0 <= offset ->
  line_entry addr_processor (StrLine (scp_line key path offset))
  = Some (key, (path, offset)).
Proof.
  intros [Hk1 Hk2] Hp Hoff. unfold line_entry, line_tokens.
  rewrite line_text_str.
  rewrite split_strip, scp_line_fields.
  rewrite split_fields; [|done|done|..|done|done].
  - by rewrite addr_processor_written.
  - apply nonempty_app_r. done.
  - rewrite !no_space_app, Hp. simpl. by apply format_d_no_space.
Qed.

Lemma scp_line_no_newline (key path : string) (offset : Z) :
  no_space key = true -> no_space path = true -> 0 <= offset ->
  no_newline (key +:+ String "009" (path +:+ ":" +:+ format_d offset)) = true.
Proof.
  intros Hk Hp Hoff.
  change (String "009" (path +:+ ":" +:+ format_d offset))
    with (String "009" "" +:+ path +:+ ":" +:+ format_d offset).
  rewrite !no_newline_app.
  rewrite (no_space_no_newline key) by done.
  rewrite (no_space_no_newline path) by done.
  by rewrite (no_space_no_newline (format_d offset))
    by by apply format_d_no_space.
Qed.

(** The bytes of a text file made of lines are read back as these lines. *)
Lemma text_lines_script (lines : list string) :
  Forall (fun l => exists body,
            l = body +:+ line_feed /\ no_newline body = true) lines ->
  text_lines_go "" (text_decode (script_bytes lines)) = lines.
Proof.
  unfold script_bytes. induction 1 as [|l lines (body & -> & Hb) _ IH]; [done|].
  rewrite fmap_cons. cbn [concat].
  rewrite text_decode_app, text_decode_encode.
  rewrite sapp_assoc. rewrite text_lines_go_line by done.
  by rewrite IH, sapp_nil_l.
Qed.

End ScriptFormat.

Section RegularFiles.
Context `{Platform} {Mat Vec : Type} `{Codec Mat Vec}.

Lemma plain_path_tests (fname : string) :
  plain_path fname ->
  PyStr.nonempty fname = true
  /\ bool_decide (fname = "-") = false
  /\ bool_decide (last_char fname = Some "|"%char) = false.
Proof.
  intros (Hne & Hdash & Hpipe). split; [done|].
  by rewrite !bool_decide_eq_false_2.
Qed.

(** A regular file opened for writing is created empty. *)
Lemma _fopen_plain_write (fname mode : string) (w : World) :
  plain_path fname -> mode = "w" \/ mode = "wb" ->
  _fopen (Some fname) mode w
  = (set_fs (insert (abspath fname) []) w,
     Ok (Some (Stream (RegularFile (abspath fname))
                      (bool_decide (mode = "wb")) true false))).
Proof.
  intros (Hne & Hdash & Hpipe)%plain_path_tests Hmode.
  unfold _fopen, open, path_exists. rewrite Hne, Hdash, Hpipe.
  destruct Hmode as [-> | ->]; eval_mode; by io_unfold.
Qed.

(** A regular file that exists is opened for reading as it is. *)
Lemma _fopen_plain_read (fname : string) (w : World) (content : list byte) :
  plain_path fname ->
  fs w !! abspath fname = Some content ->
  _fopen (Some fname) "r" w
  = (w, Ok (Some (Stream (RegularFile (abspath fname)) false false false))).
Proof.
  intros (Hne & Hdash & Hpipe)%plain_path_tests Hfile.
  unfold _fopen, open, path_exists. rewrite Hne, Hdash, Hpipe.
  eval_mode. io_unfold. rewrite Hfile.
  rewrite bool_decide_eq_true_2 by eauto. io_unfold. rewrite Hfile.
  rewrite bool_decide_eq_true_2 by eauto. by io_unfold.
Qed.

Lemma iter_lines_text_file (w : World) (p : string) (content : list byte) :
  fs w !! p = Some content ->
  iter_lines (Some (Stream (RegularFile p) false false false)) w
  = (w, Ok (StrLine <$> text_lines_go "" (text_decode content))).
Proof.
  intros Hfile. unfold iter_lines, stream_bytes. simpl. io_unfold.
  by rewrite Hfile.
Qed.

(** One call of [write] on a writer whose archive and script are two
    regular files: the record is appended to the archive, and its line,
    with the position after the key token, to the script. *)
Lemma write_step (scp ark : string) (key : string) (m : Mat) (w : World)
    (A S : list byte) :
  ark <> "-" -> abspath ark <> abspath scp ->
  fs w !! abspath ark = Some A ->
  fs w !! abspath scp = Some S ->
  exists w',
    ArchiveWriter_write
      (MkWriter (Some scp) ark (Some (ark_stream ark)) (Some (scp_stream scp)))
      key m w = (w', Ok tt)
    /\ fs w' !! abspath ark = Some (A ++ record_bytes (key, m))
    /\ fs w' !! abspath scp
       = Some (S ++ str_encode
                 (scp_line key (abspath ark)
                    (Z.of_nat (length A + length (write_token key))))).
Proof.
  intros Hark Hne HA HS.
  unfold ArchiveWriter_write, stream_write, stream_tell. simpl.
  rewrite bool_decide_eq_false_2 by done. simpl. io_unfold.
  eexists. split; [reflexivity|]. simpl.
  rewrite !lookup_insert_eq. simpl.
  rewrite lookup_insert_ne by done. rewrite !lookup_insert_eq. simpl.
  rewrite !lookup_insert_ne by done. rewrite HA, HS. simpl.
  split.
  - unfold record_bytes. simpl. by rewrite <- !List.app_assoc.
  - by rewrite length_app.
Qed.

Lemma write_loop (scp ark : string) (records : list (string * Mat)) :
  ark <> "-" -> abspath ark <> abspath scp ->
  forall (w : World) (A S : list byte),
    fs w !! abspath ark = Some A ->
    fs w !! abspath scp = Some S ->
    exists w',
      for_each records
        (fun '(key, mat) =>
           ArchiveWriter_write
             (MkWriter (Some scp) ark (Some (ark_stream ark))
                       (Some (scp_stream scp)))
             key mat) w = (w', Ok tt)
      /\ fs w' !! abspath ark = Some (A ++ archive_bytes records)
      /\ fs w' !! abspath scp
         = Some (S ++ script_bytes (script_lines ark (length A) records)).
Proof.
  intros Hark Hne.
  induction records as [|[key m] records IH]; intros w A S HA HS.
  - exists w. simpl. by rewrite !List.app_nil_r.
  - destruct (write_step scp ark key m w A S) as (w1 & Hw & HA1 & HS1);
      [done..|].
    destruct (IH w1 _ _ HA1 HS1) as (w' & Hrest & HA' & HS').
    exists w'. split; [|split].
    + cbn [for_each]. unfold bind. by rewrite Hw.
    + rewrite HA'. unfold archive_bytes. rewrite fmap_cons. cbn [concat].
      by rewrite <- List.app_assoc.
    + rewrite HS'. unfold script_lines, script_bytes.
      cbn [record_offsets zip_with]. rewrite fmap_cons. cbn [concat fst].
      rewrite length_app. by rewrite <- List.app_assoc.
Qed.

End RegularFiles.

Section Roundtrip.
Context `{Platform} {Mat Vec : Type} `{Codec Mat Vec}.
Implicit Types (records : list (string * Mat)).

Lemma _fclose_plain (fname : string) (f : stream) :
  plain_path fname -> _fclose (Some fname) (Some f) = Ok (Some (close f)).
Proof.
  intros (Hne & Hdash & Hpipe). unfold _fclose.
  rewrite bool_decide_eq_true_2 by congruence.
  destruct (last_char_nonempty fname Hne) as [c Hc]. rewrite Hc.
  rewrite bool_decide_eq_true_2; [done|]. intros ->. by rewrite Hc in Hpipe.
Qed.

(** The whole [with] block on two regular files: the archive holds the
    records one after the other, the script holds their lines. *)
Lemma write_archive_plain (ark scp : string) records (w : World) :
  plain_path ark -> plain_path scp -> abspath ark <> abspath scp ->
  exists w1,
    write_archive ark (Some scp) records w = (w1, Ok tt)
    /\ fs w1 !! abspath ark = Some (archive_bytes records)
    /\ fs w1 !! abspath scp
       = Some (script_bytes (script_lines ark 0 records)).
Proof.
  intros Hark Hscp Hne.
  pose proof Hark as (_ & Hdash & _).
  destruct (write_loop scp ark records Hdash Hne
              (set_fs (insert (abspath scp) [])
                      (set_fs (insert (abspath ark) []) w)) [] [])
    as (w1 & Hloop & HA & HS).
  { simpl. rewrite lookup_insert_ne by done. apply lookup_insert_eq. }
  { simpl. apply lookup_insert_eq. }
  exists w1. split; [|done].
  unfold write_archive, Writer_init, Writer_enter, Writer_exit.
  rewrite (bool_decide_eq_false_2 (ark = "-")) by done.
  io_unfold. cbn [ark_path scp_path ark_file scp_file].
  rewrite _fopen_plain_write by (done || by right).
  rewrite _fopen_plain_write by (done || by left).
  eval_mode. fold (ark_stream ark). fold (scp_stream scp).
  rewrite Hloop. cbn [ark_path scp_path ark_file scp_file].
  by rewrite !_fclose_plain.
Qed.

Lemma script_entries_keys (ark : string) (pos : nat) records :
  (script_entries ark pos records).*1 = records.*1.
Proof.
  unfold script_entries. revert pos.
  induction records as [|r records IH]; intros pos; [done|].
  simpl. by rewrite IH.
Qed.

(** The offset of a record is where its binary sentinel starts. *)
Lemma record_offsets_drop `{!PositionSymmetric} records :
  forall (pos : nat) (pre : list byte) (i : nat) key m,
    length pre = pos ->
    records !! i = Some (key, m) ->
    exists offset,
      record_offsets pos records !! i = Some offset
      /\ 0 <= offset
      /\ drop (Z.to_nat offset) (pre ++ archive_bytes records)
         = write_binary_symbol ++ write_common_mat m
             ++ archive_bytes (drop (S i) records).
Proof.
  induction records as [|r records IH]; intros pos pre i key m Hpre Hi;
    [done|].
  subst pos. destruct i as [|i].
  - simpl in Hi. simplify_eq. eexists. split; [done|]. split; [lia|].
    unfold archive_bytes. rewrite fmap_cons. cbn [concat drop].
    unfold record_bytes. cbn [fst snd].
    rewrite Nat2Z.id.
    rewrite <- !List.app_assoc, (List.app_assoc pre).
    rewrite <- length_app. by rewrite drop_app_length.
  - simpl in Hi.
    destruct (IH (length pre + length (record_bytes r))%nat
                 (pre ++ record_bytes r) i key m) as (offset & Ho & Hnn & Hd);
      [by rewrite length_app|done|].
    exists offset. split; [by simpl|]. split; [done|].
    unfold archive_bytes in *. rewrite fmap_cons. cbn [concat].
    rewrite List.app_assoc. by rewrite Hd.
Qed.

Lemma script_entries_lookup (ark : string) (pos : nat) records i key m offset :
  records !! i = Some (key, m) ->
  record_offsets pos records !! i = Some offset ->
  script_entries ark pos records !! i = Some (key, (abspath ark, offset)).
Proof.
  intros Hr Ho. unfold script_entries.
  rewrite lookup_zip_with, Hr. simpl. by rewrite Ho.
Qed.

(** The script written for records with plain keys is clean, and stands
    for the entries of these records. *)
Lemma script_lines_clean (ark : string) (pos : nat) records :
  Forall plain_token records.*1 ->
  NoDup records.*1 ->
  PyStr.no_space (abspath ark) = true ->
  clean_lines addr_processor (StrLine <$> script_lines ark pos records)
              (script_entries ark pos records).
Proof.
  intros Hkeys Hnd Hark. split; [|by rewrite script_entries_keys].
  unfold script_lines, script_entries. clear Hnd. revert pos.
  induction records as [|r records IH]; intros pos; [constructor|].
  apply Forall_cons in Hkeys as [Hk Hkeys].
  cbn [record_offsets zip_with fmap list_fmap]. constructor; [|by apply IH].
  apply line_entry_written; [done|done|lia].
Qed.

Lemma script_lines_shape (ark : string) (pos : nat) records :
  Forall plain_token records.*1 ->
  PyStr.no_space (abspath ark) = true ->
  Forall (fun l => exists body,
            l = body +:+ line_feed /\ PyStr.no_newline body = true)
         (script_lines ark pos records).
Proof.
  intros Hkeys Hark. unfold script_lines. revert pos.
  induction records as [|r records IH]; intros pos; [constructor|].
  apply Forall_cons in Hkeys as [[_ Hk] Hkeys].
  cbn [record_offsets zip_with]. constructor; [|by apply IH].
  eexists. split; [apply scp_line_body|].
  apply scp_line_no_newline; [done|done|lia].
Qed.

(** The reader built from the script that was written. *)
Lemma ScriptReader_init_written (ark scp : string) records (w : World) :
  plain_path scp ->
  fs w !! abspath scp = Some (script_bytes (script_lines ark 0 records)) ->
  Forall plain_token records.*1 ->
  NoDup records.*1 ->
  PyStr.no_space (abspath ark) = true ->
  ScriptReader_init (Some scp) w
  = (w, Ok (MkReader (script_entries ark 0 records) records.*1)).
Proof.
  intros Hscp Hfile Hkeys Hnd Hark.
  unfold ScriptReader_init, Reader_init, bind.
  rewrite (parse_scps_run (Some scp) addr_processor w w w _ _
             (_fopen_plain_read scp w _ Hscp Hfile)
             (iter_lines_text_file w _ _ Hfile)).
  rewrite text_lines_script by by apply script_lines_shape.
  rewrite (parse_lines_clean _ _ _ (script_entries ark 0 records))
    by by apply script_lines_clean.
  unfold ret, dict_keys. by rewrite script_entries_keys.
Qed.

(** [_load] at an entry whose offset is the start of a binary sentinel
    followed by the payload. *)
Lemma ScriptReader_load_at `{!PlatformLaws} `{!PositionSymmetric}
    (self : Reader (string * Z)) (key path : string) (offset : Z)
    (w : World) (content rest : list byte) (m : Mat) :
  dict_get key (index_dict self) = Some (abspath path, offset) ->
  fs w !! abspath path = Some content ->
  0 <= offset ->
  drop (Z.to_nat offset) content
  = write_binary_symbol ++ write_common_mat m ++ rest ->
  ScriptReader_load self key w = (w, Ok m).
Proof.
  intros Hget Hfile Hoff Hdrop.
  unfold ScriptReader_load. rewrite Hget.
  unfold open_at, open, path_exists, stream_bytes. eval_mode. io_unfold.
  rewrite abspath_idem, Hfile.
  rewrite bool_decide_eq_true_2 by eauto. io_unfold. simpl. io_unfold.
  rewrite Hfile. simpl. replace (offset <? 0) with false by lia.
  io_unfold. rewrite Hdrop, expect_binary_written, read_general_mat_written.
  done.
Qed.

(** The keys of a reader are tokens of its script. *)
Lemma reader_keys_plain {A} scp_path (ap : string -> result A) w w'
    (self : Reader A) :
  Reader_init scp_path ap w = (w', Ok self) ->
  Forall plain_token (index_keys self).
Proof.
  intros (d & Hp & ->)%Reader_init_inv.
  apply parse_scps_ok_inv in Hp as (w1 & f & lines & _ & _ & Hp).
  apply parse_lines_ok_inv in Hp as [Hall _].
  cbn [index_keys]. unfold dict_keys. apply Forall_fmap.
  apply Forall_forall. intros [key a] Hin.
  apply list_elem_of_lookup in Hin as [i Hi].
  destruct (Forall2_lookup_r _ _ _ _ _ Hall Hi) as (raw & _ & He).
  apply line_entry_tokens in He as [addr Ht]. cbn [fst] in *.
  pose proof (PyStrFacts.split_go_tokens (PyStr.strip (line_text raw)) ""
                eq_refl) as Htok.
  fold (PyStr.split (PyStr.strip (line_text raw))) in Htok.
  fold (line_tokens raw) in Htok. rewrite Ht in Htok.
  by apply Forall_cons in Htok as [Hk _].
Qed.

(** The script on a regular file reads back as the lines written. *)
Lemma script_reads_back (ark scp : string) records (w : World) :
  fs w !! abspath scp = Some (script_bytes (script_lines ark 0 records)) ->
  Forall plain_token records.*1 ->
  PyStr.no_space (abspath ark) = true ->
  iter_lines (Some (Stream (RegularFile (abspath scp)) false false false)) w
  = (w, Ok (StrLine <$> script_lines ark 0 records)).
Proof.
  intros Hfile Hkeys Hark. rewrite (iter_lines_text_file w _ _ Hfile).
  by rewrite text_lines_script by by apply script_lines_shape.
Qed.

End Roundtrip.

Section RoundtripTheorem.
Context `{Platform} {Mat Vec : Type} `{Codec Mat Vec}.
Context {laws : PlatformLaws} {symmetric : PositionSymmetric}.

(** C1, amended.  Let the records have distinct keys that are not empty
    and hold no white space, let the archive and the script be two
    different regular files, and let the absolute path of the archive hold
    no white space.  Then writing the records with [ArchiveWriter] and its
    script succeeds, the script reads back as the lines of the records, a
    [ScriptReader] is built from it, its keys are the keys of the records
    in writing order, and for each record: the offset in its script line
    is the position after its key token, where its binary sentinel starts
    in the archive; the reader's entry for the key holds that offset; and
    reading by the key returns the payload that was written.  The codec is
    assumed position-symmetric, and [abspath] idempotent.  The condition
    on the keys cannot be dropped, as the script format has no escaping:
    no [ScriptReader] has a key that is empty or holds white space, and
    reading by such a key raises the missing key error. *)
Theorem archive_roundtrip (ark scp : string) (records : list (string * Mat))
    (w : World) :
  plain_path ark -> plain_path scp -> abspath ark <> abspath scp ->
  PyStr.no_space (abspath ark) = true ->
  Forall plain_token records.*1 ->
  NoDup records.*1 ->
  (exists w1 self,
     write_archive ark (Some scp) records w = (w1, Ok tt)
     /\ iter_lines (Some (Stream (RegularFile (abspath scp)) false false false))
                   w1
        = (w1, Ok (StrLine <$> script_lines ark 0 records))
     /\ ScriptReader_init (Some scp) w1 = (w1, Ok self)
     /\ index_keys self = records.*1
     /\ forall i key m,
          records !! i = Some (key, m) ->
          exists offset,
            script_lines ark 0 records !! i
            = Some (scp_line key (abspath ark) offset)
            /\ dict_get key (index_dict self) = Some (abspath ark, offset)
            /\ 0 <= offset
            /\ drop (Z.to_nat offset) (file_at w1 (abspath ark))
               = write_binary_symbol ++ write_common_mat m
                   ++ archive_bytes (drop (S i) records)
            /\ __getitem__ ScriptReader_load self (StrIndex key) w1
               = (w1, Ok m))
  /\ (forall ark_scp w0 w1 self key w2,
        ScriptReader_init ark_scp w0 = (w1, Ok self) ->
        ~ plain_token key ->
        __contains__ self key = false
        /\ __getitem__ ScriptReader_load self (StrIndex key) w2
           = (w2, Raise (missing_key_error key))).
Proof.
  intros Hark Hscp Hne Hspace Hkeys Hnd. split.
  - destruct (write_archive_plain ark scp records w Hark Hscp Hne)
      as (w1 & Hwrite & HA & HS).
    exists w1, (MkReader (script_entries ark 0 records) records.*1).
    split; [done|]. split; [by apply (script_reads_back ark)|].
    split; [by apply ScriptReader_init_written|]. split; [done|].
    intros i key m Hi.
    destruct (record_offsets_drop records 0%nat [] i key m eq_refl Hi)
      as (offset & Ho & Hnn & Hdrop).
    rewrite List.app_nil_l in Hdrop.
    pose proof (script_entries_lookup ark 0 records i key m offset Hi Ho)
      as He.
    assert (dict_get key (script_entries ark 0 records)
            = Some (abspath ark, offset)) as Hget.
    { eapply dict_get_lookup; [|done]. by rewrite script_entries_keys. }
    exists offset. split.
    { unfold script_lines. rewrite lookup_zip_with, Hi. simpl.
      by rewrite Ho. }
    split; [done|]. split; [done|]. split.
    { unfold file_at. by rewrite HA. }
    unfold __getitem__. cbn [index_dict].
    rewrite (proj2 (dict_mem_true key _)).
    2:{ rewrite script_entries_keys. apply list_elem_of_fmap.
        exists (key, m). split; [done|]. apply list_elem_of_lookup.
        by exists i. }
    cbn [negb].
    by apply (ScriptReader_load_at _ key ark offset w1 (archive_bytes records)
                (archive_bytes (drop (S i) records)) m).
  - intros ark_scp w0 w1 self key w2 Hinit Hkey.
    pose proof (reader_keys_plain _ _ _ _ _ Hinit) as Hplain.
    apply Reader_init_built in Hinit as [Hk _].
    assert (__contains__ self key = false) as Hmem.
    { unfold __contains__. apply dict_mem_false. intros Hin. apply Hkey.
      rewrite Hk in Hplain. unfold dict_keys in Hplain.
      eapply Forall_forall in Hplain; [exact Hplain|done]. }
    split; [done|]. unfold __getitem__, __contains__ in *. by rewrite Hmem.
Qed.

End RoundtripTheorem.

(** *** The sample platform and codec keep their contracts *)

Lemma sample_platform_laws : PlatformLaws (H:=sample_platform).
Proof.
  constructor. intros p. simpl. unfold sample_abspath.
  destruct p as [|c p]; [done|].
  destruct (decide (c = "/"%char)) as [->|Hc]; [done|].
  assert (match c with "/"%char => String c p | _ => "/work/" +:+ String c p end
          = "/work/" +:+ String c p) as ->; [|done].
  by destruct c as [[] [] [] [] [] [] [] []].
Qed.

Lemma sample_decode_encode (m rest : list byte) :
  sample_decode (sample_encode m ++ rest) = Ok (m, rest).
Proof. induction m as [|b m IH]; [done|]. simpl. by rewrite IH. Qed.

Lemma sample_codec_symmetric : PositionSymmetric (H0:=sample_codec).
Proof. constructor; [done|apply sample_decode_encode]. Qed.

(** *** The sample archive *)

Lemma sample_paths :
  plain_path "feats.ark" /\ plain_path "feats.scp".
Proof. by repeat split. Qed.

Lemma sample_reader_built :
  Reader_init (H:=sample_platform) (Some "feats.scp")
              addr_processor sample_archive_world
  = (sample_archive_world, Ok sample_reader).
Proof. by_computation. Qed.

Lemma archive_roundtrip_witness :
  exists w1 self,
    write_archive (H:=sample_platform) (H0:=sample_codec)
      "feats.ark" (Some "feats.scp") sample_records empty_world = (w1, Ok tt)
    /\ ScriptReader_init (H:=sample_platform) (Some "feats.scp") w1
       = (w1, Ok self)
    /\ __getitem__ sample_load self (StrIndex "utt1") w1 = (w1, Ok [x01; x02]).
Proof.
  destruct (archive_roundtrip
              (H:=sample_platform) (H0:=sample_codec)
              (laws:=sample_platform_laws)
              (symmetric:=sample_codec_symmetric)
              "feats.ark" "feats.scp" sample_records empty_world)
    as [(w1 & self & Hwrite & _ & Hinit & _ & Hget) _].
  - apply sample_paths.
  - apply sample_paths.
  - vm_compute. discriminate.
  - reflexivity.
  - repeat constructor.
  - apply (bool_decide_unpack _). by_computation.
  - exists w1, self. split; [exact Hwrite|]. split; [exact Hinit|].
    destruct (Hget 0%nat "utt1" [x01; x02] eq_refl)
      as (offset & _ & _ & _ & _ & Hload).
    exact Hload.
Defined.

(** A key with a space in it: the record is written, and its script line
    has three tokens, so that no reader is built and nothing is read
    back. *)
Lemma key_with_space_is_not_read_back :
  NoDup spaced_records.*1
  /\ write_archive (H:=sample_platform) (H0:=sample_codec)
       "feats.ark" (Some "feats.scp") spaced_records empty_world
     = (spaced_archive_world, Ok tt)
  /\ ScriptReader_init (H:=sample_platform) (Some "feats.scp")
       spaced_archive_world
     = (spaced_archive_world,
        Raise (format_error 1 (StrLine (scp_line "utt 1" "/work/feats.ark" 6))))
  /\ ~ (exists w1 self,
          ScriptReader_init (H:=sample_platform) (Some "feats.scp")
            spaced_archive_world = (w1, Ok self)
          /\ __getitem__ sample_load self (StrIndex "utt 1") w1
             = (w1, Ok [x01; x02])).
Proof.
  assert (ScriptReader_init (H:=sample_platform) (Some "feats.scp")
            spaced_archive_world
          = (spaced_archive_world,
             Raise (format_error 1
                      (StrLine (scp_line "utt 1" "/work/feats.ark" 6)))))
    as Hinit by by_computation.
  split; [apply NoDup_singleton|]. split; [by_computation|]. split; [done|].
  intros (w1 & self & Hok & _). rewrite Hinit in Hok. discriminate.
Qed.

(** A key with white space at its end: the record is written, its script
    line has two tokens, and the reader files the record under the key
    without the white space; reading by the key that was written raises
    the missing key error. *)
Example key_with_trailing_space_is_renamed :
  exists w1 self,
    write_archive (H:=sample_platform) (H0:=sample_codec)
      "feats.ark" (Some "feats.scp") [("utt1 ", [x01; x02])] empty_world
    = (w1, Ok tt)
    /\ ScriptReader_init (H:=sample_platform) (Some "feats.scp") w1
       = (w1, Ok self)
    /\ index_keys self = ["utt1"]
    /\ __getitem__ sample_load self (StrIndex "utt1 ") w1
       = (w1, Raise (missing_key_error "utt1 ")).
Proof. eexists _, _. repeat split; by_computation. Qed.

Lemma getitem_int_by_position_witness :
  __getitem__ sample_load sample_reader (IntIndex 1) sample_archive_world
  = __getitem__ sample_load sample_reader (StrIndex "utt2")
                sample_archive_world.
Proof.
  destruct (getitem_int_by_position (H:=sample_platform) sample_load
              (Some "feats.scp") addr_processor
              sample_archive_world sample_archive_world sample_reader 1)
    as (key & Hkey & Hsame).
  - exact sample_reader_built.
  - split; by_computation.
  - injection Hkey as <-. apply Hsame.
Defined.

Lemma getitem_lookup_errors_witness :
  __getitem__ sample_load sample_reader (IntIndex 5) sample_archive_world
  = (sample_archive_world, Raise (out_of_range_error 5 2)).
Proof.
  refine (proj1 (getitem_lookup_errors (H:=sample_platform) sample_load
                   (Some "feats.scp") addr_processor
                   sample_archive_world sample_archive_world sample_reader _)
                5 sample_archive_world (or_intror _)).
  - exact sample_reader_built.
  - by_computation.
Defined.

Lemma iterate_in_index_order_witness :
  exists w' items,
    iterate sample_load sample_reader sample_archive_world
    = (w', Ok (items, None))
    /\ items.*1 = ["utt1"; "utt2"]
    /\ length items = 2%nat.
Proof.
  destruct (iterate_in_index_order (H:=sample_platform) sample_load
              (Some "feats.scp") addr_processor 4096%nat
              sample_archive_world sample_archive_world sample_archive_world
              script_stream
              [StrLine (scp_line "utt1" "/work/feats.ark" 5);
               StrLine (scp_line "utt2" "/work/feats.ark" 17)]
              sample_reader)
    as (_ & _ & _ & Hrun).
  - by_computation.
  - exact I.
  - by_computation.
  - repeat constructor.
  - exact sample_reader_built.
  - destruct (Hrun (fun w => w = sample_archive_world) sample_archive_world
                eq_refl) as (w' & items & Hit & Hkeys & Hlen & _).
    + intros key w Hkey ->.
      apply elem_of_cons in Hkey as [->|Hkey].
      { exists sample_archive_world, [x01; x02]. split; by_computation. }
      apply elem_of_cons in Hkey as [->|Hkey].
      { exists sample_archive_world, []. split; by_computation. }
      by apply elem_of_nil in Hkey.
    + by exists w', items.
Defined.

(** The reader of the sample script, of two entries, in a world where
    the archive was cut after its first record: the second load raises,
    and the iteration yields one pair, not two. *)
Lemma iteration_stops_at_failing_load :
  Reader_init (H:=sample_platform) (Some "feats.scp")
              addr_processor truncated_archive_world
  = (truncated_archive_world, Ok sample_reader)
  /\ __len__ sample_reader = 2
  /\ iterate sample_load sample_reader truncated_archive_world
     = (truncated_archive_world,
        Ok ([("utt1", [x01; x02])],
            Some (CodecError "only support binary mode")))
  /\ ~ (exists w' items,
          iterate sample_load sample_reader truncated_archive_world
          = (w', Ok (items, None))
          /\ length items = 2%nat).
Proof.
  assert (iterate sample_load sample_reader truncated_archive_world
          = (truncated_archive_world,
             Ok ([("utt1", [x01; x02])],
                 Some (CodecError "only support binary mode")))) as Hrun
    by by_computation.
  split; [by_computation|]. split; [reflexivity|]. split; [done|].
  intros (w' & items & Hit & _). rewrite Hrun in Hit. discriminate.
Qed.

Lemma sample_writer_state : writer_state (H:=sample_platform) sample_writer.
Proof.
  apply (state_enter (MkWriter (Some "feats.scp") "feats.ark" None None)
           empty_world
           (Writer_enter (H:=sample_platform)
              (MkWriter (Some "feats.scp") "feats.ark" None None)
              empty_world).1).
  - by apply (state_init "feats.ark" (Some "feats.scp") empty_world empty_world).
  - by_computation.
Qed.

Lemma offset_bound_when_script_open_witness :
  ArchiveWriter_write (H:=sample_platform) (H0:=sample_codec)
    sample_writer "utt1" [x01; x02] sample_archive_world
  = write_with_offset (H:=sample_platform) (H0:=sample_codec)
      sample_writer "utt1" [x01; x02] sample_archive_world.
Proof.
  refine (proj1 (proj2 (proj2 (proj2
            (offset_bound_when_script_open (H:=sample_platform)
               (H0:=sample_codec) sample_writer sample_writer_state))))
            "utt1" [x01; x02] sample_archive_world _).
  by eexists.
Defined.

(** * Further properties of the code *)

(** ** Opening and closing streams *)

Section OpenClose.
Context `{Platform}.

(** The streams [_fopen] returns, by the form of the address. *)
Lemma _fopen_stream_kind fname mode w w' f :
  _fopen fname mode w = (w', Ok (Some f)) ->
  closed f = false
  /\ exists s,
       fname = Some s
       /\ ((s = "-" /\ (kind f = StdIn \/ kind f = StdOut))
           \/ (last_char s = Some "|"%char /\ kind f = PipeStdout (but_last s))
           \/ (plain_path s /\ kind f = RegularFile (abspath s))).
Proof.
  unfold _fopen.
  destruct (bool_decide (mode ∈ ["w"; "r"; "wb"; "rb"])); [|done].
  destruct fname as [s|]; [|done]. cbn [negb].
  destruct (PyStr.nonempty s) eqn:Hs; [|done]. cbn [negb].
  destruct (decide (s = "-")) as [->|Hdash].
  { rewrite bool_decide_eq_true_2 by done.
    destruct (bool_decide (mode ∈ ["w"; "wb"])); intros [= <- <-];
      (split; [done|]); exists "-"; split; auto. }
  rewrite bool_decide_eq_false_2 by done.
  destruct (decide (last_char s = Some "|"%char)) as [Hpipe|Hpipe].
  { rewrite bool_decide_eq_true_2 by done. unfold pipe_fopen. io_unfold.
    destruct (bool_decide (mode ∈ ["rb"; "r"])); [|done]. io_unfold.
    destruct (bool_decide (mode = "rb")).
    - intros [= <- <-]. split; [done|]. exists s. split; auto.
    - destruct (background_command_waiter _ _) as [w1 [[]|e]]; [|done].
      intros [= <- <-]. split; [done|]. exists s. split; auto. }
  rewrite bool_decide_eq_false_2 by done.
  unfold open, path_exists. io_unfold.
  destruct (bool_decide (mode ∈ ["r"; "rb"])
            && negb (bool_decide (is_Some (fs w !! abspath s)))); [done|].
  destruct (bool_decide (mode ∈ ["w"; "wb"])); io_unfold.
  - intros [= <- <-]. split; [done|]. exists s. split; [done|].
    right. right. by repeat split.
  - destruct (bool_decide (is_Some (fs w !! abspath s))); [|done].
    intros [= <- <-]. split; [done|]. exists s. split; [done|].
    right. right. by repeat split.
Qed.

(** X1.  [_fopen] checks the mode first: a mode other than the four it
    knows raises [ValueError] with the mode in its message, whatever the
    address, and nothing is touched.  It returns no stream ([None])
    exactly when the mode is known and the address is [None] or the empty
    string, and the world is then as it was: every other successful call
    returns a stream. *)
Theorem fopen_no_stream_iff (fname : option string) (mode : string)
    (w w' : World) :
  (_fopen fname mode w = (w', Ok None)
   <-> w' = w /\ mode ∈ ["w"; "r"; "wb"; "rb"] /\ truthy fname = false)
  /\ (mode ∉ ["w"; "r"; "wb"; "rb"] ->
      _fopen fname mode w
      = (w, Raise (ValueError ("Unknown open mode: " +:+ mode)))).
Proof.
  split; [split|].
  - unfold _fopen.
    destruct (bool_decide (mode ∈ ["w"; "r"; "wb"; "rb"])) eqn:Hm; [|done].
    apply bool_decide_eq_true in Hm. cbn [negb].
    destruct fname as [s|]; [|by intros [= <-]]. cbn [truthy].
    destruct (PyStr.nonempty s) eqn:Hs; [|by intros [= <-]]. cbn [negb].
    destruct (bool_decide (s = "-")).
    { by destruct (bool_decide (mode ∈ ["w"; "wb"])). }
    destruct (bool_decide (last_char s = Some "|"%char)).
    { unfold bind at 1.
      by destruct (pipe_fopen _ _ _ _) as [w1 [f|e]]. }
    unfold path_exists. io_unfold.
    destruct (bool_decide (mode ∈ ["r"; "rb"]) && _); [done|].
    by destruct (open s mode w) as [w1 [f|e]].
  - intros (-> & Hm & Hf). unfold _fopen.
    rewrite bool_decide_eq_true_2 by done. cbn [negb].
    destruct fname as [s|]; [|done]. cbn [truthy] in Hf. by rewrite Hf.
  - intros Hm. unfold _fopen. by rewrite bool_decide_eq_false_2 by done.
Qed.

(** A regular file opened for reading: the stream when the file exists,
    the error of the missing file otherwise. *)
Lemma _fopen_plain_read_outcome (fname mode : string) (w : World) :
  plain_path fname -> mode = "r" \/ mode = "rb" ->
  _fopen (Some fname) mode w
  = (w, match fs w !! abspath fname with
        | Some _ =>
            Ok (Some (Stream (RegularFile (abspath fname))
                             (bool_decide (mode = "rb")) false false))
        | None =>
            Raise (FileNotFoundError
                     ("Could not find common file: " +:+ fname))
        end).
Proof.
  intros (Hne & Hdash & Hpipe)%plain_path_tests Hmode.
  unfold _fopen, open, path_exists. rewrite Hne, Hdash, Hpipe.
  destruct (fs w !! abspath fname) as [content|] eqn:Hfile.
  - destruct Hmode as [-> | ->]; eval_mode; io_unfold; rewrite Hfile;
      rewrite bool_decide_eq_true_2 by eauto; io_unfold; rewrite Hfile;
      rewrite bool_decide_eq_true_2 by eauto; by io_unfold.
  - destruct Hmode as [-> | ->]; eval_mode; io_unfold; rewrite Hfile;
      rewrite bool_decide_eq_false_2 by (by intros [? ?]); by io_unfold.
Qed.

(** X2.  An address that is not empty, not ["-"] and does not end in the
    pipe marker is a regular file.  Opened for reading, it gives the
    stream on the file when the file exists and raises
    [FileNotFoundError], with the address in its message, when it does
    not; the world is as it was.  Opened for writing, it always gives a
    stream, and the file is then empty, whatever it held. *)
Theorem fopen_regular_file (fname mode : string) (w : World) :
  plain_path fname ->
  (mode = "r" \/ mode = "rb" ->
   _fopen (Some fname) mode w
   = (w, match fs w !! abspath fname with
         | Some _ =>
             Ok (Some (Stream (RegularFile (abspath fname))
                              (bool_decide (mode = "rb")) false false))
         | None =>
             Raise (FileNotFoundError
                      ("Could not find common file: " +:+ fname))
         end))
  /\ (mode = "w" \/ mode = "wb" ->
      exists w',
        _fopen (Some fname) mode w
        = (w', Ok (Some (Stream (RegularFile (abspath fname))
                                (bool_decide (mode = "wb")) true false)))
        /\ fs w' !! abspath fname = Some []
        /\ forall q, q <> abspath fname -> fs w' !! q = fs w !! q).
Proof.
  intros Hplain. split.
  - by apply _fopen_plain_read_outcome.
  - intros Hmode. rewrite _fopen_plain_write by done.
    eexists. split; [reflexivity|]. simpl. split.
    + apply lookup_insert_eq.
    + intros q Hq. by apply lookup_insert_ne.
Qed.

(** X3.  What [_fopen] returned is open, and [_fclose] with the same
    address does not raise on it: it closes the stream on a regular file,
    and leaves the standard streams and the output of a pipe open. *)
Theorem fclose_after_fopen fname mode w w' f :
  _fopen fname mode w = (w', Ok (Some f)) ->
  closed f = false
  /\ _fclose fname (Some f)
     = Ok (Some (match kind f with
                 | RegularFile _ => close f
                 | _ => f
                 end)).
Proof.
  intros Hf. apply _fopen_stream_kind in Hf as (Hopen & s & -> & Hkind).
  split; [done|].
  destruct Hkind as [[-> Hk]|[[Hl Hk]|[Hp Hk]]].
  - unfold _fclose. rewrite bool_decide_eq_false_2 by (by intros ?).
    by destruct Hk as [-> | ->].
  - destruct (pipe_address _ Hl) as [Hne Hdash]. unfold _fclose.
    rewrite bool_decide_eq_true_2 by congruence. rewrite Hl, Hk.
    by rewrite bool_decide_eq_false_2 by (by intros ?).
  - rewrite Hk. by apply _fclose_plain.
Qed.

(** X4.  [with ext_open(fname, mode) as f: body(f)] has the outcome of
    its body, value or exception, and leaves the world as the body left
    it; when [_fopen] raises, the body is not run and that exception is
    the outcome. *)
Theorem ext_open_keeps_outcome {A} fname mode (body : option stream -> IO A)
    (w : World) :
  with_ext_open fname mode body w
  = match _fopen fname mode w with
    | (w1, Ok fd) => body fd w1
    | (w1, Raise e) => (w1, Raise e)
    end.
Proof.
  unfold with_ext_open. io_unfold.
  destruct (_fopen fname mode w) as [w1 [fd|e]] eqn:Hopen; [|done].
  destruct (_fopen_fclose _ _ _ _ _ Hopen) as [fd' ->].
  by destruct (body fd w1) as [w2 [a|e]].
Qed.

End OpenClose.

Lemma fopen_regular_file_witness :
  _fopen (H:=sample_platform) (Some "feats.ark") "rb" sample_archive_world
  = (sample_archive_world,
     Ok (Some (Stream (RegularFile "/work/feats.ark") true false false)))
  /\ _fopen (H:=sample_platform) (Some "feats.ark") "rb" empty_world
     = (empty_world,
        Raise (FileNotFoundError "Could not find common file: feats.ark")).
Proof.
  split.
  - apply (proj1 (fopen_regular_file (H:=sample_platform) "feats.ark" "rb"
                    sample_archive_world (proj1 sample_paths))). by right.
  - apply (proj1 (fopen_regular_file (H:=sample_platform) "feats.ark" "rb"
                    empty_world (proj1 sample_paths))). by right.
Defined.

Lemma fclose_after_fopen_witness :
  _fclose (Some "sort feats.scp |")
    (Some (Stream (PipeStdout "sort feats.scp ") true false false))
  = Ok (Some (Stream (PipeStdout "sort feats.scp ") true false false)).
Proof.
  refine (proj2 (fclose_after_fopen (H:=sample_platform)
                   (Some "sort feats.scp |") "rb" empty_world
                   (add_monitor "sort feats.scp "
                      (add_spawned "sort feats.scp " empty_world))
                   (Stream (PipeStdout "sort feats.scp ") true false false) _)).
  reflexivity.
Defined.

Lemma fopen_no_stream_iff_witness :
  _fopen (H:=sample_platform) None "a" sample_archive_world
  = (sample_archive_world, Raise (ValueError "Unknown open mode: a")).
Proof.
  apply (proj2 (fopen_no_stream_iff (H:=sample_platform) None "a"
                  sample_archive_world sample_archive_world)).
  apply (bool_decide_unpack _). by_computation.
Defined.

(** ** The script parser and the index of a reader *)

Section ParseOutcomes.
Context `{Platform} {A : Type}.
Implicit Types (ap : string -> result A) (lines : list raw_line).

(** The first line whose address the processor rejects, after clean
    lines. *)
Lemma parse_lines_address p ap pre raw post entries key addr e :
  clean_lines ap pre entries ->
  line_tokens raw = [key; addr] ->
  key ∉ entries.*1 ->
  ap addr = Raise e ->
  parse_lines p ap (pre ++ raw :: post) = Raise e.
Proof.
  intros [Hall Hnd] Ht Hk Ha. unfold parse_lines. rewrite parse_loop_app.
  rewrite (parse_loop_clean _ _ _ entries) by done.
  cbn [parse_loop scp_dict app]. unfold parse_line.
  rewrite (line_tokens_decoded raw) by (by rewrite Ht).
  fold (line_tokens raw). rewrite Ht. cbn [scp_dict].
  rewrite (proj2 (dict_mem_false key entries)) by done.
  simpl. by rewrite Ha.
Qed.

(** X5.  Once the script is open and has yielded its lines, all ASCII
    (from a pipe: a script that the pipe can hold while the command is
    waited for), [parse_scps] returns a dictionary exactly when every line
    has two tokens, no key repeats and the address processor accepts every
    address; the dictionary then lists the entries of the lines in line
    order.  An empty script gives the empty dictionary. *)
Theorem parse_scps_returns_iff scp_path ap (capacity : nat) w w1 w2 f lines :
  _fopen scp_path "r" w = (w1, Ok f) ->
  fits_pipe capacity f ->
  iter_lines f w1 = (w2, Ok lines) ->
  ascii_lines lines ->
  (forall w' d,
     parse_scps scp_path ap w = (w', Ok d)
     <-> w' = w2 /\ clean_lines ap lines d)
  /\ (lines = [] -> parse_scps scp_path ap w = (w2, Ok [])).
Proof.
  intros Hopen _ Hlines _.
  rewrite (parse_scps_run _ _ _ _ _ _ _ Hopen Hlines).
  split.
  - intros w' d. split.
    + intros [= <- Hp]. split; [done|]. by eapply parse_lines_ok_inv.
    + intros [-> Hc]. by rewrite (parse_lines_clean _ _ _ d).
  - by intros ->.
Qed.

(** X6.  In a script of ASCII lines (from a pipe: one that the pipe can
    hold while the command is waited for), the first line whose address
    the address processor rejects, when the lines before it are clean and
    its key is new: [parse_scps] raises the exception of the processor,
    and no dictionary is returned. *)
Theorem parse_scps_rejected_address scp_path ap (capacity : nat) w w1 w2 f
    pre raw post entries key addr e :
  _fopen scp_path "r" w = (w1, Ok f) ->
  fits_pipe capacity f ->
  iter_lines f w1 = (w2, Ok (pre ++ raw :: post)) ->
  ascii_lines (pre ++ raw :: post) ->
  clean_lines ap pre entries ->
  line_tokens raw = [key; addr] ->
  key ∉ entries.*1 ->
  ap addr = Raise e ->
  parse_scps scp_path ap w = (w2, Raise e).
Proof.
  intros Hopen _ Hlines _ Hc Ht Hk Ha.
  rewrite (parse_scps_run _ _ _ _ _ _ _ Hopen Hlines).
  by rewrite (parse_lines_address _ _ _ _ _ entries key addr e).
Qed.

(** X7.  Without an address ([None] or the empty string) there is no
    stream to loop over: [parse_scps], and with it the construction of a
    reader, raises the error of iterating over [None], whatever the
    address processor, and the world is as it was. *)
Theorem parse_scps_without_address scp_path ap (w : World) :
  truthy scp_path = false ->
  parse_scps scp_path ap w
  = (w, Raise (NoneTypeError "'NoneType' object is not iterable"))
  /\ Reader_init scp_path ap w
     = (w, Raise (NoneTypeError "'NoneType' object is not iterable")).
Proof.
  intros Hf.
  assert (_fopen scp_path "r" w = (w, Ok None)) as Hopen.
  { unfold _fopen. eval_mode. cbn [negb].
    destruct scp_path as [s|]; [|done]. cbn [truthy] in Hf. by rewrite Hf. }
  assert (parse_scps scp_path ap w
          = (w, Raise (NoneTypeError "'NoneType' object is not iterable")))
    as Hp.
  { unfold parse_scps, with_ext_open. io_unfold. rewrite Hopen.
    cbn [iter_lines]. io_unfold. unfold _fclose.
    by destruct (bool_decide (scp_path ≠ Some "-")). }
  split; [done|]. unfold Reader_init, bind. by rewrite Hp.
Qed.

End ParseOutcomes.

Section ReaderIndex.
Context `{Platform} {A P : Type}.
Implicit Types (self : Reader A) (ap : string -> result A).

(** X8.  A reader built from a script of ASCII lines (from a pipe: one
    that the pipe can hold while the command is waited for) holds exactly
    the keys of its lines: [key in reader] is true exactly for the first
    token of some line, and the entry the reader keeps for the key of a
    line is what the address processor made of the address of that
    line. *)
Theorem reader_holds_line_entries scp_path ap (capacity : nat) w0 wa w1 f
    lines self :
  _fopen scp_path "r" w0 = (wa, Ok f) ->
  fits_pipe capacity f ->
  iter_lines f wa = (w1, Ok lines) ->
  ascii_lines lines ->
  Reader_init scp_path ap w0 = (w1, Ok self) ->
  (forall key,
     __contains__ self key = true
     <-> exists raw addr, raw ∈ lines /\ line_tokens raw = [key; addr])
  /\ (forall raw key addr,
        raw ∈ lines -> line_tokens raw = [key; addr] ->
        exists a, ap addr = Ok a /\ dict_get key (index_dict self) = Some a).
Proof.
  intros Hopen _ Hlines _ Hinit.
  pose proof (parse_scps_run scp_path ap _ _ _ _ _ Hopen Hlines) as Hp.
  apply Reader_init_inv in Hinit as (d & Hp' & ->).
  rewrite Hp in Hp'. injection Hp' as Hp'.
  apply parse_lines_ok_inv in Hp' as Hclean. cbn [index_dict].
  split.
  - intros key. unfold __contains__. cbn [index_dict].
    rewrite dict_mem_true. split.
    + intros Hin. apply list_elem_of_fmap in Hin as ([k a] & -> & Hin).
      apply list_elem_of_lookup in Hin as [i Hi].
      destruct Hclean as [Hall _].
      destruct (Forall2_lookup_r _ _ _ _ _ Hall Hi) as (raw & Hraw & He).
      apply line_entry_tokens in He as [addr Ht].
      exists raw, addr. split; [|done]. apply list_elem_of_lookup. by exists i.
    + intros (raw & addr & Hin & Ht).
      destruct (clean_lines_entry _ _ _ _ _ _ Hclean Hin Ht) as (a & _ & Ha).
      apply list_elem_of_fmap. by exists (key, a).
  - intros raw key addr Hin Ht.
    destruct (clean_lines_entry _ _ _ _ _ _ Hclean Hin Ht) as (a & Hap & Ha).
    exists a. split; [done|]. apply dict_get_elem; [|done]. by destruct Hclean.
Qed.

(** X9.  [reader[index]] on a reader built from a script goes one of two
    ways, whatever [_load] is: it raises a lookup error without calling
    [_load], the world being as it was, or it is the call of [_load] for a
    key of the index.  No key outside the index is ever loaded. *)
Theorem getitem_loads_indexed_keys_only scp_path ap w0 w1 self
    (index : selector) :
  Reader_init scp_path ap w0 = (w1, Ok self) ->
  (exists e, forall (_load : Reader A -> string -> IO P) w,
     __getitem__ _load self index w = (w, Raise e))
  \/ (exists key,
        key ∈ index_keys self
        /\ forall (_load : Reader A -> string -> IO P) w,
             __getitem__ _load self index w = _load self key w).
Proof.
  intros Hb%Reader_init_built. destruct Hb as [Hk Hnd].
  assert (forall key, key ∈ index_keys self ->
                      dict_mem key (index_dict self) = true) as Hmem.
  { intros key Hin. apply dict_mem_true. by rewrite Hk in Hin. }
  destruct index as [i|key|t].
  - destruct (decide (0 <= i < Z.of_nat (length (index_keys self))))
      as [Hi|Hi].
    + destruct (lookup_lt_is_Some_2 (index_keys self) (Z.to_nat i))
        as [key Hkey]; [lia|].
      assert (key ∈ index_keys self) as Hin.
      { apply list_elem_of_lookup. by eexists. }
      right. exists key. split; [done|]. intros _load w. unfold __getitem__.
      replace (i >=? Z.of_nat (length (index_keys self))) with false by lia.
      replace (i <? 0) with false by lia.
      cbn [orb]. rewrite Hkey. by rewrite Hmem.
    + left. eexists. intros _load w. unfold __getitem__.
      replace ((i >=? Z.of_nat (length (index_keys self))) || (i <? 0))
        with true; [reflexivity|].
      symmetry. apply orb_true_iff. lia.
  - destruct (dict_mem key (index_dict self)) eqn:Hm.
    + right. exists key. split.
      * rewrite Hk. by apply dict_mem_true.
      * intros _load w. unfold __getitem__. by rewrite Hm.
    + left. eexists. intros _load w. unfold __getitem__. by rewrite Hm.
  - left. eexists. intros _load w. reflexivity.
Qed.

End ReaderIndex.

(** ** Script addresses and the loads of the script readers *)

Section ScriptAddress.
Import PyStr PyStrFacts.

Lemma split_on_go_pieces (sep : ascii) (cur s : string) :
  no_char sep cur = true ->
  Forall (fun t => no_char sep t = true) (split_on_go sep cur s).
Proof.
  revert cur. induction s as [|c s IH]; intros cur Hcur; simpl.
  - by constructor.
  - destruct (decide (c = sep)) as [->|Hc].
    + constructor; [done|]. by apply IH.
    + apply IH. rewrite no_char_app, Hcur. simpl.
      by rewrite bool_decide_eq_false_2.
Qed.

Lemma join_snoc (sep : string) (l : list string) (t : string) :
  l <> [] -> join sep (l ++ [t]) = join sep l +:+ sep +:+ t.
Proof.
  induction l as [|x l IH]; [done|]. intros _.
  destruct l as [|y l]; [done|].
  change ((x :: y :: l) ++ [t]) with (x :: y :: (l ++ [t])).
  rewrite !join_cons.
  change (y :: l ++ [t]) with ((y :: l) ++ [t]). rewrite IH by done.
  by rewrite !sapp_assoc.
Qed.

(** X10.  The address processor of [ScriptReader] returns a path and an
    offset exactly for an address that is the path, a colon, and a text
    without colon that [int] reads as the offset: the address is cut at
    its last colon, so that a path may hold colons.  An address without
    colon raises the error of the unsupported format. *)
Theorem addr_processor_iff (addr path : string) (offset : Z) :
  (addr_processor addr = Ok (path, offset)
   <-> exists digits,
         addr = path +:+ ":" +:+ digits
         /\ no_char ":" digits = true
         /\ int digits = Some offset)
  /\ (no_char ":" addr = true ->
      addr_processor addr
      = Raise (ValueError "Unsupported scripts address format")).
Proof.
  split; [split|].
  - unfold addr_processor.
    pose proof (join_split_on ":" addr) as Hjoin.
    pose proof (split_on_go_pieces ":" "" addr eq_refl) as Hpieces.
    fold (split_on ":" addr) in Hpieces.
    destruct (split_on_go_cons ":" "" addr) as (y & ys & Hy).
    fold (split_on ":" addr) in Hy.
    destruct (bool_decide (length (split_on ":" addr) = 1%nat)) eqn:Hlen;
      [done|].
    apply bool_decide_eq_false in Hlen.
    assert (split_on ":" addr <> []) as Hne by (by rewrite Hy).
    destruct (exists_last Hne) as (pre & t & Hl). rewrite Hl in *.
    rewrite removelast_last, last_last.
    destruct (int t) as [o|] eqn:Hint; [|done]. intros [= <- <-].
    exists t. split; [|split; [|done]].
    + rewrite <- Hjoin. apply join_snoc. intros ->. by destruct Hlen.
    + apply Forall_app in Hpieces as [_ Ht]. by inversion Ht.
  - intros (digits & -> & Hd & Hint). unfold addr_processor, split_on.
    change (path +:+ ":" +:+ digits) with (path +:+ String ":" digits).
    rewrite split_on_go_last by done.
    pose proof (join_split_on_go ":" "" path) as Hjoin.
    destruct (split_on_go_cons ":" "" path) as (y & ys & Hy).
    rewrite Hy in *. rewrite sapp_nil_l in Hjoin.
    rewrite bool_decide_eq_false_2.
    2:{ rewrite length_app. simpl. lia. }
    rewrite removelast_last, last_last, Hjoin. by rewrite Hint.
  - intros Hn. unfold addr_processor, split_on.
    rewrite split_on_go_no_sep by done. done.
Qed.

End ScriptAddress.

Section ScriptLoads.
Context `{Platform} {Mat Vec : Type} `{Codec Mat Vec}.
Implicit Types (self : Reader (string * Z)).

(** Opening a file at an offset reads and does not write. *)
Lemma open_at_outcome (path : string) (offset : Z) (w : World) :
  open_at path offset w
  = (w, match fs w !! abspath path with
        | None => Raise (OpenError path)
        | Some content =>
            if offset <? 0 then Raise (SeekError offset)
            else Ok (drop (Z.to_nat offset) content)
        end).
Proof.
  unfold open_at, open, path_exists, stream_bytes. eval_mode. io_unfold.
  destruct (fs w !! abspath path) as [content|] eqn:Hfile.
  - rewrite bool_decide_eq_true_2 by eauto. io_unfold. simpl. io_unfold.
    rewrite Hfile. simpl. by destruct (offset <? 0).
  - by rewrite bool_decide_eq_false_2 by (by intros [? ?]).
Qed.

(** The body of a [_load], for an entry of the index. *)
Lemma load_at_equation {T} (read : list byte -> result (T * list byte))
    (path : string) (offset : Z) (w : World) :
  (bytes <- open_at path offset ;;
   rest <- lift (expect_binary bytes) ;;
   '(ark, _) <- lift (read rest) ;;
   ret ark)%io w
  = (w, match fs w !! abspath path with
        | None => Raise (OpenError path)
        | Some content =>
            if offset <? 0 then Raise (SeekError offset)
            else decode_at read (drop (Z.to_nat offset) content)
        end).
Proof.
  unfold decode_at. unfold bind at 1 2. rewrite open_at_outcome.
  destruct (fs w !! abspath path) as [content|]; [|done].
  destruct (offset <? 0); [done|]. io_unfold.
  destruct (expect_binary _) as [rest|e]; [|done].
  by destruct (read rest) as [[m rest']|e].
Qed.

(** X11.  [ScriptReader._load] reads and never writes: in every world,
    for every key, it leaves the world as it was.  Its outcome is
    [KeyError] for a key without entry, the error of [open] when the file
    of the entry does not exist, the error of [seek] for a negative
    offset, and, for an offset inside the file, what the codec decodes
    from the bytes of the file from the offset on (the binary sentinel,
    then the matrix). *)
Theorem ScriptReader_load_outcome self (key : string) (w : World) :
  (ScriptReader_load self key w).1 = w
  /\ match dict_get key (index_dict self) with
     | None => (ScriptReader_load self key w).2 = Raise (DictKeyError key)
     | Some (path, offset) =>
         match fs w !! abspath path with
         | None => (ScriptReader_load self key w).2 = Raise (OpenError path)
         | Some content =>
             (offset < 0 ->
              (ScriptReader_load self key w).2 = Raise (SeekError offset))
             /\ (0 <= offset <= Z.of_nat (length content) ->
                 (ScriptReader_load self key w).2
                 = decode_at read_general_mat
                     (drop (Z.to_nat offset) content))
         end
     end.
Proof.
  unfold ScriptReader_load.
  destruct (dict_get key (index_dict self)) as [[path offset]|];
    [|by split].
  rewrite (load_at_equation read_general_mat).
  destruct (fs w !! abspath path) as [content|]; [|by split].
  destruct (Z.ltb_spec offset 0) as [Hneg|Hpos]; cbn [fst snd].
  - split; [done|]. split; [done|lia].
  - split; [done|]. split; [lia|done].
Qed.

(** X12.  [AlignScriptReader._load] finds its bytes as
    [ScriptReader._load] does (same entry, same file, same offset, same
    binary sentinel, same errors) and differs only in the decoder, which
    reads an integer vector; it leaves the world as it was. *)
Theorem AlignScriptReader_load_outcome self (key : string) (w : World) :
  (AlignScriptReader_load self key w).1 = w
  /\ match dict_get key (index_dict self) with
     | None =>
         (AlignScriptReader_load self key w).2 = Raise (DictKeyError key)
     | Some (path, offset) =>
         match fs w !! abspath path with
         | None =>
             (AlignScriptReader_load self key w).2 = Raise (OpenError path)
         | Some content =>
             (offset < 0 ->
              (AlignScriptReader_load self key w).2
              = Raise (SeekError offset))
             /\ (0 <= offset <= Z.of_nat (length content) ->
                 (AlignScriptReader_load self key w).2
                 = decode_at read_common_int_vec
                     (drop (Z.to_nat offset) content))
         end
     end.
Proof.
  unfold AlignScriptReader_load.
  destruct (dict_get key (index_dict self)) as [[path offset]|];
    [|by split].
  rewrite (load_at_equation read_common_int_vec).
  destruct (fs w !! abspath path) as [content|]; [|by split].
  destruct (Z.ltb_spec offset 0) as [Hneg|Hpos]; cbn [fst snd].
  - split; [done|]. split; [done|lia].
  - split; [done|]. split; [lia|done].
Qed.

End ScriptLoads.

Section ReadOnlyIteration.
Context `{Platform} {A P : Type}.
Variable _load : Reader A -> string -> IO P.

(** Loads that leave the world as it was make a loop that does. *)
Lemma consume_read_only (self : Reader A) (fuel : nat) (keys : list string)
    (w : World) :
  (forall key w, (_load self key w).1 = w) ->
  exists out, consume _load self fuel (Generator keys) w = (w, Ok out).
Proof.
  intros Hro. revert keys.
  induction fuel as [|fuel IH]; intros keys; [by eexists|].
  cbn [consume]. unfold next. cbn [pending].
  destruct keys as [|key keys]; [by eexists|]. io_unfold.
  specialize (Hro key w).
  destruct (_load self key w) as [w1 [p|e]]; simpl in Hro; subst w1;
    cbv beta iota; [|by eexists].
  destruct (IH keys) as [[items e] ->]. by eexists.
Qed.

End ReadOnlyIteration.

Section ScriptIteration.
Context `{Platform} {Mat Vec : Type} `{Codec Mat Vec}.

(** X13.  Iterating over a [ScriptReader] or an [AlignScriptReader]
    leaves the world as it was, also when a load fails; hence a second
    iteration, started after the first, yields the same pairs and ends the
    same way. *)
Theorem script_iteration_repeatable (self : Reader (string * Z)) (w : World) :
  (exists out,
     iterate ScriptReader_load self w = (w, Ok out)
     /\ bind (iterate ScriptReader_load self)
             (fun first => bind (iterate ScriptReader_load self)
                                (fun second => ret (first, second))) w
        = (w, Ok (out, out)))
  /\ (exists out,
        iterate AlignScriptReader_load self w = (w, Ok out)
        /\ bind (iterate AlignScriptReader_load self)
                (fun first => bind (iterate AlignScriptReader_load self)
                                   (fun second => ret (first, second))) w
           = (w, Ok (out, out))).
Proof.
  split.
  - destruct (consume_read_only ScriptReader_load self
                (S (length (index_keys self))) (index_keys self) w)
      as [out Hout].
    { intros key w'. unfold ScriptReader_load.
      destruct (dict_get key (index_dict self)) as [[path offset]|]; [|done].
      unfold bind at 1 2. rewrite open_at_outcome.
      destruct (fs w' !! abspath path) as [content|]; [|done].
      destruct (offset <? 0); [done|]. io_unfold.
      destruct (expect_binary _) as [rest|e]; [|done].
      by destruct (read_general_mat rest) as [[m rest']|e]. }
    exists out. unfold iterate, __iter__, bind. rewrite !Hout. done.
  - destruct (consume_read_only AlignScriptReader_load self
                (S (length (index_keys self))) (index_keys self) w)
      as [out Hout].
    { intros key w'. unfold AlignScriptReader_load.
      destruct (dict_get key (index_dict self)) as [[path offset]|]; [|done].
      unfold bind at 1 2. rewrite open_at_outcome.
      destruct (fs w' !! abspath path) as [content|]; [|done].
      destruct (offset <? 0); [done|]. io_unfold.
      destruct (expect_binary _) as [rest|e]; [|done].
      by destruct (read_common_int_vec rest) as [[m rest']|e]. }
    exists out. unfold iterate, __iter__, bind. rewrite !Hout. done.
Qed.

End ScriptIteration.

(** ** What the writer does to the world *)

Section WriterEffects.
Context `{Platform} {Mat Vec : Type} `{Codec Mat Vec}.
Implicit Types (records : list (string * Mat)) (paths : list string).

Lemma same_except_refl paths (w : World) : same_except paths w w.
Proof. by repeat split. Qed.

Lemma same_except_trans paths (w1 w2 w3 : World) :
  same_except paths w1 w2 -> same_except paths w2 w3 ->
  same_except paths w1 w3.
Proof.
  intros (? & ? & ? & ? & ? & ? & Hf1) (? & ? & ? & ? & ? & ? & Hf2).
  repeat split; try congruence.
  intros q Hq. rewrite Hf2 by done. by apply Hf1.
Qed.

Lemma bind_same_except {A B} paths (m : IO A) (k : A -> IO B) w w' r :
  (forall w1 r1, m w = (w1, r1) -> same_except paths w w1) ->
  (forall a w1 w2 r2, k a w1 = (w2, r2) -> same_except paths w1 w2) ->
  bind m k w = (w', r) -> same_except paths w w'.
Proof.
  intros Hm Hk. unfold bind.
  destruct (m w) as [w1 [a|e]] eqn:Hrun.
  - intros Hrest. eapply same_except_trans; [by eapply Hm|by eapply Hk].
  - intros [= <- <-]. by eapply Hm.
Qed.

(** A write on the stream of a regular file changes that file only, and
    asking for the position changes nothing. *)
Lemma stream_write_same_except paths (p : string) (b c : bool)
    (data : list byte) w w' r :
  p ∈ paths ->
  stream_write (Some (Stream (RegularFile p) b true c)) data w = (w', r) ->
  same_except paths w w'.
Proof.
  intros Hp. unfold stream_write. cbn [closed writable kind negb].
  destruct c; io_unfold; intros [= <- <-]; [apply same_except_refl|].
  repeat split. intros q Hq. simpl. apply lookup_insert_ne.
  intros ->. done.
Qed.

Lemma stream_tell_same_world (fd : option stream) w w' r :
  stream_tell fd w = (w', r) -> w' = w.
Proof.
  unfold stream_tell. destruct fd as [[[] ? ? []]|]; io_unfold;
    by intros [= <- <-].
Qed.

Lemma write_same_except (ark scp key : string) (m : Mat) w w' r :
  ArchiveWriter_write
    (MkWriter (Some scp) ark (Some (ark_stream ark)) (Some (scp_stream scp)))
    key m w = (w', r) ->
  same_except [abspath ark; abspath scp] w w'.
Proof.
  unfold ArchiveWriter_write. cbn [ark_file scp_file ark_path].
  assert (abspath ark ∈ [abspath ark; abspath scp]) as Ha.
  { apply elem_of_cons. by left. }
  assert (abspath scp ∈ [abspath ark; abspath scp]) as Hs.
  { apply elem_of_cons. right. apply elem_of_cons. by left. }
  apply bind_same_except.
  { intros w1 r1. by apply stream_write_same_except. }
  intros _ w1 w2 r2. apply bind_same_except.
  { intros w3 r3. destruct (negb (bool_decide (ark = "-"))).
    - unfold bind. destruct (stream_tell _ w1) as [w4 [o|e]] eqn:Ht;
        apply stream_tell_same_world in Ht as ->; intros [= <- <-];
        apply same_except_refl.
    - intros [= <- <-]. apply same_except_refl. }
  intros offset w3 w4 r4. apply bind_same_except.
  { intros w5 r5. by apply stream_write_same_except. }
  intros _ w5 w6 r6. apply bind_same_except.
  { intros w7 r7. by apply stream_write_same_except. }
  intros _ w7 w8 r8. destruct offset as [o|].
  - by apply stream_write_same_except.
  - intros [= <- <-]. apply same_except_refl.
Qed.

Lemma write_loop_same_except (ark scp : string) records w w' r :
  for_each records
    (fun '(key, mat) =>
       ArchiveWriter_write
         (MkWriter (Some scp) ark (Some (ark_stream ark))
                   (Some (scp_stream scp)))
         key mat) w = (w', r) ->
  same_except [abspath ark; abspath scp] w w'.
Proof.
  revert w w' r. induction records as [|[key m] records IH]; intros w w' r.
  - intros [= <- <-]. apply same_except_refl.
  - cbn [for_each]. apply bind_same_except.
    + intros w1 r1. apply write_same_except.
    + intros _ w1 w2 r2. apply IH.
Qed.

(** X14.  The whole [with] block on two regular files, for keys and an
    archive path in ASCII, replaces the content of the two files, whatever
    they held, by the records and by the bytes of their script lines, and
    touches nothing else: every other file, the standard streams, the
    warnings and the processes are as they were. *)
Theorem write_archive_replaces_two_files (ark scp : string) records
    (w : World) :
  plain_path ark -> plain_path scp -> abspath ark <> abspath scp ->
  Forall (fun key => ascii_text key = true) records.*1 ->
  ascii_text (abspath ark) = true ->
  exists w1,
    write_archive ark (Some scp) records w = (w1, Ok tt)
    /\ fs w1
       = <[abspath scp := script_bytes (script_lines ark 0 records)]>
           (<[abspath ark := archive_bytes records]> (fs w))
    /\ same_except [abspath ark; abspath scp] w w1.
Proof.
  intros Hark Hscp Hne _ _.
  destruct (write_archive_plain ark scp records w Hark Hscp Hne)
    as (w1 & Hwrite & HA & HS).
  assert (same_except [abspath ark; abspath scp] w w1) as Hframe.
  { revert Hwrite. pose proof Hark as (_ & Hdash & _).
    unfold write_archive, Writer_init, Writer_enter, Writer_exit.
    rewrite (bool_decide_eq_false_2 (ark = "-")) by done.
    io_unfold. cbn [ark_path scp_path ark_file scp_file].
    rewrite _fopen_plain_write by (done || by right).
    rewrite _fopen_plain_write by (done || by left).
    eval_mode. fold (ark_stream ark). fold (scp_stream scp).
    destruct (for_each records _ _) as [w2 r] eqn:Hloop.
    apply write_loop_same_except in Hloop.
    cbn [ark_path scp_path ark_file scp_file].
    rewrite !_fclose_plain by done. intros Hw.
    assert (w2 = w1) as -> by (by destruct r; simplify_eq).
    eapply same_except_trans; [|exact Hloop].
    repeat split. intros q Hq. simpl.
    rewrite !lookup_insert_ne; [done|intros <-; apply Hq..].
    - apply elem_of_cons. by left.
    - apply elem_of_cons. right. apply elem_of_cons. by left. }
  exists w1. split; [done|]. split; [|done].
  apply map_eq. intros q.
  destruct (decide (q = abspath scp)) as [->|Hq1].
  { by rewrite lookup_insert_eq. }
  rewrite lookup_insert_ne by done.
  destruct (decide (q = abspath ark)) as [->|Hq2].
  { by rewrite lookup_insert_eq. }
  rewrite lookup_insert_ne by done.
  destruct Hframe as (_ & _ & _ & _ & _ & _ & Hfs). apply Hfs.
  intros [->|Hq]%elem_of_cons; [done|].
  apply elem_of_cons in Hq as [->|Hq]; [done|]. by apply elem_of_nil in Hq.
Qed.

(** *** The archive on standard output *)


Lemma set_stdout_twice (a b : list byte) (w : World) :
  set_stdout b (set_stdout a w) = set_stdout b w.
Proof. done. Qed.

(** One call of [write] on a writer whose archive is standard output:
    the record goes to standard output, the position is not asked for, and
    no script line is written. *)
Lemma write_step_stdout (scp : option string) (key : string) (m : Mat)
    (w : World) :
  ArchiveWriter_write
    (MkWriter scp "-" (Some (Stream StdOut true true false)) None) key m w
  = (set_stdout (stdout w ++ record_bytes (key, m)) w, Ok tt).
Proof.
  unfold ArchiveWriter_write, stream_write, record_bytes.
  cbn [ark_file scp_file ark_path closed writable kind negb fst snd].
  eval_mode. io_unfold. cbn [stdout set_stdout].
  by rewrite <- !List.app_assoc.
Qed.

Lemma write_loop_stdout (scp : option string) records (w : World) :
  for_each records
    (fun '(key, mat) =>
       ArchiveWriter_write
         (MkWriter scp "-" (Some (Stream StdOut true true false)) None)
         key mat) w
  = (set_stdout (stdout w ++ archive_bytes records) w, Ok tt).
Proof.
  revert w. induction records as [|[key m] records IH]; intros w.
  - unfold archive_bytes. simpl. rewrite List.app_nil_r. by destruct w.
  - cbn [for_each]. unfold bind. rewrite write_step_stdout, IH.
    cbn [stdout set_stdout]. unfold archive_bytes. rewrite fmap_cons.
    cbn [concat]. by rewrite <- List.app_assoc.
Qed.

Lemma _fopen_stdout (w : World) :
  _fopen (Some "-") "wb" w = (w, Ok (Some (Stream StdOut true true false))).
Proof. reflexivity. Qed.

Lemma _fopen_falsy (scp : option string) (w : World) :
  truthy scp = false -> _fopen scp "w" w = (w, Ok None).
Proof.
  intros Hscp. unfold _fopen. eval_mode. cbn [negb].
  destruct scp as [s|]; [|done]. cbn [truthy] in Hscp. by rewrite Hscp.
Qed.

(** X15.  With the archive address ["-"] the whole [with] block appends
    the records, one after the other, to standard output and succeeds,
    whatever script address is given: a script address that is not empty
    is dropped with one warning, no script is written, and no file is
    created or changed. *)
Theorem write_archive_stdout (scp : option string) records (w : World) :
  write_archive "-" scp records w
  = (set_stdout (stdout w ++ archive_bytes records)
       (if truthy scp then add_warning ignore_scp_warning w else w),
     Ok tt).
Proof.
  unfold write_archive, Writer_init, Writer_enter, Writer_exit, warn.
  eval_mode. cbn [andb].
  destruct (truthy scp) eqn:Hscp; io_unfold;
    cbn [ark_path scp_path ark_file scp_file].
  - rewrite _fopen_stdout, (_fopen_falsy None) by done.
    by rewrite write_loop_stdout.
  - rewrite _fopen_stdout, _fopen_falsy by done.
    rewrite write_loop_stdout. cbn [ark_path scp_path ark_file scp_file].
    unfold _fclose. eval_mode.
    by destruct (bool_decide (scp ≠ Some "-")).
Qed.

(** X16.  After [__exit__] a writer on a regular file holds a closed
    stream: a later [write] raises the error of a closed file and changes
    nothing.  A writer on standard output is left open by [__exit__], and
    a later [write] still appends its record to standard output. *)
Theorem write_after_exit (ark : string) (scp : option string)
    (self entered exited : Writer) (w0 w1 w2 w3 w4 : World)
    (key : string) (m : Mat) (w : World) :
  Writer_init ark scp w0 = (w1, Ok self) ->
  Writer_enter self w1 = (w2, Ok entered) ->
  Writer_exit entered w3 = (w4, Ok exited) ->
  (plain_path ark ->
   ArchiveWriter_write exited key m w
   = (w, Raise (StreamError "I/O operation on closed file")))
  /\ (ark = "-" ->
      ArchiveWriter_write exited key m w
      = (set_stdout (stdout w ++ record_bytes (key, m)) w, Ok tt)).
Proof.
  intros Hinit Henter Hexit. split.
  - intros Hark. pose proof Hark as (_ & Hdash & _).
    revert Hinit. unfold Writer_init.
    rewrite (bool_decide_eq_false_2 (ark = "-")) by done. io_unfold.
    intros [= <- <-]. revert Henter. unfold Writer_enter. io_unfold.
    cbn [ark_path scp_path]. rewrite _fopen_plain_write by (done || by right).
    destruct (_fopen scp "w" _) as [w5 [s|e]]; [|done]. intros [= <- <-].
    revert Hexit. unfold Writer_exit. io_unfold.
    cbn [ark_path scp_path ark_file scp_file].
    rewrite _fclose_plain by done.
    destruct (_fclose scp s) as [s'|e]; [|done]. intros [= <- <-].
    unfold ArchiveWriter_write, stream_write. by io_unfold.
  - intros ->.
    assert (exists sp, self = MkWriter sp "-" None None /\ truthy sp = false)
      as (sp & -> & Hsp).
    { revert Hinit. unfold Writer_init, warn. eval_mode. cbn [andb].
      destruct (truthy scp) eqn:Hscp; io_unfold; intros [= <- <-];
        by eexists. }
    revert Henter. unfold Writer_enter. io_unfold.
    cbn [ark_path scp_path]. rewrite _fopen_stdout, _fopen_falsy by done.
    intros [= <- <-]. revert Hexit. unfold Writer_exit. io_unfold.
    cbn [ark_path scp_path ark_file scp_file]. unfold _fclose. eval_mode.
    destruct (bool_decide (sp ≠ Some "-")); intros [= <- <-];
      apply write_step_stdout.
Qed.

(** X17.  [__enter__] opens the archive before the script.  A pipe as
    archive address is refused before anything is touched.  A pipe as
    script address is refused after the archive file was created or
    emptied: the exception leaves an empty archive file behind. *)
Theorem Writer_enter_refuses_pipes (ark : string) (scp : option string)
    (w : World) :
  (last_char ark = Some "|"%char ->
   Writer_enter (MkWriter scp ark None None) w
   = (w, Raise (RuntimeError "Now only support input from pipe")))
  /\ (plain_path ark ->
      (exists s, scp = Some s /\ last_char s = Some "|"%char) ->
      Writer_enter (MkWriter scp ark None None) w
      = (set_fs (insert (abspath ark) []) w,
         Raise (RuntimeError "Now only support input from pipe"))).
Proof.
  split.
  - intros Hl. unfold Writer_enter. io_unfold. cbn [ark_path scp_path].
    rewrite _fopen_pipe by done. unfold pipe_fopen. eval_mode. by io_unfold.
  - intros Hark (s & -> & Hl). unfold Writer_enter. io_unfold.
    cbn [ark_path scp_path]. rewrite _fopen_plain_write by (done || by right).
    rewrite _fopen_pipe by done. unfold pipe_fopen. eval_mode. by io_unfold.
Qed.

End WriterEffects.

(** ** Sequential readers *)

Section SequentialFacts.
Context `{Platform} {Mat Vec Ali Egs : Type}.
Context `{Codec Mat Vec} `{RecordCodec Mat Ali Egs}.
Implicit Types (records : list (string * Mat)).

(** X18.  A sequential reader on a regular file opens the file anew at
    each iteration and leaves the world as it was: it yields what the
    record generator reads from the content of the file, so that it can be
    iterated again.  When the file does not exist, the iteration (not the
    construction of the reader) ends at once with [FileNotFoundError]. *)
Theorem sequential_iterate_regular_file {T}
    (read : option (list byte) -> list (string * T) * option exn)
    (fname : string) (w : World) :
  plain_path fname ->
  sequential_iterate read (MkSequentialReader (Some fname)) w
  = (w, Ok (match fs w !! abspath fname with
            | Some content => read (Some content)
            | None =>
                ([], Some (FileNotFoundError
                             ("Could not find common file: " +:+ fname)))
            end)).
Proof.
  intros Hplain. unfold sequential_iterate, with_ext_open.
  cbn [ark_or_pipe]. io_unfold.
  rewrite _fopen_plain_read_outcome by (done || by right).
  destruct (fs w !! abspath fname) as [content|] eqn:Hfile; [|done].
  unfold stream_bytes. cbn [closed writable kind]. io_unfold.
  rewrite Hfile. cbn [default]. by rewrite _fclose_plain by done.
Qed.

(** X19.  A sequential reader on a pipe whose command exits with status
    zero, so that its waiter has nothing to report: each iteration starts
    the command, hands its waiter to a thread, and yields what the record
    generator reads from the output of the command. *)
Theorem sequential_iterate_pipe {T}
    (read : option (list byte) -> list (string * T) * option exn)
    (fname : string) (w : World) :
  last_char fname = Some "|"%char ->
  (shell (but_last fname)).2 = 0 ->
  sequential_iterate read (MkSequentialReader (Some fname)) w
  = (add_monitor (but_last fname) (add_spawned (but_last fname) w),
     Ok (read (Some (shell (but_last fname)).1))).
Proof.
  intros Hl _. destruct (pipe_address _ Hl) as [Hne Hdash].
  unfold sequential_iterate, with_ext_open. cbn [ark_or_pipe]. io_unfold.
  rewrite _fopen_pipe by done. unfold pipe_fopen. eval_mode. io_unfold.
  unfold stream_bytes. cbn [closed writable kind]. io_unfold.
  unfold _fclose. rewrite bool_decide_eq_true_2 by congruence.
  rewrite Hl. by rewrite bool_decide_eq_false_2 by (by intros ?).
Qed.

(** Writing to a regular file without script: the world afterwards. *)
Lemma write_step_no_script (scp : option string) (ark key : string) (m : Mat)
    (w : World) (A : list byte) :
  ark <> "-" ->
  fs w !! abspath ark = Some A ->
  ArchiveWriter_write (MkWriter scp ark (Some (ark_stream ark)) None) key m w
  = (set_fs (insert (abspath ark) (A ++ record_bytes (key, m))) w, Ok tt).
Proof.
  intros Hark HA.
  unfold ArchiveWriter_write, stream_write, stream_tell, record_bytes.
  cbn [ark_file scp_file ark_path ark_stream closed writable kind negb fst snd].
  rewrite bool_decide_eq_false_2 by done. io_unfold.
  f_equal. destruct w as [m0 ? ? ? ? ? ?]. unfold set_fs. cbn in *. f_equal.
  rewrite !lookup_insert_eq. cbn [default]. rewrite HA. cbn [default].
  rewrite !insert_insert_eq. unfold id. by rewrite <- !List.app_assoc.
Qed.

Lemma write_loop_no_script (scp : option string) (ark : string) records :
  ark <> "-" ->
  forall (w : World) (A : list byte),
    fs w !! abspath ark = Some A ->
    for_each records
      (fun '(key, mat) =>
         ArchiveWriter_write (MkWriter scp ark (Some (ark_stream ark)) None)
           key mat) w
    = (set_fs (insert (abspath ark) (A ++ archive_bytes records)) w, Ok tt).
Proof.
  intros Hark. induction records as [|[key m] records IH]; intros w A HA.
  - unfold archive_bytes. simpl. rewrite List.app_nil_r.
    destruct w as [m0 ? ? ? ? ? ?]. unfold set_fs. cbn in *.
    by rewrite insert_id.
  - cbn [for_each]. unfold bind.
    rewrite (write_step_no_script _ _ _ _ _ A) by done.
    rewrite (IH _ (A ++ record_bytes (key, m))).
    2:{ simpl. apply lookup_insert_eq. }
    unfold archive_bytes. rewrite fmap_cons. cbn [concat].
    rewrite <- List.app_assoc.
    destruct w as [m0 ? ? ? ? ? ?]. unfold set_fs. cbn.
    by rewrite insert_insert_eq.
Qed.

(** X20.  Without a script address ([None] or the empty string) the
    whole [with] block on a regular file succeeds and changes the world
    in one place: the archive file holds the records, one after the other,
    whatever it held before. *)
Theorem write_archive_without_script (ark : string) (scp : option string)
    records (w : World) :
  plain_path ark -> truthy scp = false ->
  write_archive ark scp records w
  = (set_fs (insert (abspath ark) (archive_bytes records)) w, Ok tt).
Proof.
  intros Hark Hscp. pose proof Hark as (_ & Hdash & _).
  unfold write_archive, Writer_init, Writer_enter, Writer_exit.
  rewrite (bool_decide_eq_false_2 (ark = "-")) by done.
  io_unfold. cbn [ark_path scp_path ark_file scp_file].
  rewrite _fopen_plain_write by (done || by right).
  rewrite _fopen_falsy by done.
  eval_mode. fold (ark_stream ark).
  rewrite (write_loop_no_script _ _ _ Hdash _ []).
  2:{ simpl. apply lookup_insert_eq. }
  cbn [ark_path scp_path ark_file scp_file].
  rewrite _fclose_plain by done.
  assert (_fclose scp None = Ok None) as ->.
  { unfold _fclose. by destruct (bool_decide (scp ≠ Some "-")). }
  destruct w as [m0 ? ? ? ? ? ?]. unfold set_fs. cbn.
  by rewrite insert_insert_eq.
Qed.

(** X21.  Records written by [ArchiveWriter] to a regular file, with
    their script on another regular file, are what an [ArchiveReader] on
    the archive passes to the record generator: when the generator reads
    these bytes back as the records, iterating over the reader yields the
    records in writing order and ends without error. *)
Theorem archive_sequential_roundtrip (ark scp : string) records (w : World) :
  plain_path ark -> plain_path scp -> abspath ark <> abspath scp ->
  read_ark (Some (archive_bytes records)) = (records, None) ->
  exists w1,
    write_archive ark (Some scp) records w = (w1, Ok tt)
    /\ file_at w1 (abspath ark) = archive_bytes records
    /\ ArchiveReader_iterate (MkSequentialReader (Some ark)) w1
       = (w1, Ok (records, None)).
Proof.
  intros Hark Hscp Hne Hread.
  destruct (write_archive_plain ark scp records w Hark Hscp Hne)
    as (w1 & Hwrite & HA & _).
  exists w1. split; [done|]. split; [unfold file_at; by rewrite HA|].
  unfold ArchiveReader_iterate, sequential_iterate, with_ext_open.
  cbn [ark_or_pipe]. io_unfold.
  rewrite _fopen_plain_read_outcome by (done || by right). rewrite HA.
  unfold stream_bytes. cbn [closed writable kind]. io_unfold.
  rewrite HA. cbn [default]. rewrite _fclose_plain by done.
  unfold id. by rewrite Hread.
Qed.

End SequentialFacts.

(** ** The further properties on the sample platform and codec *)

Lemma addr_processor_iff_witness :
  addr_processor "C:/data/a.ark:12" = Ok ("C:/data/a.ark", 12).
Proof.
  apply (proj1 (addr_processor_iff "C:/data/a.ark:12" "C:/data/a.ark" 12)).
  exists "12". repeat split; reflexivity.
Defined.

Lemma parse_scps_returns_iff_witness :
  parse_scps (H:=sample_platform) (Some "feats.scp") addr_identity
             (script_world sound_script)
  = (script_world sound_script,
     Ok [("utt1", "/data/a.ark:5"); ("utt2", "/data/a.ark:80")]).
Proof.
  destruct (parse_scps_returns_iff (H:=sample_platform)
              (Some "feats.scp") addr_identity 4096%nat
              (script_world sound_script) (script_world sound_script)
              (script_world sound_script) script_stream
              [text_line "utt1 /data/a.ark:5"; text_line "utt2 /data/a.ark:80"])
    as [Hiff _].
  - by_computation.
  - exact I.
  - by_computation.
  - repeat constructor.
  - apply Hiff. split; [reflexivity|]. split; [repeat constructor|].
    apply (bool_decide_unpack _). by_computation.
Defined.

Lemma parse_scps_rejected_address_witness :
  parse_scps (H:=sample_platform) (Some "feats.scp") addr_processor
             (script_world plain_address_script)
  = (script_world plain_address_script,
     Raise (ValueError "Unsupported scripts address format")).
Proof.
  apply (parse_scps_rejected_address (H:=sample_platform)
           (Some "feats.scp") addr_processor 4096%nat
           (script_world plain_address_script)
           (script_world plain_address_script)
           (script_world plain_address_script) script_stream
           [text_line "utt1 /data/a.ark:5"] (text_line "utt2 /data/b.ark") []
           [("utt1", ("/data/a.ark", 5))] "utt2" "/data/b.ark").
  - by_computation.
  - exact I.
  - by_computation.
  - repeat constructor.
  - split; [repeat constructor|apply NoDup_singleton].
  - reflexivity.
  - apply (bool_decide_unpack _). by_computation.
  - reflexivity.
Defined.

Lemma parse_scps_without_address_witness :
  Reader_init (H:=sample_platform) None addr_identity empty_world
  = (empty_world, Raise (NoneTypeError "'NoneType' object is not iterable")).
Proof.
  apply (proj2 (parse_scps_without_address (H:=sample_platform)
                  None addr_identity empty_world eq_refl)).
Defined.

Lemma reader_holds_line_entries_witness :
  __contains__ sample_reader "utt2" = true
  /\ exists a,
       addr_processor "/work/feats.ark:17" = Ok a
       /\ dict_get "utt2" (index_dict sample_reader) = Some a.
Proof.
  destruct (reader_holds_line_entries (H:=sample_platform)
              (Some "feats.scp") addr_processor 4096%nat
              sample_archive_world sample_archive_world sample_archive_world
              script_stream
              [StrLine (scp_line "utt1" "/work/feats.ark" 5);
               StrLine (scp_line "utt2" "/work/feats.ark" 17)]
              sample_reader)
    as [Hin Hget].
  - by_computation.
  - exact I.
  - by_computation.
  - repeat constructor.
  - exact sample_reader_built.
  - split.
    + apply Hin.
      exists (StrLine (scp_line "utt2" "/work/feats.ark" 17)),
             "/work/feats.ark:17".
      split; [|reflexivity]. apply elem_of_cons. right.
      apply elem_of_cons. by left.
    + apply (Hget (StrLine (scp_line "utt2" "/work/feats.ark" 17))).
      * apply elem_of_cons. right. apply elem_of_cons. by left.
      * reflexivity.
Defined.

Lemma getitem_loads_indexed_keys_only_witness :
  (exists e, forall (_load : Reader (string * Z) -> string -> IO (list byte)) w,
     __getitem__ _load sample_reader (IntIndex 1) w = (w, Raise e))
  \/ (exists key,
        key ∈ index_keys sample_reader
        /\ forall (_load : Reader (string * Z) -> string -> IO (list byte)) w,
             __getitem__ _load sample_reader (IntIndex 1) w
             = _load sample_reader key w).
Proof.
  apply (getitem_loads_indexed_keys_only (H:=sample_platform)
           (Some "feats.scp") addr_processor
           sample_archive_world sample_archive_world sample_reader
           (IntIndex 1)).
  exact sample_reader_built.
Defined.

Lemma write_archive_replaces_two_files_witness :
  exists w1,
    write_archive (H:=sample_platform) (H0:=sample_codec)
      "feats.ark" (Some "feats.scp") sample_records
      (script_world sound_script) = (w1, Ok tt)
    /\ same_except ["/work/feats.ark"; "/work/feats.scp"]
         (script_world sound_script) w1.
Proof.
  destruct (write_archive_replaces_two_files
              (H:=sample_platform) (H0:=sample_codec)
              "feats.ark" "feats.scp" sample_records
              (script_world sound_script))
    as (w1 & Hwrite & _ & Hsame).
  - apply sample_paths.
  - apply sample_paths.
  - vm_compute. discriminate.
  - repeat constructor.
  - reflexivity.
  - by exists w1.
Defined.

Lemma write_after_exit_witness :
  ArchiveWriter_write (H:=sample_platform) (H0:=sample_codec)
    closed_sample_writer "utt3" [x03] sample_archive_world
  = (sample_archive_world, Raise (StreamError "I/O operation on closed file")).
Proof.
  apply (proj1 (write_after_exit (H:=sample_platform) (H0:=sample_codec)
                  "feats.ark" (Some "feats.scp")
                  (MkWriter (Some "feats.scp") "feats.ark" None None)
                  sample_writer closed_sample_writer
                  empty_world empty_world
                  (Writer_enter (H:=sample_platform)
                     (MkWriter (Some "feats.scp") "feats.ark" None None)
                     empty_world).1
                  sample_archive_world sample_archive_world
                  "utt3" [x03] sample_archive_world
                  eq_refl eq_refl eq_refl)).
  apply sample_paths.
Defined.

Lemma Writer_enter_refuses_pipes_witness :
  Writer_enter (H:=sample_platform)
    (MkWriter (Some "sort |") "feats.ark" None None) sample_archive_world
  = (set_fs (insert "/work/feats.ark" []) sample_archive_world,
     Raise (RuntimeError "Now only support input from pipe")).
Proof.
  apply (proj2 (Writer_enter_refuses_pipes (H:=sample_platform)
                  "feats.ark" (Some "sort |") sample_archive_world)).
  - apply sample_paths.
  - exists "sort |". split; reflexivity.
Defined.

Lemma sequential_iterate_regular_file_witness :
  sequential_iterate (H:=sample_platform) sample_read_ark
    (MkSequentialReader (Some "feats.ark")) sample_archive_world
  = (sample_archive_world, Ok (sample_records, None))
  /\ sequential_iterate (H:=sample_platform) sample_read_ark
       (MkSequentialReader (Some "feats.ark")) empty_world
     = (empty_world,
        Ok ([], Some (FileNotFoundError
                        "Could not find common file: feats.ark"))).
Proof.
  split.
  - rewrite (sequential_iterate_regular_file (H:=sample_platform)
               sample_read_ark "feats.ark" sample_archive_world
               (proj1 sample_paths)).
    reflexivity.
  - rewrite (sequential_iterate_regular_file (H:=sample_platform)
               sample_read_ark "feats.ark" empty_world (proj1 sample_paths)).
    reflexivity.
Defined.

Lemma sequential_iterate_pipe_witness :
  sequential_iterate (H:=sample_platform) sample_read_ark
    (MkSequentialReader (Some "cat feats.ark |")) empty_world
  = (add_monitor "cat feats.ark "
       (add_spawned "cat feats.ark " empty_world),
     Ok ([], Some (CodecError "only support binary mode"))).
Proof.
  apply (sequential_iterate_pipe (H:=sample_platform) sample_read_ark
           "cat feats.ark |" empty_world).
  - reflexivity.
  - reflexivity.
Defined.

Lemma write_archive_without_script_witness :
  write_archive (H:=sample_platform) (H0:=sample_codec)
    "feats.ark" None sample_records empty_world
  = (set_fs (insert "/work/feats.ark"
               (archive_bytes (H0:=sample_codec) sample_records)) empty_world,
     Ok tt).
Proof.
  apply (write_archive_without_script (H:=sample_platform) (H0:=sample_codec)
           "feats.ark" None sample_records empty_world).
  - apply sample_paths.
  - reflexivity.
Defined.

Lemma archive_sequential_roundtrip_witness :
  exists w1,
    write_archive (H:=sample_platform) (H0:=sample_codec)
      "feats.ark" (Some "feats.scp") sample_records empty_world = (w1, Ok tt)
    /\ ArchiveReader_iterate (H:=sample_platform) (H0:=sample_record_codec)
         (MkSequentialReader (Some "feats.ark")) w1
       = (w1, Ok (sample_records, None)).
Proof.
  destruct (archive_sequential_roundtrip
              (H:=sample_platform) (H0:=sample_codec)
              (H1:=sample_record_codec)
              "feats.ark" "feats.scp" sample_records empty_world)
    as (w1 & Hwrite & _ & Hread).
  - apply sample_paths.
  - apply sample_paths.
  - vm_compute. discriminate.
  - reflexivity.
  - by exists w1.
Defined.

(** ** Writing an archive and iterating over its script *)

Section IterationRoundtrip.
Context `{Platform} {Mat Vec : Type} `{Codec Mat Vec}.
Context {laws : PlatformLaws} {symmetric : PositionSymmetric}.
Implicit Types (records : list (string * Mat)).

(** Loads that succeed for the keys of [items], one after the other, and
    leave the world as it was: the loop yields [items]. *)
Lemma consume_items {A P} (_load : Reader A -> string -> IO P)
    (self : Reader A) (items : list (string * P)) (w : World) :
  (forall key p, (key, p) ∈ items -> _load self key w = (w, Ok p)) ->
  forall fuel,
    (length items < fuel)%nat ->
    consume _load self fuel (Generator items.*1) w = (w, Ok (items, None)).
Proof.
  induction items as [|[key p] items IH]; intros Hload fuel Hf.
  - destruct fuel as [|fuel]; [simpl in Hf; lia|]. done.
  - destruct fuel as [|fuel]; [simpl in Hf; lia|].
    rewrite fmap_cons. cbn [consume fst]. unfold next. cbn [pending].
    io_unfold. rewrite (Hload key p) by (apply elem_of_cons; by left).
    cbv beta iota. rewrite IH; [done| |simpl in Hf; lia].
    intros k q Hin. apply Hload. apply elem_of_cons. by right.
Qed.

(** X22.  Under the conditions of the round trip by key (distinct keys
    that are not empty and hold no white space, two different regular
    files, an archive path without white space, a position-symmetric
    codec), what [test_archive_writer] does succeeds: the records are
    written, a [ScriptReader] is built from the script, and iterating over
    it yields the records, keys and payloads, in writing order, and ends
    without error, leaving the world as the writer left it. *)
Theorem archive_iteration_roundtrip (ark scp : string) records (w : World) :
  plain_path ark -> plain_path scp -> abspath ark <> abspath scp ->
  PyStr.no_space (abspath ark) = true ->
  Forall plain_token records.*1 ->
  NoDup records.*1 ->
  exists w1 self,
    write_archive ark (Some scp) records w = (w1, Ok tt)
    /\ ScriptReader_init (Some scp) w1 = (w1, Ok self)
    /\ iterate ScriptReader_load self w1 = (w1, Ok (records, None)).
Proof.
  intros Hark Hscp Hne Hspace Hkeys Hnd.
  destruct (write_archive_plain ark scp records w Hark Hscp Hne)
    as (w1 & Hwrite & HA & HS).
  exists w1, (MkReader (script_entries ark 0 records) records.*1).
  split; [done|]. split; [by apply ScriptReader_init_written|].
  unfold iterate, __iter__. cbn [index_keys].
  apply consume_items; [|rewrite length_fmap; lia].
  intros key m Hin. apply list_elem_of_lookup in Hin as [i Hi].
  destruct (record_offsets_drop records 0%nat [] i key m eq_refl Hi)
    as (offset & Ho & Hnn & Hdrop).
  rewrite List.app_nil_l in Hdrop.
  pose proof (script_entries_lookup ark 0 records i key m offset Hi Ho) as He.
  apply (ScriptReader_load_at _ key ark offset w1 (archive_bytes records)
           (archive_bytes (drop (S i) records)) m); [|done..].
  cbn [index_dict]. eapply dict_get_lookup; [|done].
  by rewrite script_entries_keys.
Qed.

End IterationRoundtrip.

(** ** A script from a pipe and the same script in a file *)

Section BytesAndText.
Context `{Platform} {A : Type}.
Implicit Types (ap : string -> result A).

(** Clean lines are clean by their text. *)
Lemma clean_lines_text ap (lines lines' : list raw_line)
    (entries : list (string * A)) :
  line_text <$> lines = line_text <$> lines' ->
  clean_lines ap lines entries -> clean_lines ap lines' entries.
Proof.
  intros Ht [Hall Hnd]. split; [|done]. clear Hnd. revert lines' Ht.
  induction Hall as [|raw e lines entries He Hall IH]; intros lines' Ht.
  - destruct lines'; [constructor|done].
  - destruct lines' as [|raw' lines']; [done|].
    rewrite !fmap_cons in Ht. injection Ht as Ht1 Ht2.
    constructor; [|by apply IH].
    unfold line_entry, line_tokens in *. by rewrite <- Ht1.
Qed.

Lemma parse_lines_returns_text p p' ap (lines lines' : list raw_line)
    (d : dict A) :
  line_text <$> lines = line_text <$> lines' ->
  parse_lines p ap lines = Ok d -> parse_lines p' ap lines' = Ok d.
Proof.
  intros Ht Hp%parse_lines_ok_inv. apply parse_lines_clean.
  by eapply clean_lines_text.
Qed.

Lemma line_text_ascii_bytes (l : list byte) :
  ascii_bytes l = true -> line_text (BytesLine l) = text_decode l.
Proof.
  intros Hl. unfold line_text. cbn [decode_line].
  by rewrite bytes_decode_ascii.
Qed.

(** For ASCII bytes without carriage return, the lines of a binary
    stream are, once decoded, the lines of the text stream over the same
    bytes. *)
Lemma byte_lines_text_lines (b cur : list byte) :
  ascii_bytes cur = true -> ascii_bytes b = true -> x0d ∉ b ->
  line_text <$> (BytesLine <$> byte_lines_go cur b)
  = text_lines_go (text_decode cur) (text_decode b).
Proof.
  revert cur. induction b as [|x b IH]; intros cur Hcur Hb Hcr.
  - cbn [byte_lines_go]. destruct cur as [|y cur]; [done|].
    cbn [fmap list_fmap]. by rewrite line_text_ascii_bytes.
  - apply not_elem_of_cons in Hcr as [Hx Hcr].
    cbn [ascii_bytes forallb] in Hb. apply andb_true_iff in Hb as [Hxa Hb].
    assert (ascii_bytes (cur ++ [x]) = true) as Hnext.
    { unfold ascii_bytes. rewrite forallb_app. cbn [forallb].
      fold (ascii_bytes cur). by rewrite Hcur, Hxa. }
    cbn [byte_lines_go].
    change (text_decode (x :: b))
      with (String (ascii_of_byte x) (text_decode b)).
    destruct (decide (x = newline_byte)) as [->|Hnl].
    + rewrite !fmap_cons, IH by done.
      rewrite line_text_ascii_bytes by done. by rewrite text_decode_app.
    + rewrite IH by done. rewrite text_decode_app.
      rewrite text_lines_go_char; [done|..].
      * intros Hc. apply Hnl. rewrite <- (byte_of_ascii_of_byte x).
        by rewrite Hc.
      * intros Hc. apply Hx. rewrite <- (byte_of_ascii_of_byte x).
        by rewrite Hc.
Qed.

Lemma line_text_str_lines (l : list string) :
  line_text <$> (StrLine <$> l) = l.
Proof.
  induction l as [|s l IH]; [done|]. rewrite !fmap_cons. by rewrite IH.
Qed.

(** X23.  A script may come out of a pipe or lie in a regular file.  Let
    the command of the pipe exit with status zero and print ASCII bytes
    without carriage return, no more than the pipe can hold while the
    command is waited for, and let the file hold the same bytes.  Then
    [parse_scps] returns a dictionary for the one exactly when it does for
    the other, and it is the same dictionary: the lines of bytes of the
    pipe are decoded to the lines of text of the file. *)
Theorem parse_scps_pipe_or_file (scp file : string) ap (capacity : nat)
    (w : World) (d : dict A) :
  last_char scp = Some "|"%char ->
  (shell (but_last scp)).2 = 0 ->
  (length (shell (but_last scp)).1 <= capacity)%nat ->
  ascii_bytes (shell (but_last scp)).1 = true ->
  x0d ∉ (shell (but_last scp)).1 ->
  plain_path file ->
  fs w !! abspath file = Some (shell (but_last scp)).1 ->
  (parse_scps (Some scp) ap w).2 = Ok d
  <-> (parse_scps (Some file) ap w).2 = Ok d.
Proof.
  intros Hl Hz _ Hascii Hcr Hfile Hcontent.
  rewrite (parse_scps_run (Some scp) ap w
             (add_spawned (but_last scp) w) (add_spawned (but_last scp) w)
             (Some (Stream (PipeStdout (but_last scp)) true false false))
             (BytesLine <$> byte_lines_go [] (shell (but_last scp)).1)).
  2:{ rewrite _fopen_pipe by done. unfold pipe_fopen. eval_mode. io_unfold.
      rewrite waiter_reports_failure. by rewrite bool_decide_eq_true_2. }
  2:{ unfold iter_lines, stream_bytes. cbn [closed writable kind binary].
      by io_unfold. }
  rewrite (parse_scps_run (Some file) ap w w w _ _
             (_fopen_plain_read file w _ Hfile Hcontent)
             (iter_lines_text_file w _ _ Hcontent)).
  cbn [snd].
  pose proof (byte_lines_text_lines (shell (but_last scp)).1 [] eq_refl
                Hascii Hcr) as Htext.
  rewrite <- (line_text_str_lines
                (text_lines_go (text_decode [])
                   (text_decode (shell (but_last scp)).1))) in Htext.
  split; apply parse_lines_returns_text; done.
Qed.

End BytesAndText.

Lemma archive_iteration_roundtrip_witness :
  exists w1 self,
    write_archive (H:=sample_platform) (H0:=sample_codec)
      "feats.ark" (Some "feats.scp") sample_records empty_world = (w1, Ok tt)
    /\ ScriptReader_init (H:=sample_platform) (Some "feats.scp") w1
       = (w1, Ok self)
    /\ iterate sample_load self w1 = (w1, Ok (sample_records, None)).
Proof.
  apply (archive_iteration_roundtrip
           (H:=sample_platform) (H0:=sample_codec)
           (laws:=sample_platform_laws) (symmetric:=sample_codec_symmetric)
           "feats.ark" "feats.scp" sample_records empty_world).
  - apply sample_paths.
  - apply sample_paths.
  - vm_compute. discriminate.
  - reflexivity.
  - repeat constructor.
  - apply (bool_decide_unpack _). by_computation.
Defined.

Lemma parse_scps_pipe_or_file_witness :
  (parse_scps (H:=sample_platform) (Some "utt7 /data/b.ark:3 |")
     addr_identity
     (world_with_script "/work/b.scp" ["utt7 /data/b.ark:3 "])).2
  = Ok [("utt7", "/data/b.ark:3")]
  <-> (parse_scps (H:=sample_platform) (Some "b.scp") addr_identity
         (world_with_script "/work/b.scp" ["utt7 /data/b.ark:3 "])).2
      = Ok [("utt7", "/data/b.ark:3")].
Proof.
  apply (parse_scps_pipe_or_file (H:=sample_platform)
           "utt7 /data/b.ark:3 |" "b.scp" addr_identity 4096%nat
           (world_with_script "/work/b.scp" ["utt7 /data/b.ark:3 "])).
  - reflexivity.
  - reflexivity.
  - vm_compute. lia.
  - reflexivity.
  - apply (bool_decide_unpack _). by_computation.
  - by repeat split.
  - by_computation.
Defined.
